(** * PowerApps Solution Exporter: a shallow embedding of [solution_exporter.py]

    The program is a front-end for the [pac] command line tool.  It parses the
    tool's line-oriented text output, asks for a selection and runs an export.
    The embedding below follows the source function by function:

    - [Py]: the Python built-ins the program calls ([str.strip],
      [str.split], [str.lower], [in], [int], format padding, ...);
    - [PathLib]: the small part of [pathlib] used to build the target path,
      and the file system the program observes;
    - the program itself, as state-passing functions over a [World] that
      holds the file system, the behaviour of the external tool, the lines
      typed on standard input and the text printed so far.

    Characters are the 256 one-byte code points; Python's classification of
    them (whitespace, upper case) is written out.  Message literals of the
    source are kept byte for byte (their glyphs are UTF-8 encoded); they are
    only printed, never parsed. *)

From Stdlib Require Import Ascii String List ZArith Lia Bool.
From stdpp Require Import base strings gmap list.

Local Open Scope string_scope.
Local Open Scope nat_scope.

(** ** Python built-ins *)

Module Py.

(** [c.isspace()] for the code points below 256: TAB..CR, FS..US, SPACE,
    NEL (0x85) and NBSP (0xA0). *)
Definition is_space (c : ascii) : bool :=
  let n := nat_of_ascii c in
  ((9 <=? n) && (n <=? 13)) || ((28 <=? n) && (n <=? 32))
  || (n =? 133) || (n =? 160).

(** [c.lower()]: A..Z and the Latin-1 capitals 0xC0..0xDE (but 0xD7). *)
Definition lower_char (c : ascii) : ascii :=
  let n := nat_of_ascii c in
  if ((65 <=? n) && (n <=? 90))
     || ((192 <=? n) && (n <=? 222) && negb (n =? 215))
  then ascii_of_nat (n + 32) else c.

(** [s.lower()] *)
Fixpoint lower (s : string) : string :=
  match s with
  | EmptyString => EmptyString
  | String c s' => String (lower_char c) (lower s')
  end.

(** [s.startswith(p)] *)
Fixpoint startswith (p s : string) : bool :=
  match p, s with
  | EmptyString, _ => true
  | String _ _, EmptyString => false
  | String a p', String b s' => Ascii.eqb a b && startswith p' s'
  end.

(** [needle in s] *)
Fixpoint contains (needle s : string) : bool :=
  match s with
  | EmptyString => startswith needle EmptyString
  | String _ s' => startswith needle s || contains needle s'
  end.

(** [s.lstrip()] *)
Fixpoint lstrip (s : string) : string :=
  match s with
  | EmptyString => EmptyString
  | String c s' => if is_space c then lstrip s' else s
  end.

(** [s.rstrip()]: a character is dropped when it is whitespace and
    everything after it is dropped too. *)
Fixpoint rstrip (s : string) : string :=
  match s with
  | EmptyString => EmptyString
  | String c s' =>
      match rstrip s' with
      | EmptyString => if is_space c then EmptyString else String c EmptyString
      | r => String c r
      end
  end.

(** [s.strip()] *)
Definition strip (s : string) : string := rstrip (lstrip s).

(** [s.split(sep)] for a one-character separator: never empty,
    [''.split(sep) == ['']]. *)
Fixpoint split_on (sep : ascii) (s : string) : list string :=
  match s with
  | EmptyString => [EmptyString]
  | String c s' =>
      if Ascii.eqb c sep then EmptyString :: split_on sep s'
      else match split_on sep s' with
           | h :: t => String c h :: t
           | [] => [String c EmptyString]
           end
  end.

Definition newline : ascii := "010"%char.

(** [s.split('\n')] *)
Definition split_nl (s : string) : list string := split_on newline s.

(** [s.split()]: maximal runs of non-whitespace characters. *)
Fixpoint split (s : string) : list string :=
  match s with
  | EmptyString => []
  | String c s' =>
      if is_space c then split s'
      else match s' with
           | EmptyString => [String c EmptyString]
           | String c' _ =>
               if is_space c' then String c EmptyString :: split s'
               else match split s' with
                    | h :: t => String c h :: t
                    | [] => [String c EmptyString]
                    end
           end
  end.

(** [sep.join(l)] *)
Fixpoint join (sep : string) (l : list string) : string :=
  match l with
  | [] => EmptyString
  | [x] => x
  | x :: l' => x ++ sep ++ join sep l'
  end.

(** [s[:n]] for [n >= 0] *)
Fixpoint slice_to (n : nat) (s : string) : string :=
  match n, s with
  | O, _ => EmptyString
  | _, EmptyString => EmptyString
  | S n', String c s' => String c (slice_to n' s')
  end.

(** [c * n] for a one-character string *)
Fixpoint repeat_char (c : ascii) (n : nat) : string :=
  match n with
  | O => EmptyString
  | S n' => String c (repeat_char c n')
  end.

(** The format spec [{s:<w}]: pad with spaces on the right up to width [w]. *)
Definition ljust (w : nat) (s : string) : string :=
  s ++ repeat_char " "%char (w - String.length s).

Definition digit_char (d : nat) : ascii := ascii_of_nat (48 + d).

(** [str(n)] for a natural number; the fuel bounds the number of digits. *)
Fixpoint str_of_nat_fuel (fuel n : nat) (acc : string) : string :=
  match fuel with
  | O => acc
  | S fuel' =>
      let acc' := String (digit_char (n mod 10)) acc in
      if n / 10 =? 0 then acc' else str_of_nat_fuel fuel' (n / 10) acc'
  end.

Definition str_of_nat (n : nat) : string := str_of_nat_fuel (S n) n EmptyString.

(** The format spec [{n:0wd}] and what [strftime] does for its numeric
    fields: decimal digits, zero-padded on the left up to width [w]. *)
Definition zfill (w : nat) (s : string) : string :=
  repeat_char "0"%char (w - String.length s) ++ s.

Definition is_digit (c : ascii) : bool :=
  let n := nat_of_ascii c in (48 <=? n) && (n <=? 57).

Fixpoint all_digits (s : string) : bool :=
  match s with
  | EmptyString => true
  | String c s' => is_digit c && all_digits s'
  end.

(** The digits of an [int] literal: decimal digits, with single
    underscores allowed between two digits.  [prev] tells whether the
    previous character was a digit; [acc] is the value read so far. *)
Fixpoint int_digits (prev : bool) (acc : Z) (s : string) : option Z :=
  match s with
  | EmptyString => if prev then Some acc else None
  | String c s' =>
      if is_digit c
      then int_digits true (10 * acc + Z.of_nat (nat_of_ascii c - 48)) s'
      else if Ascii.eqb c "_"%char && prev then int_digits false acc s'
      else None
  end.

(** The whitespace [int] skips at both ends of its argument: TAB..CR,
    SPACE, NEL and NBSP.  Unlike [str.strip] it keeps FS..US. *)
Definition int_space (c : ascii) : bool :=
  let n := nat_of_ascii c in
  ((9 <=? n) && (n <=? 13)) || (n =? 32) || (n =? 133) || (n =? 160).

Fixpoint int_lstrip (s : string) : string :=
  match s with
  | EmptyString => EmptyString
  | String c s' => if int_space c then int_lstrip s' else s
  end.

Fixpoint int_rstrip (s : string) : string :=
  match s with
  | EmptyString => EmptyString
  | String c s' =>
      match int_rstrip s' with
      | EmptyString => if int_space c then EmptyString else String c EmptyString
      | r => String c r
      end
  end.

(** The number of decimal digits of a literal, leading zeros included. *)
Fixpoint count_digits (s : string) : nat :=
  match s with
  | EmptyString => 0
  | String c s' => (if is_digit c then 1 else 0) + count_digits s'
  end.

(** [sys.get_int_max_str_digits()], at its default. *)
Definition int_max_str_digits : nat := 4300.

(** [int(s)]: [Some v] when the call returns [v], [None] when it raises
    [ValueError].  Surrounding whitespace is ignored, one sign is allowed,
    and a literal of more than [int_max_str_digits] digits is refused.
    Among the code points below 256 only [0]..[9] are decimal digits. *)
Definition int (s : string) : option Z :=
  let '(negative, d) :=
    match int_rstrip (int_lstrip s) with
    | String "+" d => (false, d)
    | String "-" d => (true, d)
    | d => (false, d)
    end in
  match int_digits false 0 d with
  | Some v =>
      if count_digits d <=? int_max_str_digits
      then Some (if negative then Z.opp v else v) else None
  | None => None
  end.

(** Whether [s] holds the character NUL, which no path and no argument of
    a process may hold. *)
Definition nul : ascii := "000"%char.

Fixpoint has_nul (s : string) : bool :=
  match s with
  | EmptyString => false
  | String c s' => Ascii.eqb c nul || has_nul s'
  end.

End Py.

(** ** Paths and the file system *)

Module PathLib.

(** A [PurePosixPath], which is what [Path] builds on Linux and macOS: its
    root ([""], ["/"] or ["//"]) and its parts.  (On Windows [Path] builds a
    [PureWindowsPath], with drives and backslashes; that flavour is not
    modelled.) *)
Record Path := mkPath { root : string; parts : list string }.

Definition is_part (p : string) : bool :=
  negb (String.eqb p "") && negb (String.eqb p ".").

(** [Path(s)]: empty components and ["."] are dropped; exactly two leading
    slashes are kept as a root of their own. *)
Definition parse (s : string) : Path :=
  {| root := if Py.startswith "///" s then "/"
             else if Py.startswith "//" s then "//"
             else if Py.startswith "/" s then "/" else "";
     parts := List.filter is_part (Py.split_on "/" s) |}.

(** [p / s]: an absolute right operand replaces the left one. *)
Definition joinpath (p : Path) (s : string) : Path :=
  let q := parse s in
  if String.eqb (root q) "" then {| root := root p; parts := parts p ++ parts q |}
  else q.

(** [str(p)] *)
Definition str (p : Path) : string :=
  match root p, parts p with
  | EmptyString, [] => "."
  | r, ps => r ++ Py.join "/" ps
  end.

(** The paths from the first part down to [p] itself, outermost first:
    the directories [mkdir(parents=True)] walks through. *)
Definition ancestors_and_self (p : Path) : list Path :=
  map (fun n => {| root := root p; parts := take n (parts p) |})
      (seq 1 (length (parts p))).

(** Whether [q] lies under the directory [p], component by component. *)
Fixpoint is_prefix (l1 l2 : list string) : bool :=
  match l1, l2 with
  | [], _ => true
  | _ :: _, [] => false
  | a :: l1', b :: l2' => String.eqb a b && is_prefix l1' l2'
  end.

Definition is_inside (p q : Path) : bool :=
  String.eqb (root p) (root q) && is_prefix (parts p) (parts q)
  && (length (parts p) <? length (parts q)).

End PathLib.

(** What the program can observe of a directory entry.  The size of a
    directory is platform specific and never read by the program on a path
    it reports; it is taken to be 0. *)
Inductive Entry := Dir | File (st_size : N).

(** The file system, keyed by [str(path)].  Paths are neither resolved
    against the working directory nor through [".."] or links; the working
    directory and the root always exist. *)
Abbreviation FS := (gmap string Entry).

Definition fs_lookup (fs : FS) (p : PathLib.Path) : option Entry :=
  match PathLib.parts p with
  | [] => Some Dir
  | _ => fs !! PathLib.str p
  end.

(** Whether the file system holds an entry at [p]. *)
Definition path_exists (fs : FS) (p : PathLib.Path) : bool :=
  bool_decide (is_Some (fs_lookup fs p)).

Definition is_dir (fs : FS) (p : PathLib.Path) : bool :=
  match fs_lookup fs p with Some Dir => true | _ => false end.

(** [p.stat().st_size] of an existing path *)
Definition st_size (fs : FS) (p : PathLib.Path) : N :=
  match fs_lookup fs p with Some (File n) => n | _ => 0%N end.

(** One step of [mkdir], given the path strings whose lookup the operating
    system fails: an existing directory is kept ([exist_ok]), a missing one
    is created, anything else in the way, and a lookup that fails, is an
    [OSError]. *)
Definition mkdir_step (fails : string -> bool) (acc : option FS) (p : PathLib.Path)
  : option FS :=
  fs ← acc;
  if fails (PathLib.str p) then None
  else match fs_lookup fs p with
       | Some Dir => Some fs
       | Some (File _) => None
       | None => Some (<[PathLib.str p := Dir]> fs)
       end.

(** [p.mkdir(parents=True, exist_ok=True)] on a path without NUL; [None]
    when it raises [OSError]. *)
Definition mkdir_parents (fails : string -> bool) (fs : FS) (p : PathLib.Path)
  : option FS :=
  foldl (mkdir_step fails) (Some fs) (PathLib.ancestors_and_self p).

(** ** The world the program runs in *)

(** [subprocess.CompletedProcess] *)
Record CompletedProcess := mkCompleted {
  returncode : Z;
  stdout : string;
  stderr : string
}.

(** How [subprocess.run] ends: it returns; it raises [FileNotFoundError]
    (no executable on the search path); the user interrupts it; it raises
    another [OSError] (the executable may not be run: [PermissionError]; the
    argument list is too long); or it raises [ValueError] (an argument holds
    NUL; the captured output is not valid text: [UnicodeDecodeError]). *)
Inductive ProcOutcome :=
| Completed (cp : CompletedProcess)
| ExecutableNotFound
| ProcInterrupted
| ProcOSError
| ProcValueError.

(** [datetime.now()] *)
Record datetime := mkDatetime {
  year : nat; month : nat; day : nat;
  hour : nat; minute : nat; second : nat
}.

(** What the user does at a prompt: types a line or presses Ctrl-C.  The end
    of the list is the end of standard input. *)
Inductive Typed := Line (s : string) | CtrlC.

(** What the program does that can be seen from outside: text on the
    terminal and calls of [subprocess.run], which invoke the tool.  [Spawn]
    records the call with its arguments, however it ends.  The spinner's
    animation and the elapsed time of its final status line depend on real
    time and are not modelled: [SpinnerStart] records that the spinner
    thread was started, [SpinnerStop] the label and the success flag it was
    stopped with. *)
Inductive Event :=
| Print (s : string)
| Prompt (s : string)
| SpinnerStart (message : string)
| SpinnerStop (message : string) (success : bool)
| Spawn (args : list string) (capture_output : bool).

(** The external tool is a function of the number of invocations so far, the
    argument list, the capture mode and the file system it finds; it answers
    with an outcome and the file system it leaves.  [clock] is what
    [datetime.now()] reads after that many invocations, [recursion_limit]
    the number of nested calls of [export_another_solution] the interpreter
    allows before it raises [RecursionError].  [lookup_fails] tells for
    which path strings the operating system fails a lookup with an error
    other than "no such file" (a name that is too long, a directory that may
    not be searched): there [Path.exists] and [Path.mkdir] raise
    [OSError]. *)
Record World := mkWorld {
  fs : FS;
  pac : nat -> list string -> bool -> FS -> ProcOutcome * FS;
  ncalls : nat;
  clock : nat -> datetime;
  stdin : list Typed;
  out : list Event;
  recursion_limit : nat;
  lookup_fails : string -> bool
}.

Inductive Exn :=
| OSError | ValueError | EOFError | KeyboardInterrupt | IndexError | RecursionError.

(** How a call ends: it returns a value, calls [sys.exit] or raises. *)
Inductive Outcome (A : Type) :=
| Return (a : A)
| SysExit (code : Z)
| Raise (e : Exn).
Arguments Return {A} a.
Arguments SysExit {A} code.
Arguments Raise {A} e.

Definition IO (A : Type) : Type := World -> Outcome A * World.

Definition ret {A} (a : A) : IO A := fun w => (Return a, w).

Definition bind {A B} (m : IO A) (k : A -> IO B) : IO B :=
  fun w =>
    match m w with
    | (Return a, w') => k a w'
    | (SysExit c, w') => (SysExit c, w')
    | (Raise e, w') => (Raise e, w')
    end.

Declare Scope io_scope.
Delimit Scope io_scope with io.
Notation "x <- m ;; k" := (bind m (fun x => k))
  (at level 100, m at next level, right associativity) : io_scope.
Notation "m ;; k" := (bind m (fun _ => k))
  (at level 100, right associativity) : io_scope.
Local Open Scope io_scope.

Definition sys_exit {A} (code : Z) : IO A := fun w => (SysExit code, w).
Definition raise {A} (e : Exn) : IO A := fun w => (Raise e, w).

(** The world after some more events. *)
Definition add_out (events : list Event) (w : World) : World :=
  mkWorld (fs w) (pac w) (ncalls w) (clock w) (stdin w) (out w ++ events)
          (recursion_limit w) (lookup_fails w).

Definition set_stdin (rest : list Typed) (w : World) : World :=
  mkWorld (fs w) (pac w) (ncalls w) (clock w) rest (out w) (recursion_limit w)
          (lookup_fails w).

Definition set_fs (files : FS) (w : World) : World :=
  mkWorld files (pac w) (ncalls w) (clock w) (stdin w) (out w) (recursion_limit w)
          (lookup_fails w).

(** The world after a call of [subprocess.run] that left the files [files]. *)
Definition spawned (args : list string) (capture_output : bool) (files : FS)
  (w : World) : World :=
  mkWorld files (pac w) (S (ncalls w)) (clock w) (stdin w)
          (out w ++ [Spawn args capture_output]) (recursion_limit w) (lookup_fails w).

Definition emit (e : Event) : IO unit := fun w => (Return tt, add_out [e] w).

(** [print(s)] *)
Definition print (s : string) : IO unit := emit (Print s).

(** [input(prompt)] *)
Definition input (prompt : string) : IO string :=
  emit (Prompt prompt);;
  fun w =>
    match stdin w with
    | [] => (Raise EOFError, w)
    | Line s :: rest => (Return s, set_stdin rest w)
    | CtrlC :: rest => (Raise KeyboardInterrupt, set_stdin rest w)
    end.

(** How [subprocess.run(["pac"] + args, capture_output=..., text=True,
    check=False)] ends on the files [files], and the files it leaves: an
    argument that holds NUL is a [ValueError] before anything is run;
    otherwise the tool decides. *)
Definition run_outcome (w : World) (args : list string) (capture_output : bool)
  (files : FS) : ProcOutcome * FS :=
  if existsb Py.has_nul args then (ProcValueError, files)
  else pac w (ncalls w) args capture_output files.

(** [subprocess.run(["pac"] + args, capture_output=..., text=True, check=False)] *)
Definition subprocess_run (args : list string) (capture_output : bool)
  : World -> ProcOutcome * World :=
  fun w =>
    let '(r, files) := run_outcome w args capture_output (fs w) in
    (r, spawned args capture_output files w).

(** [datetime.now()] *)
Definition datetime_now : IO datetime := fun w => (Return (clock w (ncalls w)), w).

Definition get_fs : IO FS := fun w => (Return (fs w), w).

(** How [p.mkdir(parents=True, exist_ok=True)] ends: the files it leaves,
    or the exception it raises ([ValueError] for a path that holds NUL). *)
Definition mkdir (w : World) (p : PathLib.Path) : Exn + FS :=
  if Py.has_nul (PathLib.str p) then inl ValueError
  else match mkdir_parents (lookup_fails w) (fs w) p with
       | Some files => inr files
       | None => inl OSError
       end.

(** [Path.mkdir(parents=True, exist_ok=True)] *)
Definition path_mkdir (p : PathLib.Path) : IO unit :=
  fun w =>
    match mkdir w p with
    | inr files => (Return tt, set_fs files w)
    | inl e => (Raise e, w)
    end.

(** [p.exists()]: a path that holds NUL does not exist; a lookup the
    operating system fails is re-raised. *)
Definition exists_ (p : PathLib.Path) : IO bool :=
  fun w =>
    if Py.has_nul (PathLib.str p) then (Return false, w)
    else if lookup_fails w (PathLib.str p) then (Raise OSError, w)
    else (Return (path_exists (fs w) p), w).

(** [x = init; try: x = body() finally: cleanup(x)]: the cleanup reads the
    variable the body assigns, which still holds [init] when the body did
    not return; whatever ended the body goes on after the cleanup. *)
Definition try_finally {A} (init : A) (body : IO A) (cleanup : A -> IO unit) : IO A :=
  fun w =>
    match body w with
    | (Return a, w') => (cleanup a;; ret a) w'
    | (SysExit c, w') => (cleanup init;; sys_exit c) w'
    | (Raise e, w') => (cleanup init;; raise e) w'
    end.

Definition nonempty (s : string) : bool := negb (String.eqb s "").

Definition eq_any (s : string) (l : list string) : bool := existsb (String.eqb s) l.

(** ** The program *)

Definition nl : string := String Py.newline EmptyString.

Definition when (b : bool) (m : IO unit) : IO unit := if b then m else ret tt.

Fixpoint for_each {A} (l : list A) (body : A -> IO unit) : IO unit :=
  match l with
  | [] => ret tt
  | x :: l' => body x;; for_each l' body
  end.

(** [run_pac_command]: the tool's exit status is data; only a missing
    executable ends the program. *)
Definition run_pac_command (args : list string) (capture_output : bool)
  : IO CompletedProcess :=
  fun w =>
    match subprocess_run args capture_output w with
    | (Completed cp, w') => (Return cp, w')
    | (ExecutableNotFound, w') =>
        (print (nl ++ "❌ Error: PowerApps CLI (pac) is not installed or not in PATH.");;
         print (nl ++ "Install it using one of these methods:");;
         print "  • .NET:      dotnet tool install --global Microsoft.PowerApps.CLI.Tool";;
         print "  • Windows:   Download from https://aka.ms/PowerAppsCLI";;
         print "  • macOS:     brew install microsoft/mssql-release/powerapps-cli";;
         print (nl ++ "After installation, restart your terminal and try again.");;
         sys_exit 1) w'
    | (ProcInterrupted, w') => (Raise KeyboardInterrupt, w')
    | (ProcOSError, w') => (Raise OSError, w')
    | (ProcValueError, w') => (Raise ValueError, w')
    end.

(** [check_pac_installed] *)
Definition check_pac_installed : IO bool :=
  print "🔍 Checking for PowerApps CLI (pac)...";;
  result <- run_pac_command ["help"] true;;
  let output := if nonempty (stderr result)
                then stdout result ++ stderr result else stdout result in
  if Py.contains "Microsoft PowerPlatform CLI" output || Py.contains "Version:" output
  then
    match List.find (Py.contains "Version:") (Py.split_nl output) with
    | Some line => print ("✅ Found pac CLI: " ++ Py.strip line);; ret true
    | None => print "✅ Found pac CLI";; ret true
    end
  else print "❌ pac CLI check failed.";; ret false.

(** The lines the auth listing loop skips (source line 139). *)
Definition auth_skipped (line : string) : bool :=
  Py.contains "---" line || Py.contains "Index" line || negb (nonempty (Py.strip line)).

(** The test of source line 141 on a line that is not skipped. *)
Definition auth_line_active (line : string) : bool :=
  Py.contains "http" (Py.lower line) && Py.contains "crm" (Py.lower line).

(** The gate of source line 134 on the whole output. *)
Definition auth_gate (stdout_text : string) : bool :=
  let output := Py.lower stdout_text in
  Py.contains "active" output
  || (Py.contains "http" output && negb (Py.contains "universal" (Py.lower output))).

(** [has_active] as computed by source lines 130-143. *)
Definition has_active_profile (result : CompletedProcess) : bool :=
  if (returncode result =? 0)%Z && nonempty (stdout result) then
    if auth_gate (stdout result) then
      existsb (fun line => negb (auth_skipped line) && auth_line_active line)
              (Py.split_nl (Py.strip (stdout result)))
    else false
  else false.

(** Source lines 154-179: ask for the environment URL and sign in. *)
Definition sign_in : IO bool :=
  print (nl ++ "📝 No active profile found or creating new one...");;
  print ("This will open a browser window for you to sign in." ++ nl);;
  typed <- input "Enter your environment URL (e.g., https://yourorg.crm.dynamics.com): ";;
  let env_url := Py.strip typed in
  if negb (nonempty env_url) then
    print "❌ Environment URL is required.";; ret false
  else
    let env_url := if negb (Py.startswith "http" env_url)
                   then "https://" ++ env_url else env_url in
    print (nl ++ "🌐 Opening browser for authentication to: " ++ env_url);;
    print ("Please complete the sign-in process in your browser..." ++ nl);;
    auth_result <- run_pac_command ["auth"; "create"; "--url"; env_url] false;;
    if (returncode auth_result =? 0)%Z then
      print (nl ++ "✅ Authentication successful!");; ret true
    else
      print (nl ++ "❌ Authentication failed. Please try again.");; ret false.

(** [ensure_authenticated] *)
Definition ensure_authenticated : IO bool :=
  print (nl ++ "🔐 Checking authentication status...");;
  result <- run_pac_command ["auth"; "list"] true;;
  if has_active_profile result then
    print "✅ Found existing authentication profile.";;
    print (nl ++ "📋 Current profiles:");;
    print (stdout result);;
    typed <- input (nl ++ "Use existing profile? (Y/n): ");;
    let use_existing := Py.lower (Py.strip typed) in
    if eq_any use_existing [""; "y"; "yes"] then ret true else sign_in
  else sign_in.

(** A solution record: the dictionary built at source lines 208-211. *)
Record Solution := mkSolution { unique_name : string; raw_line : string }.

(** The lines the solution listing loop skips (source line 200). *)
Definition listing_skipped (line : string) : bool :=
  Py.contains "---" line || Py.contains "Unique Name" line
  || negb (nonempty (Py.strip line)).

(** One turn of the parsing loop (source lines 199-211). *)
Definition parse_line (line : string) : option Solution :=
  if listing_skipped line then None
  else match Py.split line with
       | first :: _ =>
           if Py.startswith "-" first then None
           else Some {| unique_name := first; raw_line := line |}
       | [] => None
       end.

(** The parsing loop over [result.stdout.strip().split('\n')]. *)
Definition parse_solutions (stdout_text : string) : list Solution :=
  omap parse_line (Py.split_nl (Py.strip stdout_text)).

(** [parts[-k]] for [1 <= k]; [None] is Python's [IndexError]. *)
Definition from_end (k : nat) (parts : list string) : option string :=
  if k <=? length parts then parts !! (length parts - k) else None.

(** [parts[1:-k]] *)
Definition middle (k : nat) (parts : list string) : list string :=
  take (length parts - k - 1) (drop 1 parts).

(** The columns of a table row (source lines 226-244).  [managed] is the
    empty string when no flag was recognised, as in the source. *)
Record Columns := mkColumns {
  col_unique_name : string;
  col_friendly_name : string;
  col_version : string;
  col_managed : string
}.

Definition is_flag (token : string) : bool := eq_any token ["True"; "False"].

(** Source lines 243-244. *)
Definition truncate_friendly (friendly_name : string) : string :=
  if 24 <? String.length friendly_name
  then Py.slice_to 21 friendly_name ++ "..." else friendly_name.

Definition columns (raw : string) : Columns :=
  let parts := Py.split raw in
  let unique := match parts with p :: _ => p | [] => "" end in
  if 3 <=? length parts then
    let last_token := default "" (from_end 1 parts) in
    let version := if is_flag last_token
                   then default "" (from_end 2 parts) else last_token in
    let managed := if is_flag last_token then last_token else "" in
    let friendly_parts := if nonempty managed then middle 2 parts else middle 1 parts in
    {| col_unique_name := unique;
       col_friendly_name := truncate_friendly (Py.join " " friendly_parts);
       col_version := version;
       col_managed := managed |}
  else
    {| col_unique_name := unique;
       col_friendly_name := truncate_friendly "";
       col_version := "";
       col_managed := "" |}.

(** The row printed at source line 246. *)
Definition render_row (idx : nat) (sol : Solution) : string :=
  let c := columns (raw_line sol) in
  Py.ljust 4 (Py.str_of_nat idx) ++ " " ++ Py.ljust 30 (col_unique_name c) ++ " "
  ++ Py.ljust 25 (col_friendly_name c) ++ " " ++ col_version c.

(** What [list_solutions] returns for a completed listing invocation
    (source lines 188-215 and 251). *)
Definition listed (result : CompletedProcess) : list Solution :=
  if negb (returncode result =? 0)%Z then []
  else if nonempty (stdout result) then parse_solutions (stdout result) else [].

(** [list_solutions] *)
Definition list_solutions : IO (list Solution) :=
  print (nl ++ "📦 Fetching available solutions...");;
  result <- run_pac_command ["solution"; "list"] true;;
  if negb (returncode result =? 0)%Z then
    print "❌ Failed to fetch solutions. Make sure you're authenticated.";;
    when (nonempty (stderr result)) (print ("Error: " ++ stderr result));;
    ret []
  else
    let solutions := if nonempty (stdout result)
                     then parse_solutions (stdout result) else [] in
    match solutions with
    | [] => print "No solutions found or unable to parse output.";; ret []
    | _ :: _ =>
        print (nl ++ Py.repeat_char "=" 70);;
        print "AVAILABLE SOLUTIONS";;
        print (Py.repeat_char "=" 70);;
        print (Py.ljust 4 "#" ++ " " ++ Py.ljust 30 "Unique Name" ++ " "
               ++ Py.ljust 25 "Friendly Name" ++ " " ++ "Version");;
        print (Py.repeat_char "-" 70);;
        for_each (imap (fun i sol => render_row (S i) sol) solutions) print;;
        print (Py.repeat_char "-" 70);;
        print ("Total: " ++ Py.str_of_nat (length solutions) ++ " solutions");;
        ret solutions
    end.

(** [strftime("%Y%m%d_%H%M%S")]; [%Y] prints the year without padding. *)
Definition two_digits (n : nat) : string := Py.zfill 2 (Py.str_of_nat n).

(** [strftime("%Y%m%d")] and [strftime("%H%M%S")] *)
Definition date_part (d : datetime) : string :=
  Py.str_of_nat (year d) ++ two_digits (month d) ++ two_digits (day d).

Definition time_part (d : datetime) : string :=
  two_digits (hour d) ++ two_digits (minute d) ++ two_digits (second d).

Definition timestamp (d : datetime) : string :=
  date_part d ++ "_" ++ time_part d.

(** Source line 263. *)
Definition export_filename (solution_name : string) (d : datetime) : string :=
  solution_name ++ "_" ++ timestamp d ++ ".zip".

(** [f"{size / (1024 * 1024):.2f}"]: the quotient is exact in binary
    floating point (below 2^53 bytes), and the format rounds it to the
    nearest hundredth, ties to even. *)
Definition format_mb (size : N) : string :=
  let n := (size * 100)%N in
  let q := (n / 1048576)%N in
  let r := (n mod 1048576)%N in
  let h := if ((524288 <? r) || ((r =? 524288) && N.odd q))%N then (q + 1)%N else q in
  Py.str_of_nat (N.to_nat (h / 100)) ++ "." ++ two_digits (N.to_nat (h mod 100)).

(** The argument list of the export invocation (source lines 278-284). *)
Definition export_args (solution_name : string) (full_path : PathLib.Path) : list string :=
  ["solution"; "export"; "--name"; solution_name;
   "--path"; PathLib.str full_path; "--managed"; "false"; "--overwrite"].

Definition spinner_message (solution_name : string) : string :=
  "Exporting " ++ solution_name.

Definition not_found_warning : string :=
  nl ++ "⚠️  Export command completed but file was not found.".

(** [export_solution] *)
Definition export_solution (solution_name output_dir : string) : IO bool :=
  let output_path := PathLib.parse output_dir in
  path_mkdir output_path;;
  now <- datetime_now;;
  let filename := export_filename solution_name now in
  let full_path := PathLib.joinpath output_path filename in
  print (nl ++ "📥 Exporting solution: " ++ solution_name);;
  print ("   Output: " ++ PathLib.str full_path);;
  print "   Type: Unmanaged";;
  print "";;
  emit (SpinnerStart (spinner_message solution_name));;
  result <- try_finally None
    (r <- run_pac_command (export_args solution_name full_path) true;; ret (Some r))
    (fun result =>
       success <- match result with
                  | Some r =>
                      if (returncode r =? 0)%Z then exists_ full_path else ret false
                  | None => ret false
                  end;;
       emit (SpinnerStop (spinner_message solution_name) success));;
  match result with
  | None => print (nl ++ "❌ Failed to run export command");; ret false
  | Some result =>
      if (returncode result =? 0)%Z then
        found <- exists_ full_path;;
        if found then
          files <- get_fs;;
          print ("   📁 File: " ++ PathLib.str full_path);;
          print ("   📊 Size: " ++ format_mb (st_size files full_path) ++ " MB");;
          ret true
        else
          print not_found_warning;;
          print ("   Expected location: " ++ PathLib.str full_path);;
          when (nonempty (stdout result)) (print ("   Output: " ++ stdout result));;
          ret false
      else
        print (nl ++ "❌ Failed to export solution: " ++ solution_name);;
        print "   Please verify the solution name is correct.";;
        when (nonempty (stderr result)) (print ("   Error: " ++ stderr result));;
        ret false
  end.

Definition default_output_dir : string := "./exports".

(** The selection block (source lines 348-360 in [main], 395-406 in
    [export_another_solution]).  The two copies differ only in how they
    leave on failure ([sys.exit(1)] against [return]), which is left to the
    caller: [None] is a failed selection, after its message. *)
Definition resolve_selection (selection : string) (solutions : list Solution)
  : IO (option string) :=
  match Py.int selection with
  | Some idx =>
      if ((idx <? 1) || (Z.of_nat (length solutions) <? idx))%Z then
        print ("❌ Invalid selection. Please enter a number between 1 and "
               ++ Py.str_of_nat (length solutions) ++ ".");;
        ret None
      else
        match solutions !! Z.to_nat (idx - 1) with
        | Some sol => ret (Some (unique_name sol))
        | None => raise IndexError
        end
  | None =>
      let solution_name := selection in
      if negb (nonempty solution_name) then
        print "❌ Solution name is required.";; ret None
      else
        print ("ℹ️  Using direct name input: " ++ solution_name);;
        ret (Some solution_name)
  end.

(** Source lines 365-373 and 411-418: after a successful export. *)
Definition offer_another (export_another : IO unit) : IO unit :=
  print (nl ++ Py.repeat_char "=" 60);;
  print "🎉 Export complete!";;
  print (Py.repeat_char "=" 60);;
  typed <- input (nl ++ "Export another solution? (y/N): ");;
  if eq_any (Py.lower (Py.strip typed)) ["y"; "yes"] then export_another else ret tt.

(** [export_another_solution] up to the selection (source lines 380-406):
    the name to export, or [None] where the source returns before any
    export. *)
Definition another_select : IO (option string) :=
  solutions <- list_solutions;;
  match solutions with
  | [] => print "❌ No solutions available to export.";; ret None
  | _ :: _ =>
      print (nl ++ Py.repeat_char "-" 70);;
      typed <- input "Enter the number of the solution to export (or 'q' to quit): ";;
      let selection := Py.strip typed in
      if String.eqb (Py.lower selection) "q" then print "👋 Goodbye!";; ret None
      else resolve_selection selection solutions
  end.

(** [export_another_solution]; [depth] is the number of nested calls the
    interpreter still allows. *)
Fixpoint export_another_solution (depth : nat) : IO unit :=
  match depth with
  | O => raise RecursionError
  | S depth' =>
      chosen <- another_select;;
      match chosen with
      | None => ret tt
      | Some solution_name =>
          success <- export_solution solution_name default_output_dir;;
          if success then offer_another (export_another_solution depth')
          else ret tt
      end
  end.

(** [main] up to the selection (source lines 318-360): the name to export. *)
Definition main_select : IO string :=
  print (Py.repeat_char "=" 60);;
  print "  PowerApps Solution Exporter";;
  print "  Export unmanaged solutions from Dynamics 365 / Power Platform";;
  print (Py.repeat_char "=" 60);;
  installed <- check_pac_installed;;
  if negb installed then sys_exit 1
  else
    authenticated <- ensure_authenticated;;
    if negb authenticated then
      print (nl ++ "❌ Authentication required to continue.");; sys_exit 1
    else
      solutions <- list_solutions;;
      match solutions with
      | [] => print "❌ No solutions available to export.";; sys_exit 1
      | _ :: _ =>
          print (nl ++ Py.repeat_char "-" 70);;
          typed <- input "Enter the number of the solution to export (or 'q' to quit): ";;
          let selection := Py.strip typed in
          if String.eqb (Py.lower selection) "q" then print "👋 Goodbye!";; sys_exit 0
          else
            resolved <- resolve_selection selection solutions;;
            match resolved with
            | None => sys_exit 1
            | Some solution_name => ret solution_name
            end
      end.

(** [main] from the export on (source lines 362-375). *)
Definition main_export (solution_name : string) : IO unit :=
  success <- export_solution solution_name default_output_dir;;
  if success then
    fun w => offer_another (export_another_solution (recursion_limit w)) w
  else sys_exit 1.

(** [main] *)
Definition main : IO unit :=
  solution_name <- main_select;;
  main_export solution_name.

(** The script's entry point (source lines 421-426) and the status the
    interpreter exits with: 0 when [main] returns, the argument of
    [sys.exit], 0 after the handler of [KeyboardInterrupt], 1 for an
    exception nobody catches.  The interpreter exits once its threads have
    ended; see [hangs]. *)
Definition program (w : World) : Z * World :=
  match main w with
  | (Return _, w') => (0%Z, w')
  | (SysExit code, w') => (code, w')
  | (Raise KeyboardInterrupt, w') =>
      let '(_, w'') := print (nl ++ nl ++ "⚠️  Export cancelled by user.") w' in
      (0%Z, w'')
  | (Raise _, w') => (1%Z, w')
  end.

Definition exit_code (w : World) : Z := fst (program w).

(** Whether a spinner is running after [events]: [Spinner.start] starts a
    thread that loops until [Spinner.stop] clears its flag (source lines
    32 and 43-50). *)
Definition spinner_step (running : bool) (e : Event) : bool :=
  match e with
  | SpinnerStart _ => true
  | SpinnerStop _ _ => false
  | _ => running
  end.

Definition spinning (events : list Event) : bool :=
  fold_left spinner_step events false.

(** The spinner thread is not a daemon: when the main thread is done while
    a spinner is running, the interpreter waits for it and the process does
    not end. *)
Definition hangs (w : World) : bool := spinning (out (snd (program w))).

(** An authentication profile: the dictionary built at source line 118. *)
Record AuthProfile := mkAuthProfile { raw : string }.

(** The test of source line 117. *)
Definition profile_line (line : string) : bool :=
  Py.contains "Active" line || Py.contains "http" (Py.lower line).

(** What [get_auth_profiles] returns for a completed listing (source lines
    112-120). *)
Definition profiles_of (result : CompletedProcess) : list AuthProfile :=
  if (returncode result =? 0)%Z && nonempty (stdout result)
  then map mkAuthProfile
           (List.filter profile_line (Py.split_nl (Py.strip (stdout result))))
  else [].

(** [get_auth_profiles] *)
Definition get_auth_profiles : IO (list AuthProfile) :=
  result <- run_pac_command ["auth"; "list"] true;;
  ret (profiles_of result).

(** The format spec [{n:02d}] of an integer: the sign of a negative number
    counts towards the width. *)
Definition format_02d (n : Z) : string :=
  if (n <? 0)%Z then "-" ++ Py.zfill 1 (Py.str_of_nat (Z.abs_nat n))
  else Py.zfill 2 (Py.str_of_nat (Z.abs_nat n)).

(** The elapsed time shown by the spinner (source lines 33-35 and 54-56):
    [divmod(elapsed, 60)] printed as [f"{mins:02d}:{secs:02d}"].  The
    elapsed time is the difference of two readings of the system clock,
    cut to an integer; it is negative when the clock was set back. *)
Definition time_str (elapsed : Z) : string :=
  let mins := (elapsed / 60)%Z in
  let secs := (elapsed mod 60)%Z in
  format_02d mins ++ ":" ++ format_02d secs.

(** ** What the specification says, as predicates on the embedding *)

(** The version and managed-flag rule for a listing line: the last token is
    the flag and the one before it the version when the last token is a
    boolean literal, otherwise the last token is the version and there is
    no flag. *)
Definition version_rule (raw : string) : Prop :=
  let parts := Py.split raw in
  forall last_token, from_end 1 parts = Some last_token ->
    if is_flag last_token
    then from_end 2 parts = Some (col_version (columns raw))
         /\ col_managed (columns raw) = last_token
    else col_version (columns raw) = last_token /\ col_managed (columns raw) = "".

(** A header, separator or empty line in the words of the specification. *)
Definition spec_header_line (line : string) : Prop :=
  line = "" \/ Py.contains "---" line = true
  \/ Py.contains "Index" line = true \/ Py.contains "Unique Name" line = true.

(** A header, separator or blank line as the listing loop sees it. *)
Definition listing_header_line (line : string) : Prop :=
  Py.strip line = "" \/ Py.contains "---" line = true
  \/ Py.contains "Unique Name" line = true.

(** A line that signals an active profile in the words of the
    specification. *)
Definition spec_active_line (line : string) : Prop :=
  line <> "" /\ Py.contains "---" line = false /\ Py.contains "Index" line = false
  /\ Py.contains "http" (Py.lower line) = true
  /\ Py.contains "crm" (Py.lower line) = true.

(** A calendar reading of the clock with a four-digit year. *)
Definition valid_datetime (d : datetime) : Prop :=
  (1000 <= Z.of_nat (year d) <= 9999)%Z /\ 1 <= month d <= 12 /\ 1 <= day d <= 31
  /\ hour d < 24 /\ minute d < 60 /\ second d < 60.

(** [\d{n}]: exactly [n] decimal digits. *)
Definition digits (n : nat) (s : string) : Prop :=
  String.length s = n /\ Py.all_digits s = true.

(** The user answers [y] or [yes] to the offer of another export; [w'] is
    the world in which [export_another_solution] then starts. *)
Definition accepts_another (w w' : World) : Prop :=
  exists typed rest,
    stdin w = Line typed :: rest
    /\ eq_any (Py.lower (Py.strip typed)) ["y"; "yes"] = true
    /\ w' = snd (offer_another (ret tt) w).

(** A run of [export_another_solution] from [w] in which an export reports
    failure, at this call or at a nested one after successful exports, and
    the world [w'] that export leaves. *)
Inductive another_export_fails : nat -> World -> World -> Prop :=
| fails_now (depth : nat) (w w1 w' : World) (solution_name : string) :
    another_select w = (Return (Some solution_name), w1) ->
    export_solution solution_name default_output_dir w1 = (Return false, w') ->
    another_export_fails (S depth) w w'
| fails_later (depth : nat) (w w1 w2 w3 w' : World) (solution_name : string) :
    another_select w = (Return (Some solution_name), w1) ->
    export_solution solution_name default_output_dir w1 = (Return true, w2) ->
    accepts_another w2 w3 ->
    another_export_fails depth w3 w' ->
    another_export_fails (S depth) w w'.

(** ** Sample worlds *)

Definition text (lines : list string) : string := Py.join nl lines.

Definition sample_clock (k : nat) : datetime :=
  {| year := 2024; month := 3; day := 9; hour := 14; minute := 5; second := k |}.

Definition sample_help : CompletedProcess :=
  {| returncode := 0; stdout := text ["Microsoft PowerPlatform CLI"; "Version: 1.30.3"];
     stderr := "" |}.

Definition sample_auth_list : CompletedProcess :=
  {| returncode := 0;
     stdout := text ["Index Active Kind      Name User";
                     "[1]   *      UNIVERSAL dev  https://org.crm.dynamics.com/"];
     stderr := "" |}.

Definition sample_listing : CompletedProcess :=
  {| returncode := 0;
     stdout := text ["Unique Name  Friendly Name  Version  Managed";
                     "-----------  -------------  -------  -------";
                     "A  First Solution  1.0.0.1  False";
                     "B  Second Solution  2.0  True";
                     "C  Third  3.1"];
     stderr := "" |}.

Definition failed (message : string) : CompletedProcess :=
  {| returncode := 1; stdout := ""; stderr := message |}.

Definition succeeded : CompletedProcess :=
  {| returncode := 0; stdout := "done"; stderr := "" |}.

(** [args[5]] of an export invocation: the value of [--path]. *)
Definition path_argument (args : list string) : string := default "" (args !! 5).

(** A tool that is signed in, lists three solutions and exports what it is
    asked to by writing a 3 MiB file, but only in its first export: the
    invocations after the fourth fail. *)
Definition sample_pac (k : nat) (args : list string) (capture : bool) (files : FS)
  : ProcOutcome * FS :=
  match args with
  | ["help"] => (Completed sample_help, files)
  | ["auth"; "list"] => (Completed sample_auth_list, files)
  | "auth" :: "create" :: _ => (Completed succeeded, files)
  | ["solution"; "list"] => (Completed sample_listing, files)
  | "solution" :: "export" :: _ =>
      if k <=? 3 then (Completed succeeded, <[path_argument args := File 3145728]> files)
      else (Completed (failed "Solution not found"), files)
  | _ => (Completed (failed "unknown command"), files)
  end.

(** An operating system that fails the lookup of a path with a name of more
    than 255 characters ([ENAMETOOLONG]) and no other. *)
Definition name_too_long (path : string) : bool :=
  existsb (fun part => 255 <? String.length part) (Py.split_on "/" path).

Definition sample_world (typed : list Typed) : World :=
  {| fs := ∅; pac := sample_pac; ncalls := 0; clock := sample_clock;
     stdin := typed; out := []; recursion_limit := 900;
     lookup_fails := name_too_long |}.

(** A tool whose export reports success without writing the file. *)
Definition lazy_pac (k : nat) (args : list string) (capture : bool) (files : FS)
  : ProcOutcome * FS :=
  match args with
  | "solution" :: "export" :: _ => (Completed succeeded, files)
  | _ => sample_pac k args capture files
  end.

(** A tool that answers every invocation with the same completed process. *)
Definition constant_pac (cp : CompletedProcess) (k : nat) (args : list string)
  (capture : bool) (files : FS) : ProcOutcome * FS := (Completed cp, files).

Definition world_of (tool : nat -> list string -> bool -> FS -> ProcOutcome * FS)
  (typed : list Typed) : World :=
  {| fs := ∅; pac := tool; ncalls := 0; clock := sample_clock;
     stdin := typed; out := []; recursion_limit := 900;
     lookup_fails := name_too_long |}.

(** A listing with nothing but a header, a separator and blank lines. *)
Definition header_only_listing : CompletedProcess :=
  {| returncode := 0;
     stdout := text ["Unique Name  Friendly Name  Version  Managed";
                     "-----------  -------------  -------  -------";
                     ""; "   "];
     stderr := "" |}.

(** A listing whose only solution has [Index] in its name. *)
Definition index_listing : CompletedProcess :=
  {| returncode := 0;
     stdout := text ["Unique Name  Friendly Name  Version  Managed";
                     "-----------  -------------  -------  -------";
                     "SearchIndexTools  Search Index Tools  1.0.0.0  False"];
     stderr := "" |}.

(** A profile listing without its header line, for a profile of the
    kind [UNIVERSAL]. *)
Definition headerless_auth_list : CompletedProcess :=
  {| returncode := 0;
     stdout := "[1]   *      UNIVERSAL dev  https://org.crm.dynamics.com/";
     stderr := "" |}.

(** The user keeps the profile and picks solution 2; the tool reports
    success but writes nothing. *)
Definition first_export_fails : World := world_of lazy_pac [Line "y"; Line "2"].

(** The user keeps the profile, exports solution 2, asks for another and
    picks solution 1, whose export fails. *)
Definition second_export_fails : World :=
  sample_world [Line "y"; Line " 2 "; Line "y"; Line "1"].

(** The worlds that run goes through: after the selection in [main], after
    the first export, after the offer of another export is accepted, after
    the selection in [export_another_solution], after the second export. *)
Abbreviation first_selected := (snd (main_select first_export_fails)).
Abbreviation second_selected := (snd (main_select second_export_fails)).
Abbreviation second_exported :=
  (snd (export_solution "B" default_output_dir second_selected)).
Abbreviation second_again := (snd (offer_another (ret tt) second_exported)).
Abbreviation second_reselected := (snd (another_select second_again)).
Abbreviation second_failed :=
  (snd (export_solution "A" default_output_dir second_reselected)).

(** A world in which a regular file named [exports] is in the way of the
    output directory; the user keeps the profile and picks solution 2. *)
Definition blocked_world : World :=
  {| fs := {["exports" := File 7]}; pac := sample_pac; ncalls := 0;
     clock := sample_clock; stdin := [Line "y"; Line "2"]; out := [];
     recursion_limit := 900; lookup_fails := name_too_long |}.

(** The records parsed from [sample_listing]. *)
Definition abc : list Solution :=
  [mkSolution "A" "A  First Solution  1.0.0.1  False";
   mkSolution "B" "B  Second Solution  2.0  True";
   mkSolution "C" "C  Third  3.1"].

(** ** Notions used in the proofs *)

Fixpoint all_space (s : string) : bool :=
  match s with
  | EmptyString => true
  | String c s' => Py.is_space c && all_space s'
  end.

(** The lines of the stripped text against the lines of the text: equal up
    to the last one, which has lost trailing whitespace and the blank lines
    after it. *)
Fixpoint rstrip_lines (stripped raw : list string) : Prop :=
  match stripped, raw with
  | [h1], h2 :: t2 =>
      (exists w, all_space w = true /\ h2 = h1 ++ w)
      /\ Forall (fun l => all_space l = true) t2
  | h1 :: t1, h2 :: t2 => h1 = h2 /\ rstrip_lines t1 t2
  | _, _ => False
  end.

Definition ws_invariant (P : string -> bool) : Prop :=
  forall c l, Py.is_space c = true ->
    P (String c l) = P l /\ P (l ++ String c "") = P l.

Fixpoint last_char (s : string) : option ascii :=
  match s with
  | EmptyString => None
  | String c EmptyString => Some c
  | String _ s' => last_char s'
  end.

Definition first_char (s : string) : option ascii :=
  match s with EmptyString => None | String c _ => Some c end.

(** A needle that neither begins nor ends with whitespace. *)
Definition trimmed (needle : string) : Prop :=
  (exists a, first_char needle = Some a /\ Py.is_space a = false)
  /\ (exists a, last_char needle = Some a /\ Py.is_space a = false).

Definition is_blank (line : string) : bool := negb (nonempty (Py.strip line)).

(** The world after one invocation of the tool that left the files [files],
    with the events seen so far. *)
Definition called (files : FS) (events : list Event) (w : World) : World :=
  mkWorld files (pac w) (S (ncalls w)) (clock w) (stdin w) events (recursion_limit w)
          (lookup_fails w).

Definition auth_line_accepted (line : string) : bool :=
  negb (auth_skipped line) && auth_line_active line.

Definition auth_create_args (env_url : string) : list string :=
  ["auth"; "create"; "--url"; env_url].


(** No character of [s] is whitespace. *)
Fixpoint no_space (s : string) : bool :=
  match s with
  | EmptyString => true
  | String c s' => negb (Py.is_space c) && no_space s'
  end.

(** The events that are not text on the terminal: the spinner and the
    invocations of the tool, in the order they happen. *)
Definition is_action (e : Event) : bool :=
  match e with
  | Print _ | Prompt _ => false
  | SpinnerStart _ | SpinnerStop _ _ | Spawn _ _ => true
  end.

Definition actions (events : list Event) : list Event := List.filter is_action events.

(** What [export_solution] ends with once the directory is made, by how
    the call of the tool ended and the files it left. *)
Definition export_result (w : World) (full_path : PathLib.Path) (r : ProcOutcome)
  (files' : FS) : Outcome bool :=
  match r with
  | Completed cp =>
      if (returncode cp =? 0)%Z then
        if lookup_fails w (PathLib.str full_path) then Raise OSError
        else Return (path_exists files' full_path)
      else Return false
  | ExecutableNotFound => SysExit 1
  | ProcInterrupted => Raise KeyboardInterrupt
  | ProcOSError => Raise OSError
  | ProcValueError => Raise ValueError
  end.

(** The tool exited with status 0 and the lookup of the target path
    fails. *)
Definition export_stuck (w : World) (full_path : PathLib.Path) (r : ProcOutcome) : bool :=
  match r with
  | Completed cp => (returncode cp =? 0)%Z && lookup_fails w (PathLib.str full_path)
  | _ => false
  end.

Definition is_true (res : Outcome bool) : bool :=
  match res with Return true => true | _ => false end.




(** The four lines [main] prints before anything else (source lines
    318-321). *)
Definition banner : list Event :=
  [Print (Py.repeat_char "=" 60);
   Print "  PowerApps Solution Exporter";
   Print "  Export unmanaged solutions from Dynamics 365 / Power Platform";
   Print (Py.repeat_char "=" 60)].

(** What [run_pac_command] prints when the executable is missing (source
    lines 78-83). *)
Definition install_help : list Event :=
  [Print (nl ++ "❌ Error: PowerApps CLI (pac) is not installed or not in PATH.");
   Print (nl ++ "Install it using one of these methods:");
   Print "  • .NET:      dotnet tool install --global Microsoft.PowerApps.CLI.Tool";
   Print "  • Windows:   Download from https://aka.ms/PowerAppsCLI";
   Print "  • macOS:     brew install microsoft/mssql-release/powerapps-cli";
   Print (nl ++ "After installation, restart your terminal and try again.")].

(** What [main] prints after a successful export, and its question
    (source lines 363-368). *)
Definition offer : list Event :=
  [Print (nl ++ Py.repeat_char "=" 60);
   Print "🎉 Export complete!";
   Print (Py.repeat_char "=" 60);
   Prompt (nl ++ "Export another solution? (y/N): ")].

(** The separator and the prompt of the selection (source lines 340-341). *)
Definition selection_prompt : list Event :=
  [Print (nl ++ Py.repeat_char "-" 70);
   Prompt "Enter the number of the solution to export (or 'q' to quit): "].

(** The worlds [main] goes through from [w]: after the tool check, after
    authentication, after the listing. *)
Abbreviation checked w := (snd (check_pac_installed (add_out banner w))).
Abbreviation authenticated w := (snd (ensure_authenticated (checked w))).
Abbreviation catalogued w := (snd (list_solutions (authenticated w))).

(** * Properties *)

(** ** Strings *)

Lemma app_cons (c : ascii) (s t : string) : String c s ++ t = String c (s ++ t).
Proof. reflexivity. Qed.

Lemma app_empty_l (s : string) : "" ++ s = s.
Proof. reflexivity. Qed.

Lemma app_empty_r (s : string) : s ++ "" = s.
Proof. induction s as [|c s IH]; [reflexivity|]. now rewrite app_cons, IH. Qed.

Lemma app_assoc_str (s t u : string) : (s ++ t) ++ u = s ++ (t ++ u).
Proof. induction s as [|c s IH]; [reflexivity|]. now rewrite !app_cons, IH. Qed.

Lemma length_app_str (s t : string) :
  String.length (s ++ t) = String.length s + String.length t.
Proof. induction s as [|c s IH]; [reflexivity|]. rewrite app_cons. simpl. now rewrite IH. Qed.

Lemma length_slice_to (n : nat) (s : string) :
  String.length (Py.slice_to n s) = Nat.min n (String.length s).
Proof.
  revert s. induction n as [|n IH]; intros [|c s]; simpl; try reflexivity.
  now rewrite IH.
Qed.

Lemma length_repeat_char (c : ascii) (n : nat) : String.length (Py.repeat_char c n) = n.
Proof. induction n as [|n IH]; simpl; [reflexivity|now rewrite IH]. Qed.

(** ** The table columns *)



(** The friendly name column of a row is the truncation of the joined
    middle tokens, so it never exceeds 24 characters. *)
Lemma col_friendly_name_short (raw : string) :
  String.length (col_friendly_name (columns raw)) <= 24.
Proof.
  assert (H : forall s, String.length (truncate_friendly s) <= 24).
  { intros s. unfold truncate_friendly.
    destruct (24 <? String.length s) eqn:Hc.
    - rewrite length_app_str, length_slice_to. change (String.length "...") with 3. lia.
    - apply Nat.ltb_ge in Hc. exact Hc. }
  unfold columns. destruct (3 <=? _); apply H.
Qed.

Lemma from_end_Some (k : nat) (parts : list string) :
  1 <= k <= length parts -> exists t, from_end k parts = Some t.
Proof.
  intros Hk. unfold from_end.
  assert (Hle : (k <=? length parts) = true) by (apply Nat.leb_le; lia).
  rewrite Hle. apply lookup_lt_is_Some_2. lia.
Qed.

(** On a line of fewer than three tokens both columns are empty. *)
Lemma columns_short_line (raw : string) :
  length (Py.split raw) < 3 ->
  col_version (columns raw) = "" /\ col_managed (columns raw) = ""
  /\ col_friendly_name (columns raw) = "".
Proof.
  intros Hlen. unfold columns.
  assert (Hlt : (3 <=? length (Py.split raw)) = false) by (apply Nat.leb_gt; lia).
  rewrite Hlt. repeat split.
Qed.

(** C3, as amended.  On a listing line of at least three tokens: when the
    last token is exactly [True] or [False], the version is the token before
    it and that last token is the managed flag; otherwise the version is the
    last token and no managed flag is reported.  On a line of fewer than
    three tokens the version is empty and no managed flag is reported. *)
Theorem version_rule_three_tokens (raw : string) :
  (3 <= length (Py.split raw) -> version_rule raw)
  /\ (length (Py.split raw) < 3 ->
      col_version (columns raw) = "" /\ col_managed (columns raw) = "").
Proof.
  split.
  - intros Hlen last_token Hlast. unfold columns.
    assert (Hle : (3 <=? length (Py.split raw)) = true) by (apply Nat.leb_le; lia).
    rewrite Hle, Hlast. simpl.
    destruct (is_flag last_token) eqn:Hflag; simpl.
    + destruct (from_end_Some 2 (Py.split raw)) as [v Hv]; [lia|].
      rewrite Hv. simpl. split; reflexivity.
    + split; reflexivity.
  - intros Hlen. destruct (columns_short_line raw Hlen) as (Hv & Hm & _). now split.
Qed.

Lemma version_rule_three_tokens_witness :
  version_rule "A  First Solution  1.0.0.1  False" /\ version_rule "C  Third  3.1"
  /\ col_version (columns "MySol 1.0.0.0") = ""
  /\ col_managed (columns "MySol 1.0.0.0") = "".
Proof.
  split; [|split].
  - apply (proj1 (version_rule_three_tokens "A  First Solution  1.0.0.1  False")).
    vm_compute; lia.
  - apply (proj1 (version_rule_three_tokens "C  Third  3.1")). vm_compute; lia.
  - apply (proj2 (version_rule_three_tokens "MySol 1.0.0.0")). vm_compute; lia.
Defined.

(** C3, as stated, fails on a line of two tokens: the last token [1.0.0.0]
    is not a boolean literal, yet the version column is empty. *)
Lemma version_rule_two_tokens_fails : ~ version_rule "MySol 1.0.0.0".
Proof.
  intros H. specialize (H "1.0.0.0" eq_refl). vm_compute in H.
  destruct H as [H _]. discriminate H.
Qed.

(** ** Selection *)

Lemma lookup_selected (solutions : list Solution) (i : Z) :
  (1 <= i <= Z.of_nat (length solutions))%Z ->
  exists sol, solutions !! Z.to_nat (i - 1) = Some sol.
Proof. intros Hi. apply lookup_lt_is_Some_2. lia. Qed.

(** C2.  The selection block on an input and a list of [n] solutions: an
    integer [i] within [1, n] resolves to the unique name of the [i]-th
    record; an integer outside that range fails, with no fallback to a
    literal name; an input that is not an integer resolves to itself when it
    is not empty and fails when it is empty. *)
Theorem selection_resolution (selection : string) (solutions : list Solution) (w : World) :
  let n := Z.of_nat (length solutions) in
  let resolved := fst (resolve_selection selection solutions w) in
  (forall i, Py.int selection = Some i -> (1 <= i <= n)%Z ->
     exists sol, solutions !! (Z.to_nat i - 1) = Some sol
                 /\ resolved = Return (Some (unique_name sol)))
  /\ (forall i, Py.int selection = Some i -> (i < 1 \/ n < i)%Z ->
     resolved = Return None)
  /\ (Py.int selection = None -> selection <> "" ->
     resolved = Return (Some selection))
  /\ (Py.int selection = None -> selection = "" -> resolved = Return None).
Proof.
  cbv zeta. unfold resolve_selection. repeat split.
  - intros i Hint Hi. rewrite Hint.
    assert (Hrange : ((i <? 1) || (Z.of_nat (length solutions) <? i))%Z = false).
    { apply orb_false_iff. split; apply Z.ltb_ge; lia. }
    rewrite Hrange. destruct (lookup_selected solutions i Hi) as [sol Hsol].
    exists sol. rewrite Hsol. split; [|reflexivity].
    rewrite <- Hsol. f_equal. lia.
  - intros i Hint Hi. rewrite Hint.
    assert (Hrange : ((i <? 1) || (Z.of_nat (length solutions) <? i))%Z = true).
    { apply orb_true_iff. destruct Hi; [left|right]; apply Z.ltb_lt; lia. }
    now rewrite Hrange.
  - intros Hint Hne. rewrite Hint.
    assert (Hn : nonempty selection = true).
    { unfold nonempty. apply negb_true_iff, String.eqb_neq, Hne. }
    now rewrite Hn.
  - intros Hint ->. now rewrite Hint.
Qed.

Lemma selection_resolution_witness :
  (exists sol, abc !! 1 = Some sol
     /\ fst (resolve_selection "2" abc (sample_world [])) = Return (Some (unique_name sol)))
  /\ fst (resolve_selection "5" abc (sample_world [])) = Return None
  /\ fst (resolve_selection "MyCustomName" abc (sample_world [])) = Return (Some "MyCustomName")
  /\ fst (resolve_selection "" abc (sample_world [])) = Return None.
Proof.
  split; [|split; [|split]].
  - apply (proj1 (selection_resolution "2" abc (sample_world [])) 2%Z);
      [reflexivity | simpl; lia].
  - apply (proj1 (proj2 (selection_resolution "5" abc (sample_world []))) 5%Z);
      [reflexivity | simpl; lia].
  - apply (proj1 (proj2 (proj2 (selection_resolution "MyCustomName" abc (sample_world [])))));
      [reflexivity | discriminate].
  - apply (proj2 (proj2 (proj2 (selection_resolution "" abc (sample_world [])))));
      reflexivity.
Defined.

(** The examples of the specification: with solutions [A], [B], [C], the
    input [2] resolves to [B], [5] fails and [MyCustomName] is taken as a
    name. *)
Example selection_examples :
  map (fun selection => fst (resolve_selection selection abc (sample_world [])))
      ["2"; "5"; "MyCustomName"]
  = [Return (Some "B"); Return None; Return (Some "MyCustomName")].
Proof. reflexivity. Qed.

(** What [int] accepts: spaces around the number, one sign, underscores
    between digits; not the separators FS..US, which [str.strip] removes. *)
Example int_examples :
  map Py.int [" 12 "; "+5"; "-3"; "1_000"; "0012"; "1__0"; "_1"; "+ 1"; ""; "+"; "0x10";
              String "028" "12"]
  = [Some 12; Some 5; Some (-3); Some 1000; Some 12; None; None; None; None; None; None;
     None]%Z.
Proof. reflexivity. Qed.

(** A number of 4300 digits is an index out of range; one of 4301 digits is
    no integer, and the selection takes it as a name. *)
Example selection_long_number :
  fst (resolve_selection (Py.repeat_char "1" 4300) abc (sample_world [])) = Return None
  /\ Py.int (Py.repeat_char "1" 4301) = None
  /\ fst (resolve_selection (Py.repeat_char "1" 4301) abc (sample_world []))
     = Return (Some (Py.repeat_char "1" 4301)).
Proof. repeat split; vm_compute; reflexivity. Qed.

(** ** Lines of a text and surrounding whitespace

    The parsing loops run over [stdout.strip().split('\n')].  What they find
    can be read off the lines of [stdout] itself, for every test on a line
    that ignores whitespace at both ends and fails on the empty line. *)

Lemma is_space_newline : Py.is_space Py.newline = true.
Proof. reflexivity. Qed.

Lemma split_on_cons (sep : ascii) (s : string) :
  exists h t, Py.split_on sep s = h :: t.
Proof.
  induction s as [|c s (h & t & IH)]; simpl; [eauto|].
  destruct (Ascii.eqb c sep); [eauto|]. rewrite IH. eauto.
Qed.

Lemma split_nl_cons_newline (s : string) :
  Py.split_nl (String Py.newline s) = "" :: Py.split_nl s.
Proof. reflexivity. Qed.

Lemma split_nl_cons_other (c : ascii) (s h : string) (t : list string) :
  c <> Py.newline -> Py.split_nl s = h :: t ->
  Py.split_nl (String c s) = String c h :: t.
Proof.
  intros Hc Hs. unfold Py.split_nl in *. simpl.
  apply Ascii.eqb_neq in Hc. now rewrite Hc, Hs.
Qed.

Lemma ws_invariant_append (P : string -> bool) (w l : string) :
  ws_invariant P -> all_space w = true -> P (l ++ w) = P l.
Proof.
  intros HP. revert l. induction w as [|c w IH]; intros l Hw.
  - now rewrite app_empty_r.
  - simpl in Hw. apply andb_true_iff in Hw as [Hc Hw].
    change (String c w) with (String c "" ++ w).
    rewrite <- app_assoc_str, (IH _ Hw). now apply HP.
Qed.

Lemma ws_invariant_prepend (P : string -> bool) (w l : string) :
  ws_invariant P -> all_space w = true -> P (w ++ l) = P l.
Proof.
  intros HP. induction w as [|c w IH]; intros Hw; [reflexivity|].
  simpl in Hw. apply andb_true_iff in Hw as [Hc Hw].
  rewrite app_cons. rewrite (proj1 (HP c _ Hc)). now apply IH.
Qed.

Lemma ws_invariant_blank (P : string -> bool) (l : string) :
  ws_invariant P -> P "" = false -> all_space l = true -> P l = false.
Proof.
  intros HP H0 Hl. rewrite <- (app_empty_l l).
  now rewrite (ws_invariant_append P l "" HP Hl).
Qed.

Lemma existsb_blank (P : string -> bool) (ls : list string) :
  ws_invariant P -> P "" = false ->
  Forall (fun l => all_space l = true) ls -> existsb P ls = false.
Proof.
  intros HP H0. induction 1 as [|l ls Hl _ IH]; [reflexivity|].
  simpl. now rewrite (ws_invariant_blank P l HP H0 Hl), IH.
Qed.

Lemma rstrip_lines_existsb (P : string -> bool) (stripped raw : list string) :
  ws_invariant P -> P "" = false ->
  rstrip_lines stripped raw -> existsb P stripped = existsb P raw.
Proof.
  intros HP H0. revert raw.
  induction stripped as [|h1 t1 IH]; intros raw Hrel; [destruct Hrel|].
  destruct raw as [|h2 t2]; [destruct t1; destruct Hrel|].
  destruct t1 as [|h1' t1].
  - destruct Hrel as [(w & Hw & ->) Hblank]. simpl.
    rewrite (ws_invariant_append P w h1 HP Hw).
    now rewrite (existsb_blank P t2 HP H0 Hblank).
  - destruct Hrel as [-> Hrel]. change (existsb P (h2 :: h1' :: t1))
      with (P h2 || existsb P (h1' :: t1)).
    rewrite (IH _ Hrel). reflexivity.
Qed.

Lemma rstrip_empty_all_space (s : string) : Py.rstrip s = "" -> all_space s = true.
Proof.
  induction s as [|c s IH]; [reflexivity|]. simpl.
  destruct (Py.rstrip s) eqn:Hr; [|discriminate].
  destruct (Py.is_space c); [|discriminate]. intros _. now apply IH.
Qed.

Lemma split_nl_all_space (s : string) :
  all_space s = true -> Forall (fun l => all_space l = true) (Py.split_nl s).
Proof.
  induction s as [|c s IH]; intros Hs.
  - repeat constructor.
  - simpl in Hs. apply andb_true_iff in Hs as [Hc Hs]. specialize (IH Hs).
    destruct (Ascii.eqb_spec c Py.newline) as [->|Hne].
    + rewrite split_nl_cons_newline. now constructor.
    + destruct (split_on_cons Py.newline s) as (h & t & Hsplit).
      rewrite (split_nl_cons_other c s h t Hne Hsplit).
      unfold Py.split_nl in IH. rewrite Hsplit in IH.
      inversion IH; subst. constructor; [|assumption].
      simpl. now rewrite Hc.
Qed.

Lemma rstrip_lines_spec (s : string) :
  rstrip_lines (Py.split_nl (Py.rstrip s)) (Py.split_nl s).
Proof.
  induction s as [|c s IH].
  - simpl. split; [exists ""; split; reflexivity|constructor].
  - destruct (split_on_cons Py.newline s) as (h2 & t2 & Hraw).
    change (Py.split_on Py.newline s) with (Py.split_nl s) in Hraw.
    simpl Py.rstrip. destruct (Py.rstrip s) as [|c' r] eqn:Hr.
    + pose proof (split_nl_all_space s (rstrip_empty_all_space s Hr)) as Hblank.
      rewrite Hraw in Hblank. inversion Hblank as [|? ? Hh2 Ht2]; subst.
      destruct (Ascii.eqb_spec c Py.newline) as [->|Hne].
      * rewrite split_nl_cons_newline, Hraw. simpl.
        split; [exists ""; split; reflexivity|now constructor].
      * rewrite (split_nl_cons_other c s h2 t2 Hne Hraw).
        destruct (Py.is_space c) eqn:Hc.
        -- split; [|assumption]. exists (String c h2). split; [|reflexivity].
           simpl. now rewrite Hc.
        -- rewrite (split_nl_cons_other c "" "" [] Hne eq_refl).
           split; [|assumption]. exists h2. split; [assumption|reflexivity].
    + destruct (Ascii.eqb_spec c Py.newline) as [->|Hne].
      * rewrite !split_nl_cons_newline.
        destruct (split_on_cons Py.newline (String c' r)) as (h1 & t1 & Hs1).
        change (Py.split_on Py.newline (String c' r)) with (Py.split_nl (String c' r)) in Hs1.
        rewrite Hs1 in *. rewrite Hraw in *. split; [reflexivity|exact IH].
      * destruct (split_on_cons Py.newline (String c' r)) as (h1 & t1 & Hs1).
        change (Py.split_on Py.newline (String c' r)) with (Py.split_nl (String c' r)) in Hs1.
        rewrite (split_nl_cons_other c _ h1 t1 Hne Hs1).
        rewrite (split_nl_cons_other c s h2 t2 Hne Hraw).
        rewrite Hs1, Hraw in IH.
        destruct t1 as [|h1' t1].
        -- destruct IH as [(w & Hw & ->) Hblank].
           split; [|assumption]. exists w. split; [assumption|reflexivity].
        -- destruct IH as [-> IH]. split; [reflexivity|exact IH].
Qed.

Lemma lstrip_lines_existsb (P : string -> bool) (s : string) :
  ws_invariant P -> P "" = false ->
  existsb P (Py.split_nl (Py.lstrip s)) = existsb P (Py.split_nl s).
Proof.
  intros HP H0. induction s as [|c s IH]; [reflexivity|].
  simpl Py.lstrip. destruct (Py.is_space c) eqn:Hc; [|reflexivity].
  rewrite IH. destruct (Ascii.eqb_spec c Py.newline) as [->|Hne].
  - rewrite split_nl_cons_newline. simpl. now rewrite H0.
  - destruct (split_on_cons Py.newline s) as (h & t & Hraw).
    change (Py.split_on Py.newline s) with (Py.split_nl s) in Hraw.
    rewrite (split_nl_cons_other c s h t Hne Hraw), Hraw. simpl.
    now rewrite (proj1 (HP c h Hc)).
Qed.

(** A whitespace-blind test finds the same among the lines of the text and
    among the lines of the stripped text. *)
Lemma strip_lines_existsb (P : string -> bool) (s : string) :
  ws_invariant P -> P "" = false ->
  existsb P (Py.split_nl (Py.strip s)) = existsb P (Py.split_nl s).
Proof.
  intros HP H0. unfold Py.strip.
  rewrite (rstrip_lines_existsb P _ _ HP H0 (rstrip_lines_spec (Py.lstrip s))).
  now apply lstrip_lines_existsb.
Qed.

(** *** The tests of the parsing loops ignore surrounding whitespace *)

Lemma startswith_cons (a b : ascii) (p s : string) :
  Py.startswith (String a p) (String b s) = Ascii.eqb a b && Py.startswith p s.
Proof. reflexivity. Qed.

Lemma contains_unfold (needle s : string) (c : ascii) :
  Py.contains needle (String c s)
  = Py.startswith needle (String c s) || Py.contains needle s.
Proof. reflexivity. Qed.

Lemma startswith_snoc (needle s : string) (a c : ascii) :
  last_char needle = Some a -> a <> c ->
  Py.startswith needle (s ++ String c "") = Py.startswith needle s.
Proof.
  revert s. induction needle as [|b needle IH]; intros s Hlast Hne; [discriminate|].
  destruct s as [|d s].
  - simpl. destruct needle as [|b' needle].
    + injection Hlast as ->. apply Ascii.eqb_neq in Hne. now rewrite Hne.
    + now rewrite andb_false_r.
  - rewrite app_cons. simpl. destruct needle as [|b' needle].
    + now destruct s.
    + f_equal. now apply IH.
Qed.

Lemma contains_snoc (needle s : string) (a c : ascii) :
  last_char needle = Some a -> a <> c ->
  Py.contains needle (s ++ String c "") = Py.contains needle s.
Proof.
  intros Hlast Hne. induction s as [|d s IH].
  - rewrite app_empty_l. destruct needle as [|b needle]; [discriminate|].
    rewrite contains_unfold, startswith_cons. simpl.
    destruct needle as [|b' needle].
    + injection Hlast as ->. apply Ascii.eqb_neq in Hne. now rewrite Hne.
    + now rewrite andb_false_r.
  - rewrite app_cons, !contains_unfold. rewrite IH. f_equal.
    change (String d (s ++ String c "")) with (String d s ++ String c "").
    now apply (startswith_snoc needle (String d s) a c).
Qed.

Lemma contains_cons (needle s : string) (a c : ascii) :
  first_char needle = Some a -> a <> c ->
  Py.contains needle (String c s) = Py.contains needle s.
Proof.
  intros Hfirst Hne. destruct needle as [|b needle]; [discriminate|].
  injection Hfirst as ->. rewrite contains_unfold, startswith_cons.
  apply Ascii.eqb_neq in Hne. now rewrite Hne.
Qed.

Lemma trimmed_ne (a c : ascii) : Py.is_space a = false -> Py.is_space c = true -> a <> c.
Proof. intros Ha Hc ->. congruence. Qed.

Lemma contains_ws_invariant (needle : string) :
  trimmed needle -> ws_invariant (Py.contains needle).
Proof.
  intros [(a & Ha & Hsa) (b & Hb & Hsb)] c l Hc. split.
  - apply (contains_cons needle l a c Ha), (trimmed_ne a c Hsa Hc).
  - apply (contains_snoc needle l b c Hb), (trimmed_ne b c Hsb Hc).
Qed.

Lemma lower_char_space (c : ascii) : Py.is_space c = true -> Py.lower_char c = c.
Proof.
  destruct c as [[] [] [] [] [] [] [] []]; intros H; try discriminate H; reflexivity.
Qed.

Lemma lower_app (s t : string) : Py.lower (s ++ t) = Py.lower s ++ Py.lower t.
Proof. induction s as [|c s IH]; [reflexivity|]. rewrite app_cons. simpl. now rewrite IH. Qed.

Lemma contains_lower_ws_invariant (needle : string) :
  trimmed needle -> ws_invariant (fun l => Py.contains needle (Py.lower l)).
Proof.
  intros Hn c l Hc. pose proof (contains_ws_invariant needle Hn c (Py.lower l) Hc) as [H1 H2].
  split.
  - simpl Py.lower. now rewrite (lower_char_space c Hc).
  - rewrite lower_app. simpl Py.lower. now rewrite (lower_char_space c Hc).
Qed.

Lemma rstrip_snoc (s : string) (c : ascii) :
  Py.is_space c = true -> Py.rstrip (s ++ String c "") = Py.rstrip s.
Proof.
  intros Hc. induction s as [|d s IH].
  - simpl. now rewrite Hc.
  - rewrite app_cons. simpl. now rewrite IH.
Qed.

Lemma lstrip_snoc (s : string) (c : ascii) :
  Py.is_space c = true ->
  Py.lstrip (s ++ String c "") = "" /\ Py.lstrip s = ""
  \/ Py.lstrip (s ++ String c "") = Py.lstrip s ++ String c "".
Proof.
  intros Hc. induction s as [|d s IH].
  - left. simpl. now rewrite Hc.
  - rewrite app_cons. simpl. destruct (Py.is_space d); [exact IH|].
    right. reflexivity.
Qed.

Lemma is_blank_ws_invariant : ws_invariant is_blank.
Proof.
  intros c l Hc. unfold is_blank, Py.strip. split.
  - simpl. now rewrite Hc.
  - destruct (lstrip_snoc l c Hc) as [[-> ->]| ->]; [reflexivity|].
    now rewrite rstrip_snoc.
Qed.

Lemma ws_invariant_negb (P : string -> bool) :
  ws_invariant P -> ws_invariant (fun l => negb (P l)).
Proof. intros HP c l Hc. destruct (HP c l Hc) as [-> ->]. split; reflexivity. Qed.

Lemma ws_invariant_orb (P Q : string -> bool) :
  ws_invariant P -> ws_invariant Q -> ws_invariant (fun l => P l || Q l).
Proof.
  intros HP HQ c l Hc. destruct (HP c l Hc) as [-> ->].
  destruct (HQ c l Hc) as [-> ->]. split; reflexivity.
Qed.

Lemma ws_invariant_andb (P Q : string -> bool) :
  ws_invariant P -> ws_invariant Q -> ws_invariant (fun l => P l && Q l).
Proof.
  intros HP HQ c l Hc. destruct (HP c l Hc) as [-> ->].
  destruct (HQ c l Hc) as [-> ->]. split; reflexivity.
Qed.

Ltac trimmed_literal :=
  split; eexists; (split; [reflexivity|reflexivity]).

Lemma listing_skipped_ws_invariant : ws_invariant listing_skipped.
Proof.
  unfold listing_skipped. repeat apply ws_invariant_orb.
  - apply contains_ws_invariant. trimmed_literal.
  - apply contains_ws_invariant. trimmed_literal.
  - apply is_blank_ws_invariant.
Qed.

Lemma auth_skipped_ws_invariant : ws_invariant auth_skipped.
Proof.
  unfold auth_skipped. repeat apply ws_invariant_orb.
  - apply contains_ws_invariant. trimmed_literal.
  - apply contains_ws_invariant. trimmed_literal.
  - apply is_blank_ws_invariant.
Qed.

Lemma auth_line_active_ws_invariant : ws_invariant auth_line_active.
Proof.
  unfold auth_line_active. apply ws_invariant_andb;
    apply contains_lower_ws_invariant; trimmed_literal.
Qed.

(** A blank line consists of whitespace, and conversely. *)
Lemma is_blank_all_space (l : string) : is_blank l = all_space l.
Proof.
  induction l as [|c l IH]; [reflexivity|].
  unfold is_blank, Py.strip in *. simpl.
  destruct (Py.is_space c) eqn:Hc; [exact IH|]. simpl.
  destruct (Py.rstrip l); [rewrite Hc|]; reflexivity.
Qed.

(** ** Running the program *)

Lemma add_out_nil (w : World) : add_out [] w = w.
Proof. destruct w. unfold add_out. simpl. now rewrite app_nil_r. Qed.

Lemma add_out_add_out (a b : list Event) (w : World) :
  add_out b (add_out a w) = add_out (a ++ b) w.
Proof. unfold add_out. simpl. now rewrite app_assoc. Qed.

Lemma for_each_print (lines : list string) (w : World) :
  for_each lines print w = (Return tt, add_out (map Print lines) w).
Proof.
  revert w. induction lines as [|l lines IH]; intros w.
  - simpl. unfold ret. now rewrite add_out_nil.
  - simpl. unfold bind, print at 1, emit. rewrite IH, add_out_add_out. reflexivity.
Qed.

Lemma bind_run {A B} (m : IO A) (k : A -> IO B) (w w' : World) (a : A) :
  m w = (Return a, w') -> bind m k w = k a w'.
Proof. intros H. unfold bind. now rewrite H. Qed.

Lemma bind_exit {A B} (m : IO A) (k : A -> IO B) (w w' : World) (code : Z) :
  m w = (SysExit code, w') -> bind m k w = (SysExit code, w').
Proof. intros H. unfold bind. now rewrite H. Qed.

Lemma bind_raise {A B} (m : IO A) (k : A -> IO B) (w w' : World) (e : Exn) :
  m w = (Raise e, w') -> bind m k w = (Raise e, w').
Proof. intros H. unfold bind. now rewrite H. Qed.

Lemma bind_print {B} (s : string) (k : unit -> IO B) (w : World) :
  bind (print s) k w = k tt (add_out [Print s] w).
Proof. reflexivity. Qed.

Lemma bind_emit {B} (e : Event) (k : unit -> IO B) (w : World) :
  bind (emit e) k w = k tt (add_out [e] w).
Proof. reflexivity. Qed.

Lemma bind_ret {A B} (a : A) (k : A -> IO B) (w : World) : bind (ret a) k w = k a w.
Proof. reflexivity. Qed.

Lemma bind_for_each_print {B} (lines : list string) (k : unit -> IO B) (w : World) :
  bind (for_each lines print) k w = k tt (add_out (map Print lines) w).
Proof. apply bind_run, for_each_print. Qed.

Lemma bind_when_print {B} (b : bool) (s : string) (k : unit -> IO B) (w : World) :
  bind (when b (print s)) k w = k tt (add_out (if b then [Print s] else []) w).
Proof. destruct b; [reflexivity|]. unfold when. now rewrite bind_ret, add_out_nil. Qed.

Lemma bind_get_fs {B} (k : FS -> IO B) (w : World) : bind get_fs k w = k (fs w) w.
Proof. reflexivity. Qed.

Lemma print_run (s : string) (w : World) : print s w = (Return tt, add_out [Print s] w).
Proof. reflexivity. Qed.

(** Step through the statements that only print. *)
(** Arguments without NUL are left to the tool. *)
Lemma run_outcome_pac (w : World) (args : list string) (capture : bool) (files : FS) :
  existsb Py.has_nul args = false ->
  run_outcome w args capture files = pac w (ncalls w) args capture files.
Proof. intros H. unfold run_outcome. now rewrite H. Qed.

Ltac io_steps :=
  repeat (rewrite bind_print || rewrite bind_emit || rewrite bind_ret
          || rewrite bind_for_each_print || rewrite bind_when_print
          || rewrite bind_get_fs || rewrite print_run);
  repeat rewrite add_out_add_out.

(** [list_solutions] returns [listed cp] when the listing invocation
    completes with [cp]. *)
Lemma list_solutions_run (w : World) (cp : CompletedProcess) (files : FS) :
  pac w (ncalls w) ["solution"; "list"] true (fs w) = (Completed cp, files) ->
  exists events, list_solutions w = (Return (listed cp), called files events w).
Proof.
  intros Hpac. unfold list_solutions, listed. rewrite bind_print.
  unfold bind at 1. unfold run_pac_command, subprocess_run.
  rewrite run_outcome_pac by reflexivity.
  cbn [add_out fs pac ncalls]. rewrite Hpac.
  destruct (negb (returncode cp =? 0)%Z).
  - io_steps. eexists. reflexivity.
  - destruct (if nonempty (stdout cp) then parse_solutions (stdout cp) else [])
      as [|sol sols]; io_steps; eexists; reflexivity.
Qed.

Lemma list_solutions_returns (w w' : World) (solutions : list Solution) :
  list_solutions w = (Return solutions, w') ->
  exists cp files,
    pac w (ncalls w) ["solution"; "list"] true (fs w) = (Completed cp, files)
    /\ solutions = listed cp.
Proof.
  intros Hrun.
  destruct (pac w (ncalls w) ["solution"; "list"] true (fs w))
    as [[cp| | | |] files] eqn:Hpac;
    [destruct (list_solutions_run w cp files Hpac) as [events Hrun'];
     rewrite Hrun' in Hrun; injection Hrun as <- _; eauto | ..];
    exfalso; revert Hrun; unfold list_solutions; rewrite bind_print;
    unfold bind at 1; unfold run_pac_command, subprocess_run;
    rewrite run_outcome_pac by reflexivity;
    cbn [add_out fs pac ncalls]; rewrite Hpac; io_steps; discriminate.
Qed.

(** ** The solution listing *)

Lemma parse_line_raw (line : string) (sol : Solution) :
  parse_line line = Some sol -> raw_line sol = line.
Proof.
  unfold parse_line. destruct (listing_skipped line); [discriminate|].
  destruct (Py.split line) as [|first rest]; [discriminate|].
  destruct (Py.startswith "-" first); [discriminate|].
  now intros [= <-].
Qed.

Lemma parse_solutions_In (stdout_text : string) (sol : Solution) :
  In sol (parse_solutions stdout_text) -> parse_line (raw_line sol) = Some sol.
Proof.
  unfold parse_solutions. intros Hin. apply list_elem_of_In in Hin.
  apply list_elem_of_omap in Hin as (line & _ & Hline).
  now rewrite (parse_line_raw line sol Hline).
Qed.

Lemma listed_In (cp : CompletedProcess) (sol : Solution) :
  In sol (listed cp) -> parse_line (raw_line sol) = Some sol.
Proof.
  unfold listed. destruct (negb _); [intros []|].
  destruct (nonempty _); [apply parse_solutions_In|intros []].
Qed.

(** C10.  A listing line whose first token begins with [-] gives no record,
    also when it passes the filters on [---], [Unique Name] and blank lines:
    the loop drops it, and no record returned by [list_solutions] was made
    from it. *)
Theorem dash_line_dropped (line first : string) (rest : list string) :
  listing_skipped line = false ->
  Py.split line = first :: rest -> Py.startswith "-" first = true ->
  parse_line line = None
  /\ forall (w w' : World) (solutions : list Solution),
       list_solutions w = (Return solutions, w') ->
       forall sol, In sol solutions -> raw_line sol <> line.
Proof.
  intros Hkept Hsplit Hdash.
  assert (Hnone : parse_line line = None).
  { unfold parse_line. now rewrite Hkept, Hsplit, Hdash. }
  split; [exact Hnone|].
  intros w w' solutions Hrun sol Hin Hraw.
  destruct (list_solutions_returns w w' solutions Hrun) as (cp & files & _ & ->).
  apply listed_In in Hin. rewrite Hraw, Hnone in Hin. discriminate.
Qed.

Lemma dash_line_dropped_witness :
  parse_line "-draft  Work in progress  0.1  False" = None.
Proof.
  apply (dash_line_dropped "-draft  Work in progress  0.1  False" "-draft"
           ["Work"; "in"; "progress"; "0.1"; "False"]); reflexivity.
Defined.

Lemma listing_header_line_skipped (line : string) :
  listing_header_line line -> listing_skipped line = true.
Proof.
  unfold listing_header_line, listing_skipped, nonempty.
  intros [-> | [-> | ->]]; simpl; rewrite ?orb_true_r; reflexivity.
Qed.

Lemma parse_solutions_header_only (stdout_text : string) :
  Forall listing_header_line (Py.split_nl stdout_text) ->
  parse_solutions stdout_text = [].
Proof.
  intros Hraw.
  assert (Hnone : existsb (fun l => negb (listing_skipped l))
                          (Py.split_nl (Py.strip stdout_text)) = false).
  { rewrite strip_lines_existsb;
      [|apply ws_invariant_negb, listing_skipped_ws_invariant|reflexivity].
    apply not_true_is_false. intros Hex.
    apply existsb_exists in Hex as (l & Hin & Hl).
    rewrite Forall_forall in Hraw.
    apply list_elem_of_In in Hin.
    rewrite (listing_header_line_skipped l (Hraw l Hin)) in Hl. discriminate. }
  unfold parse_solutions.
  induction (Py.split_nl (Py.strip stdout_text)) as [|l ls IH]; [reflexivity|].
  simpl in Hnone. apply orb_false_iff in Hnone as [Hl Hls].
  simpl. unfold parse_line at 1.
  apply negb_false_iff in Hl. rewrite Hl. now apply IH.
Qed.

(** C4, as amended.  When every line of the listing output is blank,
    contains [---] or contains [Unique Name], [list_solutions] returns no
    record. *)
Theorem header_only_listing_empty (w : World) (cp : CompletedProcess) (files : FS) :
  pac w (ncalls w) ["solution"; "list"] true (fs w) = (Completed cp, files) ->
  Forall listing_header_line (Py.split_nl (stdout cp)) ->
  fst (list_solutions w) = Return [].
Proof.
  intros Hpac Hlines. destruct (list_solutions_run w cp files Hpac) as [events ->].
  simpl. f_equal. unfold listed.
  destruct (negb _); [reflexivity|]. destruct (nonempty _); [|reflexivity].
  now apply parse_solutions_header_only.
Qed.

Lemma listing_skipped_header_line (line : string) :
  listing_skipped line = true -> listing_header_line line.
Proof.
  unfold listing_header_line, listing_skipped, nonempty. intros H.
  apply orb_true_iff in H as [H|H]; [apply orb_true_iff in H as [H|H]|]; auto.
  left. apply negb_true_iff, negb_false_iff, String.eqb_eq in H. exact H.
Qed.

Lemma Forall_header_lines (lines : list string) :
  forallb listing_skipped lines = true -> Forall listing_header_line lines.
Proof.
  intros H. apply Forall_forall. intros l Hin. apply listing_skipped_header_line.
  apply list_elem_of_In in Hin. exact (proj1 (forallb_forall _ _) H l Hin).
Qed.

Lemma header_only_listing_empty_witness :
  fst (list_solutions (world_of (constant_pac header_only_listing) [])) = Return [].
Proof.
  apply (header_only_listing_empty _ header_only_listing ∅); [reflexivity|].
  apply Forall_header_lines. vm_compute. reflexivity.
Defined.

(** C4, as stated, fails: every line of [index_listing] is a header or a
    separator in the words of the specification (the last one contains
    [Index]), yet [list_solutions] returns a record for it. *)
Lemma index_line_is_parsed :
  Forall spec_header_line (Py.split_nl (stdout index_listing))
  /\ fst (list_solutions (world_of (constant_pac index_listing) []))
     = Return [mkSolution "SearchIndexTools"
                 "SearchIndexTools  Search Index Tools  1.0.0.0  False"].
Proof.
  split; [|vm_compute; reflexivity].
  change (Py.split_nl (stdout index_listing))
    with ["Unique Name  Friendly Name  Version  Managed";
          "-----------  -------------  -------  -------";
          "SearchIndexTools  Search Index Tools  1.0.0.0  False"].
  constructor; [right; right; right; reflexivity|].
  constructor; [right; left; reflexivity|].
  constructor; [right; right; left; reflexivity|].
  constructor.
Qed.

(** ** Authentication *)

Lemma auth_line_accepted_ws_invariant : ws_invariant auth_line_accepted.
Proof.
  apply ws_invariant_andb;
    [apply ws_invariant_negb, auth_skipped_ws_invariant
    |apply auth_line_active_ws_invariant].
Qed.

Lemma blank_not_active (line : string) :
  is_blank line = true -> Py.contains "http" (Py.lower line) = false.
Proof.
  intros Hblank. rewrite is_blank_all_space in Hblank.
  apply (ws_invariant_blank (fun l => Py.contains "http" (Py.lower l)) line);
    [apply contains_lower_ws_invariant; trimmed_literal|reflexivity|exact Hblank].
Qed.

Lemma auth_line_accepted_spec (line : string) :
  auth_line_accepted line = true <-> spec_active_line line.
Proof.
  unfold auth_line_accepted, auth_skipped, auth_line_active, spec_active_line.
  fold (is_blank line). split.
  - intros H. apply andb_true_iff in H as [Hskip Hact].
    apply andb_true_iff in Hact as [Hhttp Hcrm].
    apply negb_true_iff, orb_false_iff in Hskip as [Hskip Hblank].
    apply orb_false_iff in Hskip as [Hdash Hindex].
    repeat split; try assumption.
    intros ->. discriminate Hhttp.
  - intros (_ & Hdash & Hindex & Hhttp & Hcrm).
    rewrite Hdash, Hindex, Hhttp, Hcrm. simpl.
    destruct (is_blank line) eqn:Hblank; [|reflexivity].
    rewrite (blank_not_active line Hblank) in Hhttp. discriminate.
Qed.

(** C9, as amended.  For an auth listing with exit status zero, an active
    profile is detected exactly when the lower-cased output contains
    [active], or contains [http] and not [universal], and some line that is
    not empty and contains neither [---] nor [Index] contains both [http]
    and [crm], whatever the case of the letters. *)
Theorem active_profile_detection (cp : CompletedProcess) :
  returncode cp = 0%Z ->
  (has_active_profile cp = true <->
   auth_gate (stdout cp) = true
   /\ exists line, In line (Py.split_nl (stdout cp)) /\ spec_active_line line).
Proof.
  intros Hrc. unfold has_active_profile. rewrite Hrc. simpl.
  assert (Hlines : existsb auth_line_accepted (Py.split_nl (Py.strip (stdout cp))) = true
                   <-> exists line, In line (Py.split_nl (stdout cp)) /\ spec_active_line line).
  { rewrite strip_lines_existsb;
      [|apply auth_line_accepted_ws_invariant|reflexivity].
    rewrite existsb_exists. split; intros (l & Hin & Hl); exists l;
      (split; [exact Hin|now apply auth_line_accepted_spec]). }
  destruct (nonempty (stdout cp)) eqn:Hne.
  - destruct (auth_gate (stdout cp)).
    + fold auth_line_accepted. rewrite Hlines. tauto.
    + split; [discriminate|]. intros [H _]. discriminate.
  - split; [discriminate|]. intros [_ (l & Hin & Hl)]. exfalso.
    apply negb_false_iff, String.eqb_eq in Hne. rewrite Hne in Hin.
    destruct Hin as [<-|[]]. destruct Hl as [Hl _]. now apply Hl.
Qed.

Lemma active_profile_detection_witness :
  has_active_profile sample_auth_list = true.
Proof.
  apply (proj2 (active_profile_detection sample_auth_list eq_refl)).
  split; [reflexivity|].
  exists "[1]   *      UNIVERSAL dev  https://org.crm.dynamics.com/".
  split; [right; left; reflexivity|].
  repeat split; try reflexivity. discriminate.
Defined.

(** C9, as stated, fails: the only line of [headerless_auth_list] names an
    environment host and passes the line filter, but the output contains
    [universal] and not [active], and no profile is detected. *)
Lemma universal_profile_not_detected :
  returncode headerless_auth_list = 0%Z
  /\ (exists line, In line (Py.split_nl (stdout headerless_auth_list))
                   /\ spec_active_line line)
  /\ has_active_profile headerless_auth_list = false.
Proof.
  split; [reflexivity|]. split; [|reflexivity].
  exists "[1]   *      UNIVERSAL dev  https://org.crm.dynamics.com/".
  split; [left; reflexivity|].
  repeat split; try reflexivity. discriminate.
Qed.

Lemma bind_input {B} (prompt typed : string) (rest : list Typed)
  (k : string -> IO B) (w : World) :
  stdin w = Line typed :: rest ->
  bind (input prompt) k w = k typed (set_stdin rest (add_out [Prompt prompt] w)).
Proof.
  intros Hin. unfold input. unfold bind at 1 2. unfold emit.
  cbn [add_out stdin]. now rewrite Hin.
Qed.

(** How [run_pac_command] ends, by the outcome of the call. *)
Lemma run_pac_command_run (args : list string) (capture : bool) (w : World) :
  exists r files, run_outcome w args capture (fs w) = (r, files)
  /\ match r with
     | Completed cp =>
         run_pac_command args capture w = (Return cp, spawned args capture files w)
     | ExecutableNotFound =>
         exists events,
           run_pac_command args capture w
           = (SysExit 1, add_out events (spawned args capture files w))
     | ProcInterrupted =>
         run_pac_command args capture w
         = (Raise KeyboardInterrupt, spawned args capture files w)
     | ProcOSError =>
         run_pac_command args capture w = (Raise OSError, spawned args capture files w)
     | ProcValueError =>
         run_pac_command args capture w = (Raise ValueError, spawned args capture files w)
     end.
Proof.
  unfold run_pac_command, subprocess_run.
  destruct (run_outcome w args capture (fs w)) as [[cp| | | |] files];
    eexists _, files; (split; [reflexivity|]); try reflexivity.
  io_steps. unfold sys_exit. eexists. reflexivity.
Qed.

(** What [sign_in] does once the URL is known to be non-empty: exactly one
    call, of [auth create] with that URL and without capture. *)
Lemma sign_in_invokes (typed : string) (rest : list Typed) (w : World) :
  stdin w = Line typed :: rest ->
  Py.strip typed <> "" ->
  let env_url := if negb (Py.startswith "http" (Py.strip typed))
                 then "https://" ++ Py.strip typed else Py.strip typed in
  exists r w',
    sign_in w = (r, w')
    /\ In (Spawn (auth_create_args env_url) false) (out w')
    /\ ncalls w' = S (ncalls w)
    /\ forall cp files,
         run_outcome w (auth_create_args env_url) false (fs w) = (Completed cp, files) ->
         r = Return (returncode cp =? 0)%Z.
Proof.
  intros Hin Hne env_url. unfold sign_in. io_steps.
  rewrite (bind_input _ typed rest); [|exact Hin].
  assert (Hn : nonempty (Py.strip typed) = true)
    by (apply negb_true_iff, String.eqb_neq, Hne).
  rewrite Hn. cbn [negb]. fold env_url. io_steps.
  fold (auth_create_args env_url).
  set (w1 := add_out _ (set_stdin rest _)).
  destruct (run_pac_command_run (auth_create_args env_url) false w1)
    as (r & files & Hpac & Hrun).
  change (run_outcome w1) with (run_outcome w) in Hpac.
  change (fs w1) with (fs w) in Hpac.
  unfold bind at 1.
  destruct r as [cp| | | |]; [|destruct Hrun as [events Hrun]| | |]; rewrite Hrun.
  - destruct (returncode cp =? 0)%Z eqn:Hrc; io_steps; eexists _, _;
      (split; [reflexivity|]); (split; [|split]).
    + unfold add_out, spawned; cbn [out]. rewrite !in_app_iff; simpl; tauto.
    + reflexivity.
    + intros cp' files' Hpac'. rewrite Hpac' in Hpac. injection Hpac as -> _.
      now rewrite Hrc.
    + unfold add_out, spawned; cbn [out]. rewrite !in_app_iff; simpl; tauto.
    + reflexivity.
    + intros cp' files' Hpac'. rewrite Hpac' in Hpac. injection Hpac as -> _.
      now rewrite Hrc.
  - eexists _, _; (split; [reflexivity|]); (split; [|split]).
    + unfold add_out, spawned; cbn [out]. rewrite !in_app_iff; simpl; tauto.
    + reflexivity.
    + intros cp' files' Hpac'. rewrite Hpac' in Hpac. discriminate.
  - eexists _, _; (split; [reflexivity|]); (split; [|split]).
    + unfold add_out, spawned; cbn [out]. rewrite !in_app_iff; simpl; tauto.
    + reflexivity.
    + intros cp' files' Hpac'. rewrite Hpac' in Hpac. discriminate.
  - eexists _, _; (split; [reflexivity|]); (split; [|split]).
    + unfold add_out, spawned; cbn [out]. rewrite !in_app_iff; simpl; tauto.
    + reflexivity.
    + intros cp' files' Hpac'. rewrite Hpac' in Hpac. discriminate.
  - eexists _, _; (split; [reflexivity|]); (split; [|split]).
    + unfold add_out, spawned; cbn [out]. rewrite !in_app_iff; simpl; tauto.
    + reflexivity.
    + intros cp' files' Hpac'. rewrite Hpac' in Hpac. discriminate.
Qed.

(** C7.  The environment URL typed at the sign-in prompt, once stripped:
    when it is empty the flow fails without invoking the tool; when it does
    not start with [http] the sign-in is invoked with [https://] put in
    front of it; when it starts with [http] the sign-in is invoked with the
    URL as it is. *)
Theorem environment_url_normalisation (typed : string) (rest : list Typed) (w : World) :
  stdin w = Line typed :: rest ->
  let env_url := Py.strip typed in
  let w' := snd (sign_in w) in
  (env_url = "" ->
     fst (sign_in w) = Return false /\ ncalls w' = ncalls w)
  /\ (env_url <> "" -> Py.startswith "http" env_url = false ->
     In (Spawn ["auth"; "create"; "--url"; "https://" ++ env_url] false) (out w')
     /\ ncalls w' = S (ncalls w))
  /\ (env_url <> "" -> Py.startswith "http" env_url = true ->
     In (Spawn ["auth"; "create"; "--url"; env_url] false) (out w')
     /\ ncalls w' = S (ncalls w)).
Proof.
  intros Hin env_url w'. split; [|split].
  - intros Hempty. subst w'. unfold sign_in. io_steps.
    rewrite (bind_input _ typed rest); [|exact Hin].
    fold env_url. rewrite Hempty. cbn [nonempty negb String.eqb]. io_steps.
    split; reflexivity.
  - intros Hne Hstart. pose proof (sign_in_invokes typed rest w Hin Hne) as H.
    cbv zeta in H. fold env_url in H. rewrite Hstart in H. cbn [negb] in H.
    destruct H as (r & w1 & Hrun & H1 & H2 & _). subst w'. rewrite Hrun.
    split; assumption.
  - intros Hne Hstart. pose proof (sign_in_invokes typed rest w Hin Hne) as H.
    cbv zeta in H. fold env_url in H. rewrite Hstart in H. cbn [negb] in H.
    destruct H as (r & w1 & Hrun & H1 & H2 & _). subst w'. rewrite Hrun.
    split; assumption.
Qed.

Lemma environment_url_normalisation_witness :
  (fst (sign_in (sample_world [Line "   "])) = Return false
   /\ ncalls (snd (sign_in (sample_world [Line "   "]))) = 0)
  /\ In (Spawn ["auth"; "create"; "--url"; "https://org.crm.dynamics.com"] false)
        (out (snd (sign_in (sample_world [Line "org.crm.dynamics.com"]))))
  /\ In (Spawn ["auth"; "create"; "--url"; "http://org.crm.dynamics.com"] false)
        (out (snd (sign_in (sample_world [Line " http://org.crm.dynamics.com"])))).
Proof.
  split; [|split].
  - apply (proj1 (environment_url_normalisation "   " [] (sample_world [Line "   "]) eq_refl)).
    reflexivity.
  - apply (proj1 (proj2 (environment_url_normalisation "org.crm.dynamics.com" []
                           (sample_world [Line "org.crm.dynamics.com"]) eq_refl)));
      [discriminate|reflexivity].
  - apply (proj2 (proj2 (environment_url_normalisation " http://org.crm.dynamics.com" []
                           (sample_world [Line " http://org.crm.dynamics.com"]) eq_refl)));
      [discriminate|reflexivity].
Defined.

(** The example of the specification: [org.crm.dynamics.com] is passed on
    as [https://org.crm.dynamics.com]. *)
Example sign_in_example :
  out (snd (sign_in (sample_world [Line "org.crm.dynamics.com"])))
  = [Print (nl ++ "📝 No active profile found or creating new one...");
     Print ("This will open a browser window for you to sign in." ++ nl);
     Prompt "Enter your environment URL (e.g., https://yourorg.crm.dynamics.com): ";
     Print (nl ++ "🌐 Opening browser for authentication to: https://org.crm.dynamics.com");
     Print ("Please complete the sign-in process in your browser..." ++ nl);
     Spawn ["auth"; "create"; "--url"; "https://org.crm.dynamics.com"] false;
     Print (nl ++ "✅ Authentication successful!")].
Proof. reflexivity. Qed.

(** ** Export *)

Lemma run_outcome_no_nul (w : World) (args : list string) (capture : bool)
  (files files' : FS) (cp : CompletedProcess) :
  run_outcome w args capture files = (Completed cp, files') ->
  existsb Py.has_nul args = false.
Proof. unfold run_outcome. destruct (existsb _ _); [discriminate|reflexivity]. Qed.

Lemma export_args_no_nul (name : string) (full_path : PathLib.Path) :
  existsb Py.has_nul (export_args name full_path) = false ->
  Py.has_nul (PathLib.str full_path) = false.
Proof.
  unfold export_args. cbn [existsb]. intros H.
  repeat (apply orb_false_iff in H; destruct H as [? H]). assumption.
Qed.

Lemma bind_exists {B} (p : PathLib.Path) (k : bool -> IO B) (w : World) :
  Py.has_nul (PathLib.str p) = false ->
  bind (exists_ p) k w
  = if lookup_fails w (PathLib.str p) then (Raise OSError, w)
    else k (path_exists (fs w) p) w.
Proof.
  intros H. unfold bind, exists_. rewrite H. now destruct (lookup_fails _ _).
Qed.

Lemma bind_bind {A B C} (m : IO A) (f : A -> IO B) (g : B -> IO C) (w : World) :
  bind (bind m f) g w = bind m (fun x => bind (f x) g) w.
Proof. unfold bind. destruct (m w) as [[a|c|e] w']; reflexivity. Qed.

Lemma bind_try_return {A B} (init : A) (body : IO A) (cleanup : A -> IO unit)
  (k : A -> IO B) (w w' : World) (a : A) :
  body w = (Return a, w') ->
  bind (try_finally init body cleanup) k w = bind (cleanup a) (fun _ => k a) w'.
Proof.
  intros H. unfold bind, try_finally. rewrite H. unfold bind, ret.
  destruct (cleanup a w') as [[[]|c|e] w1]; reflexivity.
Qed.

Lemma bind_try_exit {A B} (init : A) (body : IO A) (cleanup : A -> IO unit)
  (k : A -> IO B) (w w' : World) (code : Z) :
  body w = (SysExit code, w') ->
  bind (try_finally init body cleanup) k w = bind (cleanup init) (fun _ => sys_exit code) w'.
Proof.
  intros H. unfold bind, try_finally. rewrite H. unfold bind, sys_exit.
  destruct (cleanup init w') as [[[]|c|e] w1]; reflexivity.
Qed.

Lemma bind_try_raise {A B} (init : A) (body : IO A) (cleanup : A -> IO unit)
  (k : A -> IO B) (w w' : World) (e : Exn) :
  body w = (Raise e, w') ->
  bind (try_finally init body cleanup) k w = bind (cleanup init) (fun _ => raise e) w'.
Proof.
  intros H. unfold bind, try_finally. rewrite H. unfold bind, raise.
  destruct (cleanup init w') as [[[]|c|e'] w1]; reflexivity.
Qed.

Lemma path_mkdir_run (p : PathLib.Path) (w : World) (files : FS) :
  mkdir w p = inr files -> path_mkdir p w = (Return tt, set_fs files w).
Proof. intros H. unfold path_mkdir. now rewrite H. Qed.

Lemma bind_datetime_now {B} (k : datetime -> IO B) (w : World) :
  bind datetime_now k w = k (clock w (ncalls w)) w.
Proof. reflexivity. Qed.

(** How [run_pac_command] ends, as an equation. *)
Lemma run_pac_command_eq (args : list string) (capture : bool) (w : World)
  (r : ProcOutcome) (files : FS) :
  run_outcome w args capture (fs w) = (r, files) ->
  run_pac_command args capture w
  = match r with
    | Completed cp => (Return cp, spawned args capture files w)
    | ExecutableNotFound =>
        (SysExit 1, add_out install_help (spawned args capture files w))
    | ProcInterrupted => (Raise KeyboardInterrupt, spawned args capture files w)
    | ProcOSError => (Raise OSError, spawned args capture files w)
    | ProcValueError => (Raise ValueError, spawned args capture files w)
    end.
Proof.
  intros H. unfold run_pac_command, subprocess_run. rewrite H.
  destruct r; try reflexivity.
  rewrite !bind_print, !add_out_add_out. reflexivity.
Qed.

(** The same under [bind], for a world that differs from [w] in the text
    shown and the lines read only. *)
Lemma bind_run_pac_command {B} (args : list string) (capture : bool)
  (k : CompletedProcess -> IO B) (w1 : World) (r : ProcOutcome) (files : FS) :
  run_outcome w1 args capture (fs w1) = (r, files) ->
  bind (run_pac_command args capture) k w1
  = match r with
    | Completed cp => k cp (spawned args capture files w1)
    | ExecutableNotFound =>
        (SysExit 1, add_out install_help (spawned args capture files w1))
    | ProcInterrupted => (Raise KeyboardInterrupt, spawned args capture files w1)
    | ProcOSError => (Raise OSError, spawned args capture files w1)
    | ProcValueError => (Raise ValueError, spawned args capture files w1)
    end.
Proof.
  intros H. unfold bind. rewrite (run_pac_command_eq args capture w1 r files H).
  now destruct r.
Qed.

Lemma export_solution_run (name dir : string) (w : World)
  (files : FS) (r : ProcOutcome) (files' : FS) :
  let output_path := PathLib.parse dir in
  let full_path := PathLib.joinpath output_path (export_filename name (clock w (ncalls w))) in
  mkdir w output_path = inr files ->
  run_outcome w (export_args name full_path) true files = (r, files') ->
  exists events,
    export_solution name dir w
    = (export_result w full_path r files', called files' (out w ++ events) w)
    /\ actions events
       = SpinnerStart (spinner_message name) :: Spawn (export_args name full_path) true
         :: (if export_stuck w full_path r then []
             else [SpinnerStop (spinner_message name)
                     (is_true (export_result w full_path r files'))])
    /\ (export_result w full_path r files' = Return false ->
        (exists cp, r = Completed cp /\ returncode cp = 0%Z) ->
        In (Print not_found_warning) events).
Proof.
  intros output_path full_path Hmk Hrun.
  unfold export_solution. fold output_path.
  rewrite (bind_run _ _ _ _ _ (path_mkdir_run _ _ _ Hmk)).
  rewrite bind_datetime_now. cbn [set_fs clock ncalls]. fold full_path.
  io_steps.
  match goal with |- context [bind (try_finally _ _ _) _ ?W] => set (w1 := W) end.
  assert (Hcmd := run_pac_command_eq (export_args name full_path) true w1 r files' Hrun).
  destruct r as [cp| | | |].
  - pose proof (export_args_no_nul _ _ (run_outcome_no_nul _ _ _ _ _ _ Hrun)) as Hnul.
    rewrite (bind_try_return _ _ _ _ w1 _ (Some cp)
               (bind_run _ _ _ _ _ Hcmd)).
    unfold export_result, export_stuck, is_true.
    destruct (returncode cp =? 0)%Z eqn:Hrc.
    + rewrite bind_bind, (bind_exists _ _ _ Hnul).
      change (lookup_fails (spawned _ _ _ w1)) with (lookup_fails w).
      destruct (lookup_fails w (PathLib.str full_path)) eqn:Hfail.
      * subst w1. unfold spawned, add_out, set_fs, called.
        cbn [fs pac ncalls clock stdin out recursion_limit lookup_fails andb].
        rewrite <- ?app_assoc. eexists. split; [reflexivity|].
        split; [reflexivity|]. discriminate.
      * rewrite bind_emit, (bind_exists _ _ _ Hnul).
        change (lookup_fails (add_out _ (spawned _ _ _ w1))) with (lookup_fails w).
        rewrite Hfail.
        change (fs (spawned _ _ files' w1)) with files'.
        change (fs (add_out _ (spawned _ _ files' w1))) with files'.
        destruct (path_exists files' full_path) eqn:Hex; io_steps;
          try (destruct (nonempty (stdout cp)); io_steps);
          subst w1; unfold spawned, add_out, set_fs, called, ret;
          cbn [fs pac ncalls clock stdin out recursion_limit lookup_fails andb];
          rewrite <- ?app_assoc; eexists; (split; [reflexivity|]);
          (split; [reflexivity|]); simpl; intuition congruence.
    + rewrite bind_bind, bind_ret, bind_emit. io_steps.
      destruct (nonempty (stderr cp)); io_steps;
        subst w1; unfold spawned, add_out, set_fs, called, ret;
        cbn [fs pac ncalls clock stdin out recursion_limit lookup_fails andb];
        rewrite <- ?app_assoc; eexists; (split; [reflexivity|]);
        (split; [reflexivity|]); intros _ (cp' & [= <-] & Hz);
        rewrite Hz in Hrc; discriminate.
  - rewrite (bind_try_exit _ _ _ _ w1 _ 1 (bind_exit _ _ _ _ _ Hcmd)).
    rewrite bind_bind, bind_ret, bind_emit.
    subst w1; unfold spawned, add_out, set_fs, called, sys_exit;
      cbn [fs pac ncalls clock stdin out recursion_limit lookup_fails];
      rewrite <- ?app_assoc; eexists; (split; [reflexivity|]);
      (split; [reflexivity|]); discriminate.
  - rewrite (bind_try_raise _ _ _ _ w1 _ _ (bind_raise _ _ _ _ _ Hcmd)).
    rewrite bind_bind, bind_ret, bind_emit.
    subst w1; unfold spawned, add_out, set_fs, called, raise;
      cbn [fs pac ncalls clock stdin out recursion_limit lookup_fails];
      rewrite <- ?app_assoc; eexists; (split; [reflexivity|]);
      (split; [reflexivity|]); discriminate.
  - rewrite (bind_try_raise _ _ _ _ w1 _ _ (bind_raise _ _ _ _ _ Hcmd)).
    rewrite bind_bind, bind_ret, bind_emit.
    subst w1; unfold spawned, add_out, set_fs, called, raise;
      cbn [fs pac ncalls clock stdin out recursion_limit lookup_fails];
      rewrite <- ?app_assoc; eexists; (split; [reflexivity|]);
      (split; [reflexivity|]); discriminate.
  - rewrite (bind_try_raise _ _ _ _ w1 _ _ (bind_raise _ _ _ _ _ Hcmd)).
    rewrite bind_bind, bind_ret, bind_emit.
    subst w1; unfold spawned, add_out, set_fs, called, raise;
      cbn [fs pac ncalls clock stdin out recursion_limit lookup_fails];
      rewrite <- ?app_assoc; eexists; (split; [reflexivity|]);
      (split; [reflexivity|]); discriminate.
Qed.

Lemma filter_actions_In (events : list Event) (e : Event) :
  In e (actions events) -> In e events.
Proof. unfold actions. rewrite filter_In. tauto. Qed.

(** When the directory cannot be made, [export_solution] raises before it
    prints or calls anything. *)
Lemma export_solution_mkdir_fails (name dir : string) (w : World) (e : Exn) :
  mkdir w (PathLib.parse dir) = inl e ->
  export_solution name dir w = (Raise e, w).
Proof.
  intros Hmk. unfold export_solution. unfold bind at 1. unfold path_mkdir.
  now rewrite Hmk.
Qed.

(** [export_solution] returns only when the directory was made and the
    call of the tool returned. *)
Lemma export_solution_returns (name dir : string) (w : World) (b : bool) :
  let output_path := PathLib.parse dir in
  let full_path := PathLib.joinpath output_path (export_filename name (clock w (ncalls w))) in
  fst (export_solution name dir w) = Return b ->
  exists files cp files',
    mkdir w output_path = inr files
    /\ run_outcome w (export_args name full_path) true files = (Completed cp, files').
Proof.
  intros output_path full_path.
  destruct (mkdir w output_path) as [e|files] eqn:Hmk.
  - rewrite (export_solution_mkdir_fails name dir w e Hmk). discriminate.
  - destruct (run_outcome w (export_args name full_path) true files) as [r files'] eqn:Hrun.
    destruct (export_solution_run name dir w files r files' Hmk Hrun) as (events & -> & _).
    destruct r as [cp| | | |]; try discriminate. intros _. eauto.
Qed.

(** X20.  When the lookup of the target path raises no error,
    [export_solution] reports success exactly when the export invocation
    returned, its exit status is zero and a file exists at the target path
    after the invocation.  With exit status zero and no file at the target
    path it then reports failure, stops the spinner as failed and prints
    that the command completed but the file was not found. *)
Theorem export_success_iff (name dir : string) (w : World) :
  let output_path := PathLib.parse dir in
  let full_path := PathLib.joinpath output_path (export_filename name (clock w (ncalls w))) in
  lookup_fails w (PathLib.str full_path) = false ->
  (fst (export_solution name dir w) = Return true <->
   exists files cp files',
     mkdir w output_path = inr files
     /\ run_outcome w (export_args name full_path) true files = (Completed cp, files')
     /\ returncode cp = 0%Z
     /\ path_exists files' full_path = true)
  /\ (forall files cp files',
        mkdir w output_path = inr files ->
        run_outcome w (export_args name full_path) true files = (Completed cp, files') ->
        returncode cp = 0%Z ->
        path_exists files' full_path = false ->
        fst (export_solution name dir w) = Return false
        /\ In (SpinnerStop (spinner_message name) false)
              (out (snd (export_solution name dir w)))
        /\ In (Print not_found_warning) (out (snd (export_solution name dir w)))).
Proof.
  intros output_path full_path Hlookup. split; [split|].
  - intros Hret.
    destruct (export_solution_returns name dir w true Hret) as (files & cp & files' & Hmk & Hrun).
    destruct (export_solution_run name dir w files _ files' Hmk Hrun) as (events & Heq & _).
    rewrite Heq in Hret. cbn [fst export_result] in Hret. fold output_path full_path in Hret.
    rewrite Hlookup in Hret.
    destruct (returncode cp =? 0)%Z eqn:Hrc; [|discriminate].
    injection Hret as Hex. apply Z.eqb_eq in Hrc. exists files, cp, files'. auto.
  - intros (files & cp & files' & Hmk & Hrun & Hrc & Hex).
    destruct (export_solution_run name dir w files _ files' Hmk Hrun) as (events & Heq & _).
    rewrite Heq. cbn [fst export_result]. fold output_path full_path.
    now rewrite Hrc, Hlookup, Hex.
  - intros files cp files' Hmk Hrun Hrc Hex.
    destruct (export_solution_run name dir w files _ files' Hmk Hrun)
      as (events & Heq & Hactions & Hwarn).
    fold output_path full_path in Hactions, Hwarn.
    assert (Hres : export_result w full_path (Completed cp) files' = Return false).
    { cbn [export_result]. now rewrite Hrc, Hlookup, Hex. }
    rewrite Heq. fold output_path full_path. cbn [fst snd called out].
    rewrite Hres in *. split; [reflexivity|]. split.
    + apply in_or_app. right. apply filter_actions_In. rewrite Hactions.
      cbn [export_stuck]. rewrite Hlookup, andb_false_r. simpl. auto.
    + apply in_or_app. right. apply Hwarn; [reflexivity|]. eauto.
Qed.

Lemma export_success_iff_witness :
  fst (export_solution "B" "./exports" (world_of lazy_pac [])) = Return false
  /\ In (SpinnerStop (spinner_message "B") false)
        (out (snd (export_solution "B" "./exports" (world_of lazy_pac []))))
  /\ In (Print not_found_warning)
        (out (snd (export_solution "B" "./exports" (world_of lazy_pac [])))).
Proof.
  apply (proj2 (export_success_iff "B" "./exports" (world_of lazy_pac []) eq_refl)
           (<["exports" := Dir]> ∅) succeeded (<["exports" := Dir]> ∅));
    reflexivity.
Defined.

(** C1.  The code does not report a failure when the lookup of the target
    path raises.  The name of 300 characters is accepted by the selection;
    the tool exits with status 0 and writes no file; [export_solution] then
    neither returns [False] nor prints the diagnostic: it raises [OSError]
    out of the [finally] block, before the spinner is stopped, and the
    process does not end. *)
Theorem long_name_export_raises :
  let name := Py.repeat_char "x" 300 in
  let w := world_of lazy_pac [] in
  let full_path :=
    PathLib.joinpath (PathLib.parse "./exports") (export_filename name (clock w (ncalls w))) in
  fst (resolve_selection name abc w) = Return (Some name)
  /\ run_outcome w (export_args name full_path) true (<["exports" := Dir]> ∅)
     = (Completed succeeded, <["exports" := Dir]> ∅)
  /\ path_exists (<["exports" := Dir]> ∅) full_path = false
  /\ fst (export_solution name "./exports" w) = Raise OSError
  /\ Forall (fun e => e <> Print not_found_warning)
            (out (snd (export_solution name "./exports" w)))
  /\ spinning (out (snd (export_solution name "./exports" w))) = true
  /\ hangs (world_of lazy_pac [Line "y"; Line name]) = true.
Proof.
  cbv zeta. split; [vm_compute; reflexivity|].
  split; [vm_compute; reflexivity|]. split; [vm_compute; reflexivity|].
  split; [vm_compute; reflexivity|]. split; [|split; vm_compute; reflexivity].
  vm_compute. repeat (constructor; [discriminate|]). constructor.
Qed.

(** The other direction at a tool that writes the file. *)
Example export_success_example :
  fst (export_solution "B" "./exports" (sample_world [])) = Return true
  /\ fst (export_solution "B" "./exports" (world_of lazy_pac [])) = Return false.
Proof. split; reflexivity. Qed.

(** ** Exit status *)

(** A run is the pair of its outcome and of the world it leaves. *)
Lemma run_eq {A} (m : IO A) (w : World) (r : Outcome A) :
  fst (m w) = r -> m w = (r, snd (m w)).
Proof. intros <-. apply surjective_pairing. Qed.

Lemma offer_another_accepted (k : IO unit) (w w' : World) :
  accepts_another w w' -> offer_another k w = k w'.
Proof.
  intros (typed & rest & Hin & Hyes & ->). unfold offer_another. io_steps.
  rewrite !(bind_input _ typed rest) by exact Hin.
  rewrite Hyes. reflexivity.
Qed.

(** An export that reports failure inside [export_another_solution] makes
    that call, and every enclosing one, return normally. *)
Lemma another_export_fails_returns (depth : nat) (w w' : World) :
  another_export_fails depth w w' ->
  export_another_solution depth w = (Return tt, w').
Proof.
  induction 1 as [depth w w1 w' name Hsel Hexp
                 |depth w w1 w2 w3 w' name Hsel Hexp Hyes _ IH].
  - cbn [export_another_solution].
    rewrite (bind_run _ _ w w1 (Some name) Hsel).
    rewrite (bind_run _ _ w1 w' false Hexp). reflexivity.
  - cbn [export_another_solution].
    rewrite (bind_run _ _ w w1 (Some name) Hsel).
    rewrite (bind_run _ _ w1 w2 true Hexp).
    rewrite (offer_another_accepted _ w2 w3 Hyes). exact IH.
Qed.

(** C5, as amended.  When the export driven by [main] reports failure the
    program ends with exit status 1.  When an export of the
    export-another flow reports failure, [export_another_solution] returns
    normally and the program ends with exit status 0. *)
Theorem export_failure_exit_status (w w1 w2 : World) (solution_name : string) :
  main_select w = (Return solution_name, w1) ->
  (export_solution solution_name default_output_dir w1 = (Return false, w2) ->
     exit_code w = 1%Z)
  /\ (forall w3 w',
        export_solution solution_name default_output_dir w1 = (Return true, w2) ->
        accepts_another w2 w3 ->
        another_export_fails (recursion_limit w2) w3 w' ->
        export_another_solution (recursion_limit w2) w3 = (Return tt, w')
        /\ exit_code w = 0%Z).
Proof.
  intros Hsel. split.
  - intros Hexp. unfold exit_code, program, main.
    rewrite (bind_run _ _ w w1 solution_name Hsel). unfold main_export.
    rewrite (bind_run _ _ w1 w2 false Hexp). reflexivity.
  - intros w3 w' Hexp Hyes Hfail.
    pose proof (another_export_fails_returns _ w3 w' Hfail) as Hret.
    split; [exact Hret|].
    unfold exit_code, program, main.
    rewrite (bind_run _ _ w w1 solution_name Hsel). unfold main_export.
    rewrite (bind_run _ _ w1 w2 true Hexp).
    rewrite (offer_another_accepted _ w2 w3 Hyes), Hret. reflexivity.
Qed.

Lemma export_failure_exit_status_witness :
  exit_code first_export_fails = 1%Z /\ exit_code second_export_fails = 0%Z.
Proof.
  split.
  - assert (Hsel : main_select first_export_fails = (Return "B", first_selected))
      by (refine (run_eq main_select first_export_fails (Return "B") _);
          vm_compute; reflexivity).
    assert (Hexp : export_solution "B" default_output_dir first_selected
                   = (Return false, snd (export_solution "B" default_output_dir first_selected)))
      by (refine (run_eq (export_solution "B" default_output_dir) _ (Return false) _);
          vm_compute; reflexivity).
    exact (proj1 (export_failure_exit_status first_export_fails _ _ "B" Hsel) Hexp).
  - assert (Hsel : main_select second_export_fails = (Return "B", second_selected))
      by (refine (run_eq main_select second_export_fails (Return "B") _);
          vm_compute; reflexivity).
    assert (Hexp : export_solution "B" default_output_dir second_selected
                   = (Return true, second_exported))
      by (refine (run_eq (export_solution "B" default_output_dir) _ (Return true) _);
          vm_compute; reflexivity).
    assert (Hyes : accepts_another second_exported second_again).
    { exists "y", [Line "1"]. split; [vm_compute; reflexivity|].
      split; [vm_compute; reflexivity|reflexivity]. }
    assert (Hsel' : another_select second_again = (Return (Some "A"), second_reselected))
      by (refine (run_eq another_select _ (Return (Some "A")) _);
          vm_compute; reflexivity).
    assert (Hexp' : export_solution "A" default_output_dir second_reselected
                    = (Return false, second_failed))
      by (refine (run_eq (export_solution "A" default_output_dir) _ (Return false) _);
          vm_compute; reflexivity).
    assert (Hlimit : recursion_limit second_exported = 900) by (vm_compute; reflexivity).
    assert (Hfail : another_export_fails (recursion_limit second_exported)
                      second_again second_failed).
    { rewrite Hlimit. exact (fails_now 899 _ _ _ "A" Hsel' Hexp'). }
    exact (proj2 (proj2 (export_failure_exit_status second_export_fails _ _ "B" Hsel)
                    _ _ Hexp Hyes Hfail)).
Defined.

(** C5, as stated, fails in the export-another flow: the second export
    reports failure and the program still ends with exit status 0. *)
Lemma failed_second_export_exits_zero :
  main_select second_export_fails = (Return "B", second_selected)
  /\ export_solution "B" default_output_dir second_selected = (Return true, second_exported)
  /\ accepts_another second_exported second_again
  /\ another_select second_again = (Return (Some "A"), second_reselected)
  /\ export_solution "A" default_output_dir second_reselected = (Return false, second_failed)
  /\ exit_code second_export_fails = 0%Z.
Proof.
  split; [refine (run_eq main_select second_export_fails (Return "B") _);
          vm_compute; reflexivity|].
  split; [refine (run_eq (export_solution "B" default_output_dir) _ (Return true) _);
          vm_compute; reflexivity|].
  split.
  { exists "y", [Line "1"]. split; [vm_compute; reflexivity|].
    split; [vm_compute; reflexivity|reflexivity]. }
  split; [refine (run_eq another_select _ (Return (Some "A")) _);
          vm_compute; reflexivity|].
  split; [refine (run_eq (export_solution "A" default_output_dir) _ (Return false) _);
          vm_compute; reflexivity|].
  vm_compute; reflexivity.
Qed.

(** ** The target of an export *)

Lemma all_digits_app (s t : string) :
  Py.all_digits (s ++ t) = Py.all_digits s && Py.all_digits t.
Proof.
  induction s as [|c s IH]; [reflexivity|].
  rewrite app_cons. simpl. now rewrite IH, andb_assoc.
Qed.

Lemma digits_app (n m : nat) (s t : string) :
  digits n s -> digits m t -> digits (n + m) (s ++ t).
Proof.
  intros [Hn Hs] [Hm Ht]. split.
  - rewrite length_app_str. lia.
  - now rewrite all_digits_app, Hs, Ht.
Qed.

Lemma two_digits_digits (n : nat) : n < 100 -> digits 2 (two_digits n).
Proof.
  intros Hn.
  assert (Hall : forallb (fun k => (String.length (two_digits k) =? 2)
                                   && Py.all_digits (two_digits k)) (seq 0 100) = true)
    by (vm_compute; reflexivity).
  rewrite forallb_forall in Hall. specialize (Hall n).
  assert (Hin : In n (seq 0 100)) by (apply in_seq; lia).
  apply Hall, andb_true_iff in Hin as [Hlen Hdig].
  apply Nat.eqb_eq in Hlen. now split.
Qed.

Lemma is_digit_digit_char (n : nat) : Py.is_digit (Py.digit_char (n mod 10)) = true.
Proof.
  pose proof (Nat.mod_upper_bound n 10 ltac:(lia)) as Hlt.
  remember (n mod 10) as k eqn:Hk. clear Hk.
  do 10 (destruct k as [|k]; [reflexivity|]). lia.
Qed.

Lemma str_of_nat_fuel_digits (fuel n : nat) (acc : string) :
  Py.all_digits acc = true -> Py.all_digits (Py.str_of_nat_fuel fuel n acc) = true.
Proof.
  revert n acc. induction fuel as [|fuel IH]; intros n acc Hacc; [exact Hacc|].
  cbn [Py.str_of_nat_fuel]. destruct (n / 10 =? 0).
  - cbn [Py.all_digits]. now rewrite is_digit_digit_char.
  - apply IH. cbn [Py.all_digits]. now rewrite is_digit_digit_char.
Qed.

Lemma str_of_nat_fuel_last (fuel n : nat) (acc : string) :
  n / 10 = 0 ->
  Py.str_of_nat_fuel (S fuel) n acc = String (Py.digit_char (n mod 10)) acc.
Proof. intros H. cbn [Py.str_of_nat_fuel]. now rewrite H. Qed.

Lemma str_of_nat_fuel_step (fuel n : nat) (acc : string) :
  n / 10 <> 0 ->
  Py.str_of_nat_fuel (S fuel) n acc
  = Py.str_of_nat_fuel fuel (n / 10) (String (Py.digit_char (n mod 10)) acc).
Proof. intros H. cbn [Py.str_of_nat_fuel]. apply Nat.eqb_neq in H. now rewrite H. Qed.

Lemma div10_bounds (n lo hi : nat) :
  10 * lo <= n < 10 * hi -> lo <= n / 10 < hi.
Proof.
  intros [Hlo Hhi]. split.
  - apply Nat.div_le_lower_bound; [lia|exact Hlo].
  - apply Nat.Div0.div_lt_upper_bound. exact Hhi.
Qed.

Lemma year_digits (y : nat) :
  (1000 <= Z.of_nat y <= 9999)%Z -> digits 4 (Py.str_of_nat y).
Proof.
  intros Hy. split; [|apply str_of_nat_fuel_digits; reflexivity].
  unfold Py.str_of_nat.
  assert (B1 : 100 <= y / 10 < 1000) by (apply div10_bounds; lia).
  assert (B2 : 10 <= y / 10 / 10 < 100) by (apply div10_bounds; lia).
  assert (B3 : 1 <= y / 10 / 10 / 10 < 10) by (apply div10_bounds; lia).
  assert (H4 : y / 10 / 10 / 10 / 10 = 0) by (apply Nat.div_small; lia).
  destruct y as [|[|[|y]]]; try lia.
  rewrite str_of_nat_fuel_step by lia. rewrite str_of_nat_fuel_step by lia.
  rewrite str_of_nat_fuel_step by lia. rewrite (str_of_nat_fuel_last _ _ _ H4).
  reflexivity.
Qed.

(** A valid clock reading prints as eight digits, an underscore and six
    digits. *)
Lemma timestamp_digits (d : datetime) :
  valid_datetime d -> digits 8 (date_part d) /\ digits 6 (time_part d).
Proof.
  intros (Hy & Hmo & Hd & Hh & Hmi & Hs). unfold date_part, time_part. split.
  - apply (digits_app 4 4); [now apply year_digits|].
    apply (digits_app 2 2); apply two_digits_digits; lia.
  - apply (digits_app 2 4); [apply two_digits_digits; lia|].
    apply (digits_app 2 2); apply two_digits_digits; lia.
Qed.

Lemma export_filename_shape (name : string) (d : datetime) :
  export_filename name d = name ++ "_" ++ date_part d ++ "_" ++ time_part d ++ ".zip".
Proof.
  unfold export_filename, timestamp. now rewrite !app_assoc_str.
Qed.

Lemma sample_clock_valid (k : nat) : k < 60 -> valid_datetime (sample_clock k).
Proof. intros Hk. unfold valid_datetime. simpl. lia. Qed.

(** C6.  The target is not always inside the output directory: for the
    name [/Foo], which the direct-name fallback of the selection accepts,
    the target path is the file name alone, at the root of the file system
    and not in [./exports], and that is the path the tool is given. *)
Theorem absolute_name_leaves_output_dir :
  let full_path := PathLib.joinpath (PathLib.parse "./exports")
                     (export_filename "/Foo" (sample_clock 0)) in
  fst (resolve_selection "/Foo" abc (sample_world [])) = Return (Some "/Foo")
  /\ PathLib.str full_path = "/Foo_20240309_140500.zip"
  /\ PathLib.is_inside (PathLib.parse "./exports") full_path = false
  /\ In (Spawn ["solution"; "export"; "--name"; "/Foo";
                "--path"; "/Foo_20240309_140500.zip";
                "--managed"; "false"; "--overwrite"] true)
        (out (snd (export_solution "/Foo" "./exports" (sample_world [])))).
Proof.
  split; [vm_compute; reflexivity|].
  split; [vm_compute; reflexivity|]. split; [vm_compute; reflexivity|].
  vm_compute. repeat (first [left; reflexivity | right]).
Qed.

(** * Further properties of the program *)

(** ** The exit status *)





























(** *** Whether the process ends *)


























(** ** The number in front of a row *)

Lemma digit_char_value (d : nat) :
  d < 10 ->
  Py.is_digit (Py.digit_char d) = true /\ nat_of_ascii (Py.digit_char d) - 48 = d.
Proof.
  intros Hd. do 10 (destruct d as [|d]; [split; reflexivity|]). lia.
Qed.

Lemma int_digits_digit (prev : bool) (acc : Z) (d : nat) (s : string) :
  d < 10 ->
  Py.int_digits prev acc (String (Py.digit_char d) s)
  = Py.int_digits true (10 * acc + Z.of_nat d) s.
Proof.
  intros Hd. destruct (digit_char_value d Hd) as [Hdig Hval].
  cbn [Py.int_digits]. now rewrite Hdig, Hval.
Qed.

(** Reading back what [str] prints, digit by digit. *)
Lemma int_digits_str_of_nat_fuel (fuel n : nat) (acc : string) (prev : bool) :
  n < fuel ->
  Py.int_digits prev 0 (Py.str_of_nat_fuel fuel n acc)
  = Py.int_digits true (Z.of_nat n) acc.
Proof.
  revert n acc prev. induction fuel as [|fuel IH]; intros n acc prev Hn; [lia|].
  pose proof (Nat.mod_upper_bound n 10 ltac:(lia)) as Hmod.
  pose proof (Nat.div_mod_eq n 10) as Hdm.
  destruct (Nat.eq_dec (n / 10) 0) as [Hz|Hnz].
  - rewrite (str_of_nat_fuel_last _ _ _ Hz), (int_digits_digit _ _ _ _ Hmod).
    f_equal. lia.
  - rewrite (str_of_nat_fuel_step _ _ _ Hnz).
    rewrite IH by lia. rewrite (int_digits_digit _ _ _ _ Hmod).
    f_equal. lia.
Qed.

Lemma is_digit_not_space (c : ascii) : Py.is_digit c = true -> Py.is_space c = false.
Proof.
  destruct c as [[] [] [] [] [] [] [] []]; intros H; try discriminate H; reflexivity.
Qed.

Lemma is_digit_not_int_space (c : ascii) : Py.is_digit c = true -> Py.int_space c = false.
Proof.
  destruct c as [[] [] [] [] [] [] [] []]; intros H; try discriminate H; reflexivity.
Qed.

Lemma int_rstrip_digits (s : string) : Py.all_digits s = true -> Py.int_rstrip s = s.
Proof.
  induction s as [|c s IH]; [reflexivity|]. cbn [Py.all_digits Py.int_rstrip].
  intros H. apply andb_true_iff in H as [Hc Hs]. rewrite (IH Hs).
  destruct s; [now rewrite (is_digit_not_int_space c Hc)|reflexivity].
Qed.

Lemma int_strip_digits (s : string) :
  Py.all_digits s = true -> Py.int_rstrip (Py.int_lstrip s) = s.
Proof.
  intros H. destruct s as [|c s]; [reflexivity|].
  pose proof H as H'. cbn [Py.all_digits] in H'. apply andb_true_iff in H' as [Hc _].
  cbn [Py.int_lstrip]. rewrite (is_digit_not_int_space c Hc). now apply int_rstrip_digits.
Qed.

Lemma count_digits_all (s : string) :
  Py.all_digits s = true -> Py.count_digits s = String.length s.
Proof.
  induction s as [|c s IH]; [reflexivity|]. cbn [Py.all_digits Py.count_digits String.length].
  intros H. apply andb_true_iff in H as [-> Hs]. now rewrite (IH Hs).
Qed.

(** A string of digits that is not too long is read without a sign. *)
Lemma int_digits_only (c : ascii) (s : string) :
  Py.all_digits (String c s) = true ->
  String.length (String c s) <= Py.int_max_str_digits ->
  Py.int (String c s) = Py.int_digits false 0 (String c s).
Proof.
  intros H Hlen. unfold Py.int. rewrite (int_strip_digits _ H).
  assert (Hcount : (Py.count_digits (String c s) <=? Py.int_max_str_digits) = true)
    by (apply Nat.leb_le; now rewrite (count_digits_all _ H)).
  pose proof H as Hc. cbn [Py.all_digits] in Hc. apply andb_true_iff in Hc as [Hc _].
  destruct c as [[] [] [] [] [] [] [] []]; try discriminate Hc;
    cbv beta iota zeta; rewrite Hcount;
    match goal with |- context [Py.int_digits false 0 ?d] =>
      destruct (Py.int_digits false 0 d) end; reflexivity.
Qed.

Lemma str_of_nat_cons (n : nat) : exists c s, Py.str_of_nat n = String c s.
Proof.
  assert (H : forall fuel k c s, exists c' s',
             Py.str_of_nat_fuel fuel k (String c s) = String c' s').
  { induction fuel as [|fuel IH]; intros k c s; [simpl; eauto|].
    cbn [Py.str_of_nat_fuel]. destruct (k / 10 =? 0); [eauto|apply IH]. }
  unfold Py.str_of_nat. cbn [Py.str_of_nat_fuel].
  destruct (n / 10 =? 0); [eauto|apply H].
Qed.

(** The digits [str] prints read back as the number. *)
Lemma int_digits_str_of_nat (n : nat) :
  Py.int_digits false 0 (Py.str_of_nat n) = Some (Z.of_nat n).
Proof. unfold Py.str_of_nat. now rewrite int_digits_str_of_nat_fuel by lia. Qed.

(** [int(str(n)) == n] for a natural number of at most 4300 digits. *)
Lemma int_str_of_nat (n : nat) :
  String.length (Py.str_of_nat n) <= Py.int_max_str_digits ->
  Py.int (Py.str_of_nat n) = Some (Z.of_nat n).
Proof.
  intros Hlen.
  assert (Hdig : Py.all_digits (Py.str_of_nat n) = true)
    by (apply str_of_nat_fuel_digits; reflexivity).
  destruct (str_of_nat_cons n) as (c & s & Hcs).
  rewrite Hcs in Hdig, Hlen |- *. rewrite (int_digits_only c s Hdig Hlen), <- Hcs.
  apply int_digits_str_of_nat.
Qed.

(** Typing the number of row [i + 1] resolves to the record in that row. *)
Lemma resolve_selection_index (solutions : list Solution) (i : nat) (sol : Solution)
  (w : World) :
  String.length (Py.str_of_nat (S i)) <= Py.int_max_str_digits ->
  solutions !! i = Some sol ->
  fst (resolve_selection (Py.str_of_nat (S i)) solutions w)
  = Return (Some (unique_name sol)).
Proof.
  intros Hlen Hsol. pose proof (lookup_lt_Some _ _ _ Hsol) as Hlt.
  unfold resolve_selection. rewrite (int_str_of_nat _ Hlen).
  assert (Hrange : ((Z.of_nat (S i) <? 1) || (Z.of_nat (length solutions) <? Z.of_nat (S i)))%Z
                   = false) by (apply orb_false_iff; split; apply Z.ltb_ge; lia).
  rewrite Hrange. replace (Z.to_nat (Z.of_nat (S i) - 1)) with i by lia.
  now rewrite Hsol.
Qed.

Lemma split_cons_space (c : ascii) (s : string) :
  Py.is_space c = true -> Py.split (String c s) = Py.split s.
Proof. intros Hc. cbn [Py.split]. now rewrite Hc. Qed.

(** A run of non-whitespace characters followed by whitespace is the first
    token of [split]. *)
Lemma split_first_token (s t : string) (c : ascii) :
  no_space s = true -> s <> "" -> Py.is_space c = true ->
  Py.split (s ++ String c t) = s :: Py.split t.
Proof.
  intros Hs Hne Hc. induction s as [|a s IH]; [contradiction|].
  cbn [no_space] in Hs. apply andb_true_iff in Hs as [Ha Hs].
  apply negb_true_iff in Ha. rewrite app_cons.
  destruct s as [|b s].
  - rewrite app_empty_l. cbn [Py.split]. rewrite Ha, Hc. reflexivity.
  - assert (Hb : Py.is_space b = false).
    { cbn [no_space] in Hs. apply andb_true_iff in Hs as [Hb _].
      now apply negb_true_iff. }
    specialize (IH Hs ltac:(discriminate)).
    rewrite app_cons in IH |- *.
    change (Py.split (String a (String b (s ++ String c t))))
      with (if Py.is_space a then Py.split (String b (s ++ String c t))
            else if Py.is_space b
                 then String a "" :: Py.split (String b (s ++ String c t))
                 else match Py.split (String b (s ++ String c t)) with
                      | h :: tl => String a h :: tl
                      | [] => [String a ""]
                      end).
    now rewrite Ha, Hb, IH.
Qed.

Lemma digits_no_space (s : string) : Py.all_digits s = true -> no_space s = true.
Proof.
  induction s as [|c s IH]; [reflexivity|]. cbn [Py.all_digits no_space].
  intros H. apply andb_true_iff in H as [Hc Hs].
  now rewrite (is_digit_not_space c Hc), (IH Hs).
Qed.

Lemma repeat_space_then (k : nat) (r : string) :
  Py.repeat_char " " k ++ String " " r = String " " (Py.repeat_char " " k ++ r).
Proof.
  induction k as [|k IH]; [reflexivity|].
  cbn [Py.repeat_char]. now rewrite !app_cons, IH.
Qed.

(** The first token of a table row is the number of the row. *)
Lemma render_row_first_token (idx : nat) (sol : Solution) :
  exists rest, Py.split (render_row idx sol) = Py.str_of_nat idx :: rest.
Proof.
  unfold render_row, Py.ljust at 1.
  set (tail := (Py.ljust 30 _ ++ _)).
  rewrite app_assoc_str.
  change (" " ++ tail) with (String " " tail).
  rewrite repeat_space_then.
  assert (Hdig : Py.all_digits (Py.str_of_nat idx) = true)
    by (apply str_of_nat_fuel_digits; reflexivity).
  rewrite split_first_token; [eauto|now apply digits_no_space| |reflexivity].
  destruct (str_of_nat_cons idx) as (c & s & ->). discriminate.
Qed.

(** Every record [list_solutions] returns has its row in the printed table,
    numbered from 1 in the order of the output. *)
Lemma list_solutions_rows (w : World) (cp : CompletedProcess) (files : FS)
  (i : nat) (sol : Solution) :
  pac w (ncalls w) ["solution"; "list"] true (fs w) = (Completed cp, files) ->
  listed cp !! i = Some sol ->
  In (Print (render_row (S i) sol)) (out (snd (list_solutions w))).
Proof.
  intros Hpac Hsol. unfold list_solutions. rewrite bind_print.
  unfold bind at 1. unfold run_pac_command, subprocess_run.
  rewrite run_outcome_pac by reflexivity.
  cbn [add_out fs pac ncalls]. rewrite Hpac.
  unfold listed in Hsol.
  destruct (negb (returncode cp =? 0)%Z); [discriminate Hsol|].
  destruct (if nonempty (stdout cp) then parse_solutions (stdout cp) else [])
    as [|sol0 sols] eqn:Hlisted; [discriminate Hsol|].
  assert (Hrow : In (Print (render_row (S i) sol))
                    (map Print (imap (fun i sol => render_row (S i) sol) (sol0 :: sols)))).
  { apply in_map, list_elem_of_In, list_elem_of_lookup. exists i.
    rewrite list_lookup_imap, Hsol. reflexivity. }
  io_steps. unfold ret, add_out, spawned. cbn [snd out].
  rewrite !in_app_iff. tauto.
Qed.

(** X2.  The number printed in front of a solution selects that solution:
    [list_solutions] prints a row for each record it returns, the first
    token of the row of the record at position [i] is the decimal number
    [i + 1], and that number, typed at the prompt, resolves to the unique
    name of the record.  (The number has at most 4300 digits, the most
    [int] converts.) *)
Theorem typed_number_selects_row (w w' : World) (cp : CompletedProcess) (files : FS)
  (i : nat) (sol : Solution) :
  pac w (ncalls w) ["solution"; "list"] true (fs w) = (Completed cp, files) ->
  listed cp !! i = Some sol ->
  String.length (Py.str_of_nat (S i)) <= Py.int_max_str_digits ->
  fst (list_solutions w) = Return (listed cp)
  /\ In (Print (render_row (S i) sol)) (out (snd (list_solutions w)))
  /\ (exists rest, Py.split (render_row (S i) sol) = Py.str_of_nat (S i) :: rest)
  /\ fst (resolve_selection (Py.str_of_nat (S i)) (listed cp) w')
     = Return (Some (unique_name sol)).
Proof.
  intros Hpac Hsol Hlen. split; [|split; [|split]].
  - destruct (list_solutions_run w cp files Hpac) as [events ->]. reflexivity.
  - exact (list_solutions_rows w cp files i sol Hpac Hsol).
  - apply render_row_first_token.
  - now apply resolve_selection_index.
Qed.

Lemma typed_number_selects_row_witness :
  fst (resolve_selection "2" (listed sample_listing) (sample_world []))
  = Return (Some "B").
Proof.
  exact (proj2 (proj2 (proj2
    (typed_number_selects_row (sample_world []) (sample_world []) sample_listing ∅ 1
       (mkSolution "B" "B  Second Solution  2.0  True") eq_refl eq_refl
       (proj1 (Nat.leb_le 1 Py.int_max_str_digits) eq_refl))))).
Defined.

(** ** The records of the listing *)

(** The tokens of [split] are not empty and hold no whitespace. *)
Lemma split_tokens (s : string) :
  Forall (fun token => token <> "" /\ no_space token = true) (Py.split s).
Proof.
  induction s as [|c s IH]; [constructor|].
  cbn [Py.split]. destruct (Py.is_space c) eqn:Hc; [exact IH|].
  assert (Hone : String c "" <> "" /\ no_space (String c "") = true).
  { split; [discriminate|]. cbn [no_space]. now rewrite Hc. }
  destruct s as [|c' s']; [repeat constructor; apply Hone|].
  destruct (Py.is_space c'); [constructor; [exact Hone|exact IH]|].
  destruct (Py.split (String c' s')) as [|h t]; [repeat constructor; apply Hone|].
  inversion IH as [|? ? [_ Hh] Ht]; subst. constructor; [|exact Ht].
  split; [discriminate|]. cbn [no_space]. now rewrite Hc, Hh.
Qed.

Lemma parse_line_Some (line : string) (sol : Solution) :
  parse_line line = Some sol ->
  raw_line sol = line
  /\ listing_skipped line = false
  /\ (exists rest, Py.split line = unique_name sol :: rest)
  /\ Py.startswith "-" (unique_name sol) = false.
Proof.
  unfold parse_line. destruct (listing_skipped line); [discriminate|].
  destruct (Py.split line) as [|first rest]; [discriminate|].
  destruct (Py.startswith "-" first) eqn:Hdash; [discriminate|].
  intros [= <-]. simpl. eauto.
Qed.

Lemma list_solutions_In (w w' : World) (solutions : list Solution) (sol : Solution) :
  list_solutions w = (Return solutions, w') -> In sol solutions ->
  parse_line (raw_line sol) = Some sol.
Proof.
  intros Hrun Hin.
  destruct (list_solutions_returns w w' solutions Hrun) as (cp & files & _ & ->).
  exact (listed_In cp sol Hin).
Qed.

Lemma parse_line_name (line : string) (sol : Solution) :
  parse_line line = Some sol ->
  unique_name sol <> "" /\ no_space (unique_name sol) = true.
Proof.
  intros Hparse. destruct (parse_line_Some _ _ Hparse) as (_ & _ & [rest Hsplit] & _).
  pose proof (split_tokens line) as Htokens.
  rewrite Hsplit in Htokens. now inversion Htokens.
Qed.

(** X3.  Every record [list_solutions] returns was made from a line of the
    listing that is not blank and contains neither [---] nor
    [Unique Name]; its unique name is the first token of that line, is not
    empty, holds no whitespace and does not begin with [-]. *)
Theorem listed_records_well_formed (w w' : World) (solutions : list Solution)
  (sol : Solution) :
  list_solutions w = (Return solutions, w') ->
  In sol solutions ->
  (exists rest, Py.split (raw_line sol) = unique_name sol :: rest)
  /\ unique_name sol <> ""
  /\ no_space (unique_name sol) = true
  /\ Py.startswith "-" (unique_name sol) = false
  /\ Py.contains "---" (raw_line sol) = false
  /\ Py.contains "Unique Name" (raw_line sol) = false
  /\ Py.strip (raw_line sol) <> "".
Proof.
  intros Hrun Hin. pose proof (list_solutions_In w w' solutions sol Hrun Hin) as Hparse.
  destruct (parse_line_Some _ _ Hparse) as (_ & Hkept & Hsplit & Hdash).
  destruct (parse_line_name _ _ Hparse) as [Hne Hns].
  unfold listing_skipped in Hkept.
  apply orb_false_iff in Hkept as [Hkept Hblank].
  apply orb_false_iff in Hkept as [Hsep Hhead].
  apply negb_false_iff, negb_true_iff, String.eqb_neq in Hblank.
  repeat split; eauto.
Qed.

Lemma listed_records_well_formed_witness :
  unique_name (mkSolution "B" "B  Second Solution  2.0  True") <> "".
Proof.
  apply (listed_records_well_formed (sample_world [])
           (snd (list_solutions (sample_world []))) abc).
  - refine (run_eq list_solutions (sample_world []) (Return abc) _).
    vm_compute; reflexivity.
  - right; left; reflexivity.
Defined.

(** ** The name that is exported *)

Lemma bind_returns {A B} (m : IO A) (k : A -> IO B) (w w' : World) (b : B) :
  bind m k w = (Return b, w') ->
  exists a w1, m w = (Return a, w1) /\ k a w1 = (Return b, w').
Proof.
  unfold bind. destruct (m w) as [[a|c|e] w1]; try discriminate. eauto.
Qed.

Lemma resolve_selection_name (selection : string) (solutions : list Solution)
  (w w' : World) (name : string) :
  resolve_selection selection solutions w = (Return (Some name), w') ->
  (exists sol, In sol solutions /\ name = unique_name sol)
  \/ (name = selection /\ selection <> "").
Proof.
  unfold resolve_selection. destruct (Py.int selection) as [idx|].
  - destruct ((idx <? 1) || _)%Z.
    + rewrite bind_print. discriminate.
    + destruct (solutions !! Z.to_nat (idx - 1)) as [sol|] eqn:Hsol; [|discriminate].
      intros [= <- _]. left. exists sol. split; [|reflexivity].
      apply list_elem_of_In, list_elem_of_lookup. eauto.
  - destruct (nonempty selection) eqn:Hne; cbn [negb].
    + rewrite bind_print. intros [= <- _]. right. split; [reflexivity|].
      now apply negb_true_iff, String.eqb_neq in Hne.
    + rewrite bind_print. discriminate.
Qed.

Lemma selected_from_listing (w1 w2 w3 w4 : World) (solutions : list Solution)
  (selection name : string) :
  list_solutions w1 = (Return solutions, w2) ->
  resolve_selection selection solutions w3 = (Return (Some name), w4) ->
  name <> "".
Proof.
  intros Hlist Hres.
  destruct (resolve_selection_name _ _ _ _ _ Hres) as [(sol & Hin & ->)|[-> Hne]];
    [|exact Hne].
  exact (proj1 (parse_line_name _ _ (list_solutions_In w1 w2 solutions sol Hlist Hin))).
Qed.

(** X4.  No export is ever asked for under an empty name: the name [main]
    selects, and the name [export_another_solution] selects, is not
    empty. *)
Theorem selected_name_not_empty (w w' : World) (name : string) :
  (main_select w = (Return name, w') -> name <> "")
  /\ (another_select w = (Return (Some name), w') -> name <> "").
Proof.
  split.
  - unfold main_select. rewrite !bind_print. intros H.
    apply bind_returns in H as (installed & w1 & _ & H).
    destruct installed; cbn [negb] in H; [|discriminate H].
    apply bind_returns in H as (authenticated & w2 & _ & H).
    destruct authenticated; cbn [negb] in H; [|rewrite bind_print in H; discriminate H].
    apply bind_returns in H as (solutions & w3 & Hlist & H).
    destruct solutions as [|sol sols]; [rewrite bind_print in H; discriminate H|].
    rewrite bind_print in H. apply bind_returns in H as (typed & w4 & _ & H).
    cbv zeta in H. destruct (String.eqb _ "q"); [rewrite bind_print in H; discriminate H|].
    apply bind_returns in H as (resolved & w5 & Hres & H).
    destruct resolved as [chosen|]; [|discriminate H].
    injection H as -> _.
    exact (selected_from_listing _ _ _ _ _ _ _ Hlist Hres).
  - unfold another_select. intros H.
    apply bind_returns in H as (solutions & w1 & Hlist & H).
    destruct solutions as [|sol sols]; [rewrite bind_print in H; discriminate H|].
    rewrite bind_print in H. apply bind_returns in H as (typed & w2 & _ & H).
    cbv zeta in H. destruct (String.eqb _ "q"); [rewrite bind_print in H; discriminate H|].
    exact (selected_from_listing _ _ _ _ _ _ _ Hlist H).
Qed.

Lemma selected_name_not_empty_witness : "B" <> "".
Proof.
  apply (proj1 (selected_name_not_empty second_export_fails second_selected "B")).
  refine (run_eq main_select second_export_fails (Return "B") _).
  vm_compute; reflexivity.
Defined.

(** ** The columns of a row *)

Lemma from_end_cons (k : nat) (first : string) (rest : list string) :
  1 <= k <= length rest -> from_end k (first :: rest) = rest !! (length rest - k).
Proof.
  intros Hk. unfold from_end. cbn [length].
  assert (Hle : (k <=? S (length rest)) = true) by (apply Nat.leb_le; lia).
  rewrite Hle. replace (S (length rest) - k) with (S (length rest - k)) by lia.
  reflexivity.
Qed.

Lemma middle_cons (k : nat) (first : string) (rest : list string) :
  middle k (first :: rest) = take (length rest - k) rest.
Proof.
  unfold middle. cbn [length drop]. f_equal. lia.
Qed.

Lemma split_last_one (l : list string) (x : string) :
  l !! (length l - 1) = Some x -> l = (take (length l - 1) l ++ [x])%list.
Proof.
  intros Hx. pose proof (lookup_lt_Some _ _ _ Hx) as Hlt.
  rewrite <- (take_drop (length l - 1) l) at 1. f_equal.
  rewrite (drop_S _ _ _ Hx). replace (S (length l - 1)) with (length l) by lia.
  now rewrite drop_all.
Qed.

Lemma split_last_two (l : list string) (x y : string) :
  l !! (length l - 2) = Some x -> l !! (length l - 1) = Some y -> 2 <= length l ->
  l = (take (length l - 2) l ++ [x; y])%list.
Proof.
  intros Hx Hy Hlen.
  rewrite <- (take_drop (length l - 2) l) at 1. f_equal.
  rewrite (drop_S _ _ _ Hx). replace (S (length l - 2)) with (length l - 1) by lia.
  rewrite (drop_S _ _ _ Hy). replace (S (length l - 1)) with (length l) by lia.
  now rewrite drop_all.
Qed.

Lemma is_flag_nonempty (token : string) : is_flag token = true -> nonempty token = true.
Proof. destruct token; [discriminate|reflexivity]. Qed.

(** X5.  On a line of at least three tokens the columns take the tokens
    apart without loss: the tokens are the unique name, the tokens of the
    friendly name, the version and, when there is one, the managed flag, in
    that order; the friendly name shown is those middle tokens joined by
    single spaces and then truncated. *)
Theorem columns_partition_tokens (raw : string) :
  3 <= length (Py.split raw) ->
  exists friendly_parts,
    Py.split raw
    = col_unique_name (columns raw)
      :: (friendly_parts
          ++ col_version (columns raw)
             :: (if is_flag (col_managed (columns raw))
                 then [col_managed (columns raw)] else []))%list
    /\ col_friendly_name (columns raw) = truncate_friendly (Py.join " " friendly_parts).
Proof.
  intros Hlen. unfold columns.
  assert (Hle : (3 <=? length (Py.split raw)) = true) by (apply Nat.leb_le; lia).
  rewrite Hle. destruct (Py.split raw) as [|first rest]; [simpl in Hlen; lia|].
  cbn [length] in Hlen.
  rewrite !from_end_cons, !middle_cons by lia.
  destruct (lookup_lt_is_Some_2 rest (length rest - 1) ltac:(lia)) as [y Hy].
  destruct (lookup_lt_is_Some_2 rest (length rest - 2) ltac:(lia)) as [x Hx].
  rewrite Hy, Hx. cbn [default from_option]. unfold id.
  destruct (is_flag y) eqn:Hflag; cbv beta iota zeta.
  - rewrite (is_flag_nonempty y Hflag). cbn [col_unique_name col_version col_managed
      col_friendly_name]. rewrite Hflag.
    exists (take (length rest - 2) rest). split; [|reflexivity].
    f_equal. apply split_last_two; [assumption|assumption|lia].
  - change (nonempty "") with false.
    cbn [col_unique_name col_version col_managed col_friendly_name].
    change (is_flag "") with false. cbv beta iota.
    exists (take (length rest - 1) rest). split; [|reflexivity].
    f_equal. now apply split_last_one.
Qed.

Lemma columns_partition_tokens_witness :
  exists friendly_parts,
    ["A"; "First"; "Solution"; "1.0.0.1"; "False"]
    = "A" :: (friendly_parts ++ ["1.0.0.1"; "False"])%list
    /\ "First Solution" = truncate_friendly (Py.join " " friendly_parts).
Proof.
  exact (columns_partition_tokens "A  First Solution  1.0.0.1  False"
           ltac:(vm_compute; lia)).
Defined.

Lemma length_ljust (width : nat) (s : string) :
  String.length (Py.ljust width s) = Nat.max width (String.length s).
Proof.
  unfold Py.ljust. rewrite length_app_str, length_repeat_char. lia.
Qed.

(** X6.  A table row is its fixed-width fields followed by the version: the
    number takes 4 columns and the unique name 30, or their own length when
    they are longer, and the friendly name always takes exactly 25, so the
    version starts 62 columns in whenever the number has at most 4 digits
    and the unique name at most 30 characters. *)
Theorem render_row_alignment (idx : nat) (sol : Solution) :
  exists fields,
    render_row idx sol = fields ++ col_version (columns (raw_line sol))
    /\ String.length fields
       = Nat.max 4 (String.length (Py.str_of_nat idx))
         + Nat.max 30 (String.length (col_unique_name (columns (raw_line sol)))) + 28.
Proof.
  unfold render_row.
  set (c := columns (raw_line sol)).
  exists (Py.ljust 4 (Py.str_of_nat idx) ++ " " ++ Py.ljust 30 (col_unique_name c) ++ " "
          ++ Py.ljust 25 (col_friendly_name c) ++ " ").
  split.
  - rewrite !app_assoc_str. reflexivity.
  - rewrite !length_app_str, !length_ljust.
    pose proof (col_friendly_name_short (raw_line sol)) as Hshort. fold c in Hshort.
    change (String.length " ") with 1. lia.
Qed.

(** ** What an export does *)

(** X7.  Once the output directory is in place, an export starts the
    spinner and calls [subprocess.run] once, with the export arguments and
    captured output; standard input is not read.  However that call ends
    (completed, missing executable, interrupt, another error), the spinner
    is then stopped, as successful exactly when [export_solution] returns
    [True]; with one exception: when the tool exits with status 0 and the
    lookup of the target path fails, [export_solution] raises [OSError]
    out of the [finally] block and the spinner is never stopped. *)
Theorem export_actions (name dir : string) (w : World) (files files' : FS)
  (r : ProcOutcome) :
  let output_path := PathLib.parse dir in
  let full_path := PathLib.joinpath output_path (export_filename name (clock w (ncalls w))) in
  let stuck :=
    match r with
    | Completed cp => (returncode cp =? 0)%Z && lookup_fails w (PathLib.str full_path)
    | _ => false
    end in
  mkdir w output_path = inr files ->
  run_outcome w (export_args name full_path) true files = (r, files') ->
  exists res w' events,
    export_solution name dir w = (res, w')
    /\ out w' = (out w ++ events)%list
    /\ stdin w' = stdin w
    /\ ncalls w' = S (ncalls w)
    /\ if stuck
       then actions events = [SpinnerStart (spinner_message name);
                              Spawn (export_args name full_path) true]
            /\ res = Raise OSError
       else exists success,
              actions events = [SpinnerStart (spinner_message name);
                                Spawn (export_args name full_path) true;
                                SpinnerStop (spinner_message name) success]
              /\ (success = true <-> res = Return true).
Proof.
  intros output_path full_path stuck Hmk Hrun.
  destruct (export_solution_run name dir w files r files' Hmk Hrun)
    as (events & Heq & Hactions & _).
  fold output_path full_path in Heq, Hactions.
  change (export_stuck w full_path r) with stuck in Hactions.
  eexists _, _, events. split; [exact Heq|].
  split; [reflexivity|]. split; [reflexivity|]. split; [reflexivity|].
  destruct stuck eqn:Hstuck.
  - split; [exact Hactions|].
    destruct r as [cp| | | |]; try discriminate Hstuck.
    apply andb_true_iff in Hstuck as [Hrc Hfail].
    cbn [export_result]. now rewrite Hrc, Hfail.
  - eexists. split; [exact Hactions|].
    unfold is_true. destruct (export_result w full_path r files') as [[|]|c|e];
      split; congruence.
Qed.

Lemma export_actions_witness :
  exists res w' events,
    export_solution "B" "./exports" (world_of lazy_pac []) = (res, w')
    /\ out w' = (out (world_of lazy_pac []) ++ events)%list
    /\ stdin w' = stdin (world_of lazy_pac [])
    /\ ncalls w' = S (ncalls (world_of lazy_pac []))
    /\ exists success,
         actions events
         = [SpinnerStart "Exporting B";
            Spawn ["solution"; "export"; "--name"; "B"; "--path";
                   "exports/B_20240309_140500.zip"; "--managed"; "false"; "--overwrite"] true;
            SpinnerStop "Exporting B" success]
         /\ (success = true <-> res = Return true).
Proof.
  exact (export_actions "B" "./exports" (world_of lazy_pac [])
           (<["exports" := Dir]> ∅) (<["exports" := Dir]> ∅) (Completed succeeded)
           eq_refl eq_refl).
Defined.

(** The spinner is stopped for a short name and left running for a name of
    300 characters. *)
Example export_leaves_spinner :
  actions (out (snd (export_solution "B" "./exports" (world_of lazy_pac []))))
  = [SpinnerStart "Exporting B";
     Spawn ["solution"; "export"; "--name"; "B"; "--path";
            "exports/B_20240309_140500.zip"; "--managed"; "false"; "--overwrite"] true;
     SpinnerStop "Exporting B" false]
  /\ length (actions (out (snd (export_solution (Py.repeat_char "x" 300) "./exports"
                                  (world_of lazy_pac []))))) = 2.
Proof. split; vm_compute; reflexivity. Qed.

(** ** How [main] ends before any export *)

Lemma main_select_banner (w : World) :
  main_select w
  = (installed <- check_pac_installed;;
     if negb installed then sys_exit 1
     else
       authenticated <- ensure_authenticated;;
       if negb authenticated then
         print (nl ++ "❌ Authentication required to continue.");; sys_exit 1
       else
         solutions <- list_solutions;;
         match solutions with
         | [] => print "❌ No solutions available to export.";; sys_exit 1
         | _ :: _ =>
             print (nl ++ Py.repeat_char "-" 70);;
             typed <- input "Enter the number of the solution to export (or 'q' to quit): ";;
             let selection := Py.strip typed in
             if String.eqb (Py.lower selection) "q" then print "👋 Goodbye!";; sys_exit 0
             else
               resolved <- resolve_selection selection solutions;;
               match resolved with
               | None => sys_exit 1
               | Some solution_name => ret solution_name
               end
         end)%io (add_out banner w).
Proof.
  unfold main_select. rewrite !bind_print, !add_out_add_out. reflexivity.
Qed.

Lemma exit_code_of_exit (w w' : World) (code : Z) :
  main_select w = (SysExit code, w') -> program w = (code, w').
Proof.
  intros H. unfold program, main. now rewrite (bind_exit _ _ w w' code H).
Qed.

Lemma input_eof (prompt : string) (w : World) :
  stdin w = [] -> input prompt w = (Raise EOFError, add_out [Prompt prompt] w).
Proof.
  intros H. unfold input, bind, emit. cbn [add_out stdin]. now rewrite H.
Qed.

Lemma input_interrupt (prompt : string) (rest : list Typed) (w : World) :
  stdin w = CtrlC :: rest ->
  input prompt w = (Raise KeyboardInterrupt, set_stdin rest (add_out [Prompt prompt] w)).
Proof.
  intros H. unfold input, bind, emit. cbn [add_out stdin]. now rewrite H.
Qed.

Lemma resolve_selection_no_call (selection : string) (solutions : list Solution)
  (w w' : World) (res : Outcome (option string)) :
  resolve_selection selection solutions w = (res, w') ->
  ncalls w' = ncalls w.
Proof.
  unfold resolve_selection.
  destruct (Py.int _); [destruct (_ || _)%Z; [|destruct (_ !! _)]|destruct (negb _)];
    rewrite ?bind_print; unfold ret, raise; intros [= <- <-]; reflexivity.
Qed.

(** X8.  The fatal conditions of [main]: when the tool check fails, when
    authentication fails, when the catalog is empty and when the selection
    fails, the program ends with exit status 1, and in none of these cases
    is an export invoked: the tool is not run again after the step that
    failed. *)
Theorem main_fatal_conditions (w w1 : World) :
  (check_pac_installed (add_out banner w) = (Return false, w1) ->
     program w = (1%Z, w1))
  /\ (forall w2,
        check_pac_installed (add_out banner w) = (Return true, w1) ->
        ensure_authenticated w1 = (Return false, w2) ->
        exit_code w = 1%Z /\ ncalls (snd (program w)) = ncalls w2)
  /\ (forall w2 w3,
        check_pac_installed (add_out banner w) = (Return true, w1) ->
        ensure_authenticated w1 = (Return true, w2) ->
        list_solutions w2 = (Return [], w3) ->
        exit_code w = 1%Z /\ ncalls (snd (program w)) = ncalls w3)
  /\ (forall w2 w3 w4 solutions typed rest,
        check_pac_installed (add_out banner w) = (Return true, w1) ->
        ensure_authenticated w1 = (Return true, w2) ->
        list_solutions w2 = (Return solutions, w3) ->
        solutions <> [] ->
        stdin w3 = Line typed :: rest ->
        String.eqb (Py.lower (Py.strip typed)) "q" = false ->
        resolve_selection (Py.strip typed) solutions
          (set_stdin rest (add_out selection_prompt w3)) = (Return None, w4) ->
        program w = (1%Z, w4) /\ ncalls w4 = ncalls w3).
Proof.
  split; [|split; [|split]].
  - intros Hcheck. apply exit_code_of_exit. rewrite main_select_banner.
    now rewrite (bind_run _ _ _ _ _ Hcheck).
  - intros w2 Hcheck Hauth. unfold exit_code.
    rewrite (exit_code_of_exit w
               (add_out [Print (nl ++ "❌ Authentication required to continue.")] w2) 1);
      [split; reflexivity|].
    rewrite main_select_banner, (bind_run _ _ _ _ _ Hcheck). cbn [negb].
    rewrite (bind_run _ _ _ _ _ Hauth). cbn [negb]. rewrite bind_print. reflexivity.
  - intros w2 w3 Hcheck Hauth Hlist. unfold exit_code.
    rewrite (exit_code_of_exit w
               (add_out [Print "❌ No solutions available to export."] w3) 1);
      [split; reflexivity|].
    rewrite main_select_banner, (bind_run _ _ _ _ _ Hcheck). cbn [negb].
    rewrite (bind_run _ _ _ _ _ Hauth). cbn [negb].
    rewrite (bind_run _ _ _ _ _ Hlist), bind_print. reflexivity.
  - intros w2 w3 w4 solutions typed rest Hcheck Hauth Hlist Hne Hin Hq Hres.
    assert (Hn : ncalls w4 = ncalls w3) by exact (resolve_selection_no_call _ _ _ _ _ Hres).
    split; [|exact Hn]. apply exit_code_of_exit.
    rewrite main_select_banner, (bind_run _ _ _ _ _ Hcheck). cbn [negb].
    rewrite (bind_run _ _ _ _ _ Hauth). cbn [negb].
    rewrite (bind_run _ _ _ _ _ Hlist).
    destruct solutions as [|sol sols]; [contradiction|].
    rewrite bind_print, (bind_input _ typed rest) by exact Hin.
    cbv zeta. rewrite Hq. rewrite add_out_add_out.
    change ([Print (nl ++ Py.repeat_char "-" 70)] ++ [Prompt _])%list with selection_prompt.
    now rewrite (bind_run _ _ _ _ _ Hres).
Qed.

Ltac stages w :=
  assert (Hcheck : check_pac_installed (add_out banner w) = (Return true, checked w))
    by (refine (run_eq check_pac_installed _ (Return true) _); vm_compute; reflexivity);
  assert (Hauth : ensure_authenticated (checked w) = (Return true, authenticated w))
    by (refine (run_eq ensure_authenticated _ (Return true) _); vm_compute; reflexivity);
  assert (Hlist : list_solutions (authenticated w) = (Return abc, catalogued w))
    by (refine (run_eq list_solutions _ (Return abc) _); vm_compute; reflexivity);
  assert (Hne : abc <> []) by discriminate.

Lemma main_fatal_conditions_witness :
  exit_code (world_of (constant_pac (failed "boom")) []) = 1%Z
  /\ exit_code (sample_world [Line "y"; Line "5"]) = 1%Z.
Proof.
  split.
  - pose proof (main_fatal_conditions (world_of (constant_pac (failed "boom")) [])
                  (checked (world_of (constant_pac (failed "boom")) [])))
      as [H _].
    refine (f_equal fst (H _)).
    refine (run_eq check_pac_installed _ (Return false) _). vm_compute; reflexivity.
  - stages (sample_world [Line "y"; Line "5"]).
    assert (Hin : stdin (catalogued (sample_world [Line "y"; Line "5"])) = Line "5" :: [])
      by (vm_compute; reflexivity).
    assert (Hq : String.eqb (Py.lower (Py.strip "5")) "q" = false) by reflexivity.
    pose proof (main_fatal_conditions (sample_world [Line "y"; Line "5"])
                  (checked (sample_world [Line "y"; Line "5"])))
      as (_ & _ & _ & H).
    refine (f_equal fst (proj1 (H _ _ _ abc "5" [] Hcheck Hauth Hlist Hne Hin Hq _))).
    refine (run_eq (resolve_selection (Py.strip "5") abc) _ (Return None) _).
    vm_compute; reflexivity.
Defined.

(** X9.  Leaving at the selection prompt of [main]: the answer [q], in
    either case and with spaces around it, ends the program with exit
    status 0 and nothing is exported; Ctrl-C there ends it with exit
    status 0 after the cancellation message; the end of standard input
    there ends it with exit status 1. *)
Theorem leaving_at_the_prompt (w w1 w2 w3 : World) (solutions : list Solution) :
  check_pac_installed (add_out banner w) = (Return true, w1) ->
  ensure_authenticated w1 = (Return true, w2) ->
  list_solutions w2 = (Return solutions, w3) ->
  solutions <> [] ->
  (forall typed rest,
     stdin w3 = Line typed :: rest ->
     Py.lower (Py.strip typed) = "q" ->
     exit_code w = 0%Z
     /\ ncalls (snd (program w)) = ncalls w3
     /\ stdin (snd (program w)) = rest)
  /\ (forall rest,
        stdin w3 = CtrlC :: rest ->
        exit_code w = 0%Z
        /\ last (out (snd (program w)))
           = Some (Print (nl ++ nl ++ "⚠️  Export cancelled by user.")))
  /\ (stdin w3 = [] -> exit_code w = 1%Z).
Proof.
  intros Hcheck Hauth Hlist Hne.
  assert (Hstart : main_select w
            = (print (nl ++ Py.repeat_char "-" 70);;
               typed <- input "Enter the number of the solution to export (or 'q' to quit): ";;
               let selection := Py.strip typed in
               if String.eqb (Py.lower selection) "q" then print "👋 Goodbye!";; sys_exit 0
               else
                 resolved <- resolve_selection selection solutions;;
                 match resolved with
                 | None => sys_exit 1
                 | Some solution_name => ret solution_name
                 end)%io w3).
  { rewrite main_select_banner, (bind_run _ _ _ _ _ Hcheck). cbn [negb].
    rewrite (bind_run _ _ _ _ _ Hauth). cbn [negb].
    rewrite (bind_run _ _ _ _ _ Hlist).
    destruct solutions; [contradiction|reflexivity]. }
  split; [|split].
  - intros typed rest Hin Hq. unfold exit_code.
    rewrite (exit_code_of_exit w
               (add_out [Print "👋 Goodbye!"]
                  (set_stdin rest (add_out selection_prompt w3))) 0);
      [repeat split|].
    rewrite Hstart, bind_print, (bind_input _ typed rest) by exact Hin.
    cbv zeta. rewrite Hq. cbn [String.eqb Ascii.eqb Bool.eqb]. rewrite bind_print.
    rewrite add_out_add_out. reflexivity.
  - intros rest Hin. unfold exit_code, program, main.
    rewrite (bind_raise _ _ w (set_stdin rest (add_out selection_prompt w3))
               KeyboardInterrupt).
    + cbn [fst snd]. split; [reflexivity|].
      unfold print, emit, add_out. cbn [snd out]. apply last_snoc.
    + rewrite Hstart, bind_print.
      erewrite bind_raise; [|apply input_interrupt; exact Hin].
      rewrite add_out_add_out. reflexivity.
  - intros Hin. unfold exit_code, program, main.
    rewrite (bind_raise _ _ w (add_out selection_prompt w3) EOFError); [reflexivity|].
    rewrite Hstart, bind_print.
    erewrite bind_raise; [|apply input_eof; exact Hin].
    rewrite add_out_add_out. reflexivity.
Qed.

Lemma leaving_at_the_prompt_witness :
  exit_code (sample_world [Line "y"; Line " Q "]) = 0%Z
  /\ exit_code (sample_world [Line "y"; CtrlC]) = 0%Z
  /\ exit_code (sample_world [Line "y"]) = 1%Z.
Proof.
  split; [|split].
  - stages (sample_world [Line "y"; Line " Q "]).
    assert (Hin : stdin (catalogued (sample_world [Line "y"; Line " Q "])) = Line " Q " :: [])
      by (vm_compute; reflexivity).
    exact (proj1 (proj1 (leaving_at_the_prompt _ _ _ _ abc Hcheck Hauth Hlist Hne)
                    " Q " [] Hin eq_refl)).
  - stages (sample_world [Line "y"; CtrlC]).
    assert (Hin : stdin (catalogued (sample_world [Line "y"; CtrlC])) = CtrlC :: [])
      by (vm_compute; reflexivity).
    exact (proj1 (proj1 (proj2 (leaving_at_the_prompt _ _ _ _ abc Hcheck Hauth Hlist Hne))
                    [] Hin)).
  - stages (sample_world [Line "y"]).
    assert (Hin : stdin (catalogued (sample_world [Line "y"])) = [])
      by (vm_compute; reflexivity).
    exact (proj2 (proj2 (leaving_at_the_prompt _ _ _ _ abc Hcheck Hauth Hlist Hne)) Hin).
Defined.

(** ** The tool check *)

Lemma check_pac_installed_run (w : World) (cp : CompletedProcess) (files : FS) :
  pac w (ncalls w) ["help"] true (fs w) = (Completed cp, files) ->
  exists events,
    check_pac_installed w
    = (Return (Py.contains "Microsoft PowerPlatform CLI" (stdout cp ++ stderr cp)
               || Py.contains "Version:" (stdout cp ++ stderr cp)),
       called files events w).
Proof.
  intros Hpac. unfold check_pac_installed. rewrite bind_print.
  unfold bind at 1. unfold run_pac_command, subprocess_run.
  rewrite run_outcome_pac by reflexivity.
  cbn [add_out fs pac ncalls]. rewrite Hpac.
  assert (Hout : (if nonempty (stderr cp) then stdout cp ++ stderr cp else stdout cp)
                 = stdout cp ++ stderr cp).
  { destruct (stderr cp); [now rewrite app_empty_r|reflexivity]. }
  rewrite Hout.
  destruct (Py.contains "Microsoft PowerPlatform CLI" _ || Py.contains "Version:" _).
  - destruct (List.find _ _); rewrite bind_print; eexists; reflexivity.
  - rewrite bind_print. eexists; reflexivity.
Qed.

(** X10.  The tool check looks at the text only: whatever the exit status
    of [pac help], the check succeeds exactly when the captured output
    followed by the captured error text contains
    [Microsoft PowerPlatform CLI] or [Version:]; the tool is invoked once. *)
Theorem check_pac_installed_text_only (w : World) (cp : CompletedProcess) (files : FS) :
  pac w (ncalls w) ["help"] true (fs w) = (Completed cp, files) ->
  let output := stdout cp ++ stderr cp in
  fst (check_pac_installed w)
  = Return (Py.contains "Microsoft PowerPlatform CLI" output
            || Py.contains "Version:" output)
  /\ ncalls (snd (check_pac_installed w)) = S (ncalls w)
  /\ fs (snd (check_pac_installed w)) = files.
Proof.
  intros Hpac output. destruct (check_pac_installed_run w cp files Hpac) as [events ->].
  split; [reflexivity|split; reflexivity].
Qed.

Lemma check_pac_installed_text_only_witness :
  fst (check_pac_installed
         (world_of (constant_pac (mkCompleted 1 "" "Version: 1.2 (error: no command)")) []))
  = Return true.
Proof.
  exact (proj1 (check_pac_installed_text_only
                  (world_of (constant_pac (mkCompleted 1 "" "Version: 1.2 (error: no command)")) [])
                  (mkCompleted 1 "" "Version: 1.2 (error: no command)") ∅ eq_refl)).
Defined.

(** ** Signing in *)

Ltac sign_in_frame :=
  unfold add_out, spawned, set_stdin; cbn [out ncalls];
  rewrite <- ?app_assoc; (split; [reflexivity|]).

(** X11.  What is typed at the URL prompt decides what the sign-in flow
    does.  For a line that is not blank, [subprocess.run] is called once,
    as [auth create --url <url>] without capture, where the URL is the
    stripped line when that starts with [http] and the stripped line with
    [https://] in front otherwise, so that it is never empty and always
    starts with [http]; the flow succeeds exactly when that call returns
    with exit status 0.  For a blank line, at the end of input and on
    Ctrl-C nothing is called and the flow does not succeed. *)
Theorem sign_in_actions (w : World) :
  exists res w' events,
    sign_in w = (res, w')
    /\ out w' = (out w ++ events)%list
    /\ match stdin w with
       | Line typed :: rest =>
           let env_url := Py.strip typed in
           if nonempty env_url then
             let url := if Py.startswith "http" env_url
                        then env_url else "https://" ++ env_url in
             actions events = [Spawn ["auth"; "create"; "--url"; url] false]
             /\ url <> "" /\ Py.startswith "http" url = true
             /\ ncalls w' = S (ncalls w)
             /\ (res = Return true <->
                 exists cp files,
                   run_outcome w ["auth"; "create"; "--url"; url] false (fs w)
                   = (Completed cp, files)
                   /\ returncode cp = 0%Z)
           else actions events = [] /\ res = Return false /\ ncalls w' = ncalls w
       | CtrlC :: rest =>
           actions events = [] /\ res = Raise KeyboardInterrupt /\ ncalls w' = ncalls w
       | [] => actions events = [] /\ res = Raise EOFError /\ ncalls w' = ncalls w
       end.
Proof.
  unfold sign_in. io_steps.
  destruct (stdin w) as [|[typed|] rest] eqn:Hin.
  - erewrite bind_raise; [|apply input_eof; exact Hin].
    eexists _, _, _. split; [reflexivity|]. sign_in_frame. repeat split.
  - rewrite (bind_input _ typed rest) by exact Hin. cbv zeta.
    destruct (nonempty (Py.strip typed)) eqn:Hne; cbn [negb].
    + assert (Hurl : (if negb (Py.startswith "http" (Py.strip typed))
                      then "https://" ++ Py.strip typed else Py.strip typed)
                     = (if Py.startswith "http" (Py.strip typed)
                        then Py.strip typed else "https://" ++ Py.strip typed))
        by now destruct (Py.startswith "http" (Py.strip typed)).
      rewrite Hurl. clear Hurl.
      set (url := if Py.startswith "http" (Py.strip typed)
                  then Py.strip typed else "https://" ++ Py.strip typed).
      assert (Hu : url <> "" /\ Py.startswith "http" url = true).
      { subst url. destruct (Py.startswith "http" (Py.strip typed)) eqn:Hs.
        - split; [|exact Hs]. now apply negb_true_iff, String.eqb_neq in Hne.
        - split; [discriminate|reflexivity]. }
      io_steps.
      match goal with |- context [bind (run_pac_command _ _) _ ?W] => set (w1 := W) end.
      destruct (run_outcome w ["auth"; "create"; "--url"; url] false (fs w))
        as [r files] eqn:Hrun.
      rewrite (bind_run_pac_command _ _ _ w1 r files Hrun).
      destruct r as [cp| | | |].
      * destruct (returncode cp =? 0)%Z eqn:Hrc; io_steps; unfold ret;
          eexists _, _, _; (split; [reflexivity|]); subst w1; sign_in_frame;
          (split; [reflexivity|]); (split; [apply Hu|]); (split; [apply Hu|]);
          (split; [reflexivity|]).
        -- split; [|reflexivity]. intros _. exists cp, files. split; [reflexivity|].
           now apply Z.eqb_eq.
        -- split; [discriminate|]. intros (cp' & files' & [= <- _] & Hz).
           rewrite Hz in Hrc. discriminate.
      * eexists _, _, _. split; [reflexivity|]. subst w1. sign_in_frame.
        split; [reflexivity|]. split; [apply Hu|]. split; [apply Hu|].
        split; [reflexivity|]. split; [discriminate|]. now intros (? & ? & [=] & _).
      * eexists _, _, _. split; [reflexivity|]. subst w1. sign_in_frame.
        split; [reflexivity|]. split; [apply Hu|]. split; [apply Hu|].
        split; [reflexivity|]. split; [discriminate|]. now intros (? & ? & [=] & _).
      * eexists _, _, _. split; [reflexivity|]. subst w1. sign_in_frame.
        split; [reflexivity|]. split; [apply Hu|]. split; [apply Hu|].
        split; [reflexivity|]. split; [discriminate|]. now intros (? & ? & [=] & _).
      * eexists _, _, _. split; [reflexivity|]. subst w1. sign_in_frame.
        split; [reflexivity|]. split; [apply Hu|]. split; [apply Hu|].
        split; [reflexivity|]. split; [discriminate|]. now intros (? & ? & [=] & _).
    + io_steps. unfold ret.
      eexists _, _, _. split; [reflexivity|]. sign_in_frame. repeat split.
  - erewrite bind_raise; [|apply input_interrupt; exact Hin].
    eexists _, _, _. split; [reflexivity|]. sign_in_frame. repeat split.
Qed.

(** The flow on a line with spaces around a host name, on a blank line and
    at the end of input. *)
Example sign_in_examples :
  map (fun typed => (fst (sign_in (sample_world typed)),
                     actions (out (snd (sign_in (sample_world typed))))))
      [[Line " org.crm.dynamics.com "]; [Line "   "]; []]
  = [(Return true, [Spawn ["auth"; "create"; "--url"; "https://org.crm.dynamics.com"] false]);
     (Return false, []);
     (Raise EOFError, [])].
Proof. reflexivity. Qed.

(** ** Reusing a profile *)

(** X12.  After the profile listing: when an active profile is detected the
    listing is shown and the user is asked; the answers [y], [yes] and the
    empty line (in any case, with spaces around) reuse the profile, with no
    further invocation of the tool; any other answer leads to the sign-in
    flow, as does a listing without an active profile, in which case the
    user is not asked. *)
Theorem ensure_authenticated_flow (w : World) (cp : CompletedProcess) (files : FS) :
  pac w (ncalls w) ["auth"; "list"] true (fs w) = (Completed cp, files) ->
  (has_active_profile cp = false ->
     exists events,
       ensure_authenticated w = sign_in (called files (out w ++ events) w)
       /\ Forall (fun e => forall s, e <> Prompt s) events)
  /\ (forall typed rest,
        has_active_profile cp = true ->
        stdin w = Line typed :: rest ->
        exists events,
          In (Print (stdout cp)) events
          /\ if eq_any (Py.lower (Py.strip typed)) [""; "y"; "yes"]
             then ensure_authenticated w
                  = (Return true, set_stdin rest (called files (out w ++ events) w))
             else ensure_authenticated w
                  = sign_in (set_stdin rest (called files (out w ++ events) w))).
Proof.
  intros Hpac. split.
  - intros Hactive. unfold ensure_authenticated. rewrite bind_print.
    unfold bind at 1. unfold run_pac_command, subprocess_run.
    rewrite run_outcome_pac by reflexivity.
    cbn [add_out fs pac ncalls]. rewrite Hpac, Hactive.
    eexists. split.
    + apply (f_equal sign_in). unfold spawned, called, add_out.
      cbn [fs pac ncalls clock stdin out recursion_limit].
      rewrite <- ?app_assoc. reflexivity.
    + repeat constructor; discriminate.
  - intros typed rest Hactive Hin.
    assert (Hrun : exists events,
              In (Print (stdout cp)) events
              /\ ensure_authenticated w
                 = (if eq_any (Py.lower (Py.strip typed)) [""; "y"; "yes"]
                    then ret true else sign_in)
                     (set_stdin rest (called files (out w ++ events) w))).
    { unfold ensure_authenticated. rewrite bind_print.
      unfold bind at 1. unfold run_pac_command, subprocess_run.
    rewrite run_outcome_pac by reflexivity.
      cbn [add_out fs pac ncalls]. rewrite Hpac, Hactive.
      io_steps. rewrite (bind_input _ typed rest) by exact Hin. cbv zeta.
      eexists. split; cycle 1.
      - match goal with |- ?f ?a = ?f ?b => apply (f_equal f) end.
        unfold add_out, spawned, set_stdin, called.
        cbn [fs pac ncalls clock stdin out recursion_limit].
        rewrite <- ?app_assoc. reflexivity.
      - simpl. tauto. }
    destruct Hrun as (events & Hprinted & Hrun). exists events.
    split; [exact Hprinted|]. rewrite Hrun.
    destruct (eq_any (Py.lower (Py.strip typed)) [""; "y"; "yes"]); reflexivity.
Qed.

Lemma ensure_authenticated_flow_witness :
  exists events,
    In (Print (stdout sample_auth_list)) events
    /\ ensure_authenticated (sample_world [Line " YES "; Line "2"])
       = (Return true,
          set_stdin [Line "2"]
            (called ∅ (out (sample_world [Line " YES "; Line "2"]) ++ events)
               (sample_world [Line " YES "; Line "2"]))).
Proof.
  exact (proj2 (ensure_authenticated_flow (sample_world [Line " YES "; Line "2"])
                  sample_auth_list ∅ eq_refl)
           " YES " [Line "2"] eq_refl eq_refl).
Defined.

(** ** The profile list *)

Lemma filter_In_nonempty {A} (f : A -> bool) (l : list A) (x : A) :
  In x l -> f x = true -> List.filter f l <> [].
Proof.
  intros Hin Hf Hnil.
  assert (Hx : In x (List.filter f l)) by (apply List.filter_In; auto).
  rewrite Hnil in Hx. exact Hx.
Qed.

(** X13.  [get_auth_profiles] and [ensure_authenticated] agree: whenever
    the listing makes [ensure_authenticated] detect an active profile,
    [get_auth_profiles] returns at least one profile; and every profile it
    returns is a line of the stripped listing that contains [Active] or,
    in any case, [http]. *)
Theorem profiles_cover_active (cp : CompletedProcess) :
  (has_active_profile cp = true -> profiles_of cp <> [])
  /\ (forall profile, In profile (profiles_of cp) ->
        In (raw profile) (Py.split_nl (Py.strip (stdout cp)))
        /\ (Py.contains "Active" (raw profile) = true
            \/ Py.contains "http" (Py.lower (raw profile)) = true)).
Proof.
  unfold has_active_profile, profiles_of. split.
  - destruct ((returncode cp =? 0)%Z && nonempty (stdout cp)); [|discriminate].
    destruct (auth_gate (stdout cp)); [|discriminate].
    intros Hex. apply existsb_exists in Hex as (line & Hin & Hline).
    apply andb_true_iff in Hline as [_ Hact].
    apply andb_true_iff in Hact as [Hhttp _].
    intros Hnil. apply map_eq_nil in Hnil. revert Hnil.
    apply (filter_In_nonempty profile_line _ line Hin).
    unfold profile_line. rewrite Hhttp. apply orb_true_r.
  - intros profile. destruct ((returncode cp =? 0)%Z && nonempty (stdout cp)); [|intros []].
    intros Hin. apply in_map_iff in Hin as (line & <- & Hin).
    apply List.filter_In in Hin as [Hin Hline]. split; [exact Hin|].
    now apply orb_true_iff in Hline.
Qed.

Lemma profiles_cover_active_witness : profiles_of sample_auth_list <> [].
Proof. exact (proj1 (profiles_cover_active sample_auth_list) eq_refl). Defined.

(** ** The elapsed time of the spinner *)

Lemma length_zfill (w : nat) (s : string) :
  String.length (Py.zfill w s) = Nat.max w (String.length s).
Proof. unfold Py.zfill. rewrite length_app_str, length_repeat_char. lia. Qed.

Lemma all_digits_zfill (w : nat) (s : string) :
  Py.all_digits s = true -> Py.all_digits (Py.zfill w s) = true.
Proof.
  intros H. unfold Py.zfill. rewrite all_digits_app, H.
  assert (Hz : forall k, Py.all_digits (Py.repeat_char "0" k) = true)
    by (induction k; [reflexivity|exact IHk]).
  now rewrite Hz.
Qed.

(** Leading zeros do not count. *)
Lemma int_digits_zeros (p : nat) (prev : bool) (d : string) :
  Py.int_digits prev 0 (Py.repeat_char "0" p ++ d)
  = Py.int_digits (match p with O => prev | S _ => true end) 0 d.
Proof.
  revert prev. induction p as [|p IH]; intros prev; [reflexivity|].
  cbn [Py.repeat_char]. rewrite app_cons.
  change "0"%char with (Py.digit_char 0).
  rewrite (int_digits_digit prev 0 0) by lia. rewrite IH. now destruct p.
Qed.

Lemma int_digits_zfill (w n : nat) :
  Py.int_digits false 0 (Py.zfill w (Py.str_of_nat n)) = Some (Z.of_nat n).
Proof.
  unfold Py.zfill. rewrite int_digits_zeros. unfold Py.str_of_nat.
  now rewrite int_digits_str_of_nat_fuel by lia.
Qed.

Lemma zfill_cons (w n : nat) : exists c s, Py.zfill w (Py.str_of_nat n) = String c s.
Proof.
  destruct (Py.zfill w (Py.str_of_nat n)) as [|c s] eqn:Hz; [|eauto].
  apply (f_equal String.length) in Hz. rewrite length_zfill in Hz.
  destruct (str_of_nat_cons n) as (c & s & Hcs). rewrite Hcs in Hz. simpl in Hz. lia.
Qed.

(** [int] reads a zero-padded number that is not too long. *)
Lemma int_zfill (w n : nat) :
  String.length (Py.zfill w (Py.str_of_nat n)) <= Py.int_max_str_digits ->
  Py.int (Py.zfill w (Py.str_of_nat n)) = Some (Z.of_nat n).
Proof.
  intros Hlen.
  assert (Hdig : Py.all_digits (Py.zfill w (Py.str_of_nat n)) = true)
    by (apply all_digits_zfill, str_of_nat_fuel_digits; reflexivity).
  destruct (zfill_cons w n) as (c & s & Hcs).
  rewrite Hcs in Hdig, Hlen |- *. rewrite (int_digits_only c s Hdig Hlen), <- Hcs.
  apply int_digits_zfill.
Qed.

(** [int] reads a minus sign in front of digits. *)
Lemma int_minus (d : string) (v : Z) :
  Py.all_digits d = true -> d <> "" ->
  String.length d <= Py.int_max_str_digits ->
  Py.int_digits false 0 d = Some v ->
  Py.int ("-" ++ d) = Some (- v)%Z.
Proof.
  intros Hdig Hne Hlen Hread. rewrite app_cons, app_empty_l. unfold Py.int.
  assert (Hstrip : Py.int_rstrip (Py.int_lstrip (String "-" d)) = String "-" d).
  { cbn [Py.int_lstrip]. change (Py.int_space "-") with false. cbv iota.
    cbn [Py.int_rstrip]. rewrite (int_rstrip_digits d Hdig).
    destruct d; [contradiction|reflexivity]. }
  rewrite Hstrip. cbv beta iota zeta. rewrite Hread.
  assert (Hcount : (Py.count_digits d <=? Py.int_max_str_digits) = true)
    by (apply Nat.leb_le; now rewrite (count_digits_all _ Hdig)).
  now rewrite Hcount.
Qed.

Lemma int_format_02d (n : Z) :
  String.length (format_02d n) <= Py.int_max_str_digits ->
  Py.int (format_02d n) = Some n.
Proof.
  unfold format_02d. destruct (n <? 0)%Z eqn:Hneg.
  - apply Z.ltb_lt in Hneg. rewrite length_app_str. intros Hlen.
    rewrite (int_minus _ (Z.of_nat (Z.abs_nat n))).
    + f_equal. lia.
    + apply all_digits_zfill, str_of_nat_fuel_digits. reflexivity.
    + destruct (zfill_cons 1 (Z.abs_nat n)) as (c & s & ->). discriminate.
    + simpl in Hlen. lia.
    + apply int_digits_zfill.
  - apply Z.ltb_ge in Hneg. intros Hlen. rewrite (int_zfill _ _ Hlen). f_equal. lia.
Qed.

Lemma length_format_02d (n : Z) : 2 <= String.length (format_02d n).
Proof.
  unfold format_02d. destruct (n <? 0)%Z.
  - rewrite length_app_str, length_zfill. simpl. lia.
  - rewrite length_zfill. lia.
Qed.

(** X14.  The elapsed time of the spinner reads [minutes:seconds] without
    loss, also when the clock was set back and the elapsed time is
    negative: the part after the colon is exactly two digits, the part
    before it has at least two characters, and read back by [int] they are
    the seconds, from 0 to 59, and the minutes of the elapsed time.  (The
    text has at most 4300 characters, the most [int] converts.) *)
Theorem time_str_round_trip (elapsed : Z) :
  String.length (time_str elapsed) <= Py.int_max_str_digits ->
  exists mins secs,
    time_str elapsed = mins ++ ":" ++ secs
    /\ 2 <= String.length mins
    /\ digits 2 secs
    /\ exists m s, Py.int mins = Some m /\ Py.int secs = Some s
                   /\ (0 <= s < 60)%Z /\ (60 * m + s = elapsed)%Z.
Proof.
  unfold time_str. cbv zeta. rewrite !length_app_str. intros Hlen.
  pose proof (Z.mod_pos_bound elapsed 60 ltac:(lia)) as Hs.
  assert (Hsecs : format_02d (elapsed mod 60) = two_digits (Z.abs_nat (elapsed mod 60))).
  { unfold format_02d.
    assert (Hpos : (elapsed mod 60 <? 0)%Z = false) by (apply Z.ltb_ge; lia).
    now rewrite Hpos. }
  assert (Hdigits : digits 2 (format_02d (elapsed mod 60)))
    by (rewrite Hsecs; apply two_digits_digits; lia).
  exists (format_02d (elapsed / 60)%Z), (format_02d (elapsed mod 60)%Z).
  split; [reflexivity|]. split; [apply length_format_02d|]. split; [exact Hdigits|].
  exists (elapsed / 60)%Z, (elapsed mod 60)%Z.
  split; [apply int_format_02d; lia|].
  split; [apply int_format_02d; destruct Hdigits as [-> _]; unfold Py.int_max_str_digits; lia|].
  split; [exact Hs|]. symmetry. apply Z.div_mod. lia.
Qed.

Lemma time_str_round_trip_witness :
  exists mins secs,
    time_str (-3) = mins ++ ":" ++ secs
    /\ 2 <= String.length mins
    /\ digits 2 secs
    /\ exists m s, Py.int mins = Some m /\ Py.int secs = Some s
                   /\ (0 <= s < 60)%Z /\ (60 * m + s = -3)%Z.
Proof.
  exact (time_str_round_trip (-3) (proj1 (Nat.leb_le 5 Py.int_max_str_digits) eq_refl)).
Defined.

Example time_str_examples :
  map time_str [0; 59; 60; 754; 6000; -1; -3; -60; -61]%Z
  = ["00:00"; "00:59"; "01:00"; "12:34"; "100:00"; "-1:59"; "-1:57"; "-1:00"; "-2:59"].
Proof. reflexivity. Qed.

(** ** A file in the way of the output directory *)

Lemma mkdir_blocked (w : World) (n : N) :
  fs w !! "exports" = Some (File n) ->
  mkdir w (PathLib.parse default_output_dir) = inl OSError.
Proof.
  intros Hfile. unfold mkdir.
  change (Py.has_nul (PathLib.str (PathLib.parse default_output_dir))) with false.
  cbv iota. unfold mkdir_parents.
  change (PathLib.ancestors_and_self (PathLib.parse default_output_dir))
    with [PathLib.mkPath "" ["exports"]].
  cbn [foldl]. unfold mkdir_step. cbn [mbind option_bind].
  unfold fs_lookup. cbn [PathLib.parts].
  change (PathLib.str (PathLib.mkPath "" ["exports"])) with "exports".
  rewrite Hfile. now destruct (lookup_fails w "exports").
Qed.

(** X15.  When a regular file named [exports] is in the way of the default
    output directory, the export driven by [main] raises before it prints
    anything or invokes the tool, and the program ends with exit status 1
    in the world the selection left. *)
Theorem export_blocked_by_file (w w1 : World) (solution_name : string) (n : N) :
  main_select w = (Return solution_name, w1) ->
  fs w1 !! "exports" = Some (File n) ->
  export_solution solution_name default_output_dir w1 = (Raise OSError, w1)
  /\ program w = (1%Z, w1).
Proof.
  intros Hsel Hfile.
  pose proof (export_solution_mkdir_fails solution_name default_output_dir w1 OSError
                (mkdir_blocked w1 n Hfile)) as Hraise.
  split; [exact Hraise|].
  unfold program, main. rewrite (bind_run _ _ _ _ _ Hsel). unfold main_export.
  now rewrite (bind_raise _ _ _ _ _ Hraise).
Qed.

Lemma export_blocked_by_file_witness : exit_code blocked_world = 1%Z.
Proof.
  assert (Hsel : main_select blocked_world = (Return "B", snd (main_select blocked_world)))
    by (refine (run_eq main_select blocked_world (Return "B") _); vm_compute; reflexivity).
  assert (Hfile : fs (snd (main_select blocked_world)) !! "exports" = Some (File 7))
    by (vm_compute; reflexivity).
  exact (f_equal fst (proj2 (export_blocked_by_file blocked_world _ "B" 7 Hsel Hfile))).
Defined.

(** ** How [export_another_solution] ends before any export *)

(** X16.  What is fatal in [main] is not in the export-another flow: with
    an empty catalog, with the answer [q] and with a failed selection,
    [export_another_solution] prints its message and returns normally,
    and the tool is not invoked after the listing. *)
Theorem another_flow_returns (depth : nat) (w w1 : World) (solutions : list Solution) :
  list_solutions w = (Return solutions, w1) ->
  (solutions = [] ->
     export_another_solution (S depth) w
     = (Return tt, add_out [Print "❌ No solutions available to export."] w1))
  /\ (forall typed rest,
        solutions <> [] ->
        stdin w1 = Line typed :: rest ->
        Py.lower (Py.strip typed) = "q" ->
        export_another_solution (S depth) w
        = (Return tt,
           add_out [Print "👋 Goodbye!"] (set_stdin rest (add_out selection_prompt w1))))
  /\ (forall typed rest w2,
        solutions <> [] ->
        stdin w1 = Line typed :: rest ->
        String.eqb (Py.lower (Py.strip typed)) "q" = false ->
        resolve_selection (Py.strip typed) solutions
          (set_stdin rest (add_out selection_prompt w1)) = (Return None, w2) ->
        export_another_solution (S depth) w = (Return tt, w2)
        /\ ncalls w2 = ncalls w1).
Proof.
  intros Hlist. cbn [export_another_solution]. unfold another_select.
  split; [|split].
  - intros ->. unfold bind at 1 2. rewrite Hlist. reflexivity.
  - intros typed rest Hne Hin Hq. unfold bind at 1 2. rewrite Hlist.
    destruct solutions as [|sol sols]; [contradiction|].
    rewrite bind_print, (bind_input _ typed rest) by exact Hin.
    cbv zeta. rewrite Hq. cbn [String.eqb Ascii.eqb Bool.eqb].
    rewrite bind_print, add_out_add_out. reflexivity.
  - intros typed rest w2 Hne Hin Hq Hres. unfold bind at 1 2. rewrite Hlist.
    destruct solutions as [|sol sols]; [contradiction|].
    rewrite bind_print, (bind_input _ typed rest) by exact Hin.
    cbv zeta. rewrite Hq, add_out_add_out.
    change ([Print (nl ++ Py.repeat_char "-" 70)] ++ [Prompt _])%list with selection_prompt.
    rewrite Hres. split; [reflexivity|].
    exact (resolve_selection_no_call _ _ _ _ _ Hres).
Qed.

Lemma another_flow_returns_witness :
  fst (export_another_solution 1 (world_of (constant_pac header_only_listing) [])) = Return tt
  /\ fst (export_another_solution 1 (sample_world [Line " Q "])) = Return tt
  /\ fst (export_another_solution 1 (sample_world [Line "9"])) = Return tt.
Proof.
  assert (Hne : abc <> []) by discriminate.
  split; [|split].
  - assert (Hlist : list_solutions (world_of (constant_pac header_only_listing) [])
                    = (Return [],
                       snd (list_solutions (world_of (constant_pac header_only_listing) []))))
      by (refine (run_eq list_solutions _ (Return []) _); vm_compute; reflexivity).
    exact (f_equal fst (proj1 (another_flow_returns 0 _ _ [] Hlist) eq_refl)).
  - assert (Hlist : list_solutions (sample_world [Line " Q "])
                    = (Return abc, snd (list_solutions (sample_world [Line " Q "]))))
      by (refine (run_eq list_solutions _ (Return abc) _); vm_compute; reflexivity).
    assert (Hin : stdin (snd (list_solutions (sample_world [Line " Q "]))) = Line " Q " :: [])
      by (vm_compute; reflexivity).
    exact (f_equal fst
             (proj1 (proj2 (another_flow_returns 0 _ _ abc Hlist)) " Q " [] Hne Hin eq_refl)).
  - assert (Hlist : list_solutions (sample_world [Line "9"])
                    = (Return abc, snd (list_solutions (sample_world [Line "9"]))))
      by (refine (run_eq list_solutions _ (Return abc) _); vm_compute; reflexivity).
    assert (Hin : stdin (snd (list_solutions (sample_world [Line "9"]))) = Line "9" :: [])
      by (vm_compute; reflexivity).
    assert (Hres : resolve_selection (Py.strip "9") abc
                     (set_stdin [] (add_out selection_prompt
                                      (snd (list_solutions (sample_world [Line "9"])))))
                   = (Return None,
                      snd (resolve_selection (Py.strip "9") abc
                             (set_stdin [] (add_out selection_prompt
                                (snd (list_solutions (sample_world [Line "9"])))))))).
    { refine (run_eq (resolve_selection (Py.strip "9") abc) _ (Return None) _).
      vm_compute; reflexivity. }
    exact (f_equal fst
             (proj1 (proj2 (proj2 (another_flow_returns 0 _ _ abc Hlist))
                       "9" [] _ Hne Hin eq_refl Hres))).
Defined.

(** ** A tool that cannot be run *)

(** X17.  A tool that cannot be run ends the program at the tool check,
    after that single attempt: when the executable is missing, the
    installation help is printed and the exit status is 1; when the
    invocation is interrupted, the cancellation message is printed and the
    exit status is 0.  Standard input is not read in either case. *)
Theorem tool_check_aborts (w : World) (files : FS) :
  let attempt :=
    spawned ["help"] true files
      (add_out (banner ++ [Print "🔍 Checking for PowerApps CLI (pac)..."]) w) in
  (pac w (ncalls w) ["help"] true (fs w) = (ExecutableNotFound, files) ->
     program w = (1%Z, add_out install_help attempt))
  /\ (pac w (ncalls w) ["help"] true (fs w) = (ProcInterrupted, files) ->
      program w
      = (0%Z, add_out [Print (nl ++ nl ++ "⚠️  Export cancelled by user.")] attempt)).
Proof.
  intros attempt. split; intros Hpac.
  - apply exit_code_of_exit. rewrite main_select_banner.
    apply bind_exit. unfold check_pac_installed. rewrite bind_print, add_out_add_out.
    apply bind_exit.
    apply (run_pac_command_eq ["help"] true _ ExecutableNotFound files).
    rewrite run_outcome_pac by reflexivity. exact Hpac.
  - unfold program, main.
    rewrite (bind_raise _ _ w attempt KeyboardInterrupt); [reflexivity|].
    rewrite main_select_banner.
    apply bind_raise. unfold check_pac_installed. rewrite bind_print, add_out_add_out.
    apply bind_raise.
    apply (run_pac_command_eq ["help"] true _ ProcInterrupted files).
    rewrite run_outcome_pac by reflexivity. exact Hpac.
Qed.

Lemma tool_check_aborts_witness :
  exit_code (world_of (fun _ _ _ files => (ExecutableNotFound, files)) [Line "y"]) = 1%Z
  /\ exit_code (world_of (fun _ _ _ files => (ProcInterrupted, files)) [Line "y"]) = 0%Z.
Proof.
  split.
  - exact (f_equal fst
             (proj1 (tool_check_aborts
                       (world_of (fun _ _ _ files => (ExecutableNotFound, files)) [Line "y"]) ∅)
                eq_refl)).
  - exact (f_equal fst
             (proj2 (tool_check_aborts
                       (world_of (fun _ _ _ files => (ProcInterrupted, files)) [Line "y"]) ∅)
                eq_refl)).
Defined.

(** ** After a successful export *)

(** X18.  After a successful export in [main] the user is asked once
    whether to export another solution.  Any answer other than [y] or
    [yes] ends the program with exit status 0, and so does Ctrl-C; at the
    end of standard input the program ends with exit status 1 although the
    export succeeded.  In none of these cases is the tool invoked again. *)
Theorem after_successful_export (w w1 w2 : World) (solution_name : string) :
  main_select w = (Return solution_name, w1) ->
  export_solution solution_name default_output_dir w1 = (Return true, w2) ->
  (forall typed rest,
     stdin w2 = Line typed :: rest ->
     eq_any (Py.lower (Py.strip typed)) ["y"; "yes"] = false ->
     program w = (0%Z, set_stdin rest (add_out offer w2)))
  /\ (forall rest,
        stdin w2 = CtrlC :: rest ->
        program w
        = (0%Z, add_out [Print (nl ++ nl ++ "⚠️  Export cancelled by user.")]
                  (set_stdin rest (add_out offer w2))))
  /\ (stdin w2 = [] -> program w = (1%Z, add_out offer w2)).
Proof.
  intros Hsel Hexp.
  assert (Hmain : main w
                  = offer_another (export_another_solution (recursion_limit w2)) w2).
  { unfold main. rewrite (bind_run _ _ _ _ _ Hsel). unfold main_export.
    now rewrite (bind_run _ _ _ _ _ Hexp). }
  unfold program. rewrite Hmain. unfold offer_another.
  rewrite !bind_print, !add_out_add_out.
  split; [|split].
  - intros typed rest Hin Hno.
    rewrite (bind_input _ typed rest) by exact Hin.
    rewrite Hno, add_out_add_out. reflexivity.
  - intros rest Hin.
    erewrite bind_raise; [|apply input_interrupt; exact Hin].
    rewrite add_out_add_out. reflexivity.
  - intros Hin.
    erewrite bind_raise; [|apply input_eof; exact Hin].
    rewrite add_out_add_out. reflexivity.
Qed.

Lemma after_successful_export_witness :
  exit_code (sample_world [Line "y"; Line "2"; Line "no"]) = 0%Z
  /\ exit_code (sample_world [Line "y"; Line "2"; CtrlC]) = 0%Z
  /\ exit_code (sample_world [Line "y"; Line "2"]) = 1%Z.
Proof.
  split; [|split].
  - assert (Hsel : main_select (sample_world [Line "y"; Line "2"; Line "no"])
                   = (Return "B", snd (main_select (sample_world [Line "y"; Line "2"; Line "no"]))))
      by (refine (run_eq main_select _ (Return "B") _); vm_compute; reflexivity).
    assert (Hexp : export_solution "B" default_output_dir
                     (snd (main_select (sample_world [Line "y"; Line "2"; Line "no"])))
                   = (Return true,
                      snd (export_solution "B" default_output_dir
                             (snd (main_select (sample_world [Line "y"; Line "2"; Line "no"]))))))
      by (refine (run_eq (export_solution "B" default_output_dir) _ (Return true) _);
          vm_compute; reflexivity).
    assert (Hin : stdin (snd (export_solution "B" default_output_dir
                                (snd (main_select (sample_world [Line "y"; Line "2"; Line "no"])))))
                  = Line "no" :: []) by (vm_compute; reflexivity).
    exact (f_equal fst
             (proj1 (after_successful_export _ _ _ "B" Hsel Hexp) "no" [] Hin eq_refl)).
  - assert (Hsel : main_select (sample_world [Line "y"; Line "2"; CtrlC])
                   = (Return "B", snd (main_select (sample_world [Line "y"; Line "2"; CtrlC]))))
      by (refine (run_eq main_select _ (Return "B") _); vm_compute; reflexivity).
    assert (Hexp : export_solution "B" default_output_dir
                     (snd (main_select (sample_world [Line "y"; Line "2"; CtrlC])))
                   = (Return true,
                      snd (export_solution "B" default_output_dir
                             (snd (main_select (sample_world [Line "y"; Line "2"; CtrlC]))))))
      by (refine (run_eq (export_solution "B" default_output_dir) _ (Return true) _);
          vm_compute; reflexivity).
    assert (Hin : stdin (snd (export_solution "B" default_output_dir
                                (snd (main_select (sample_world [Line "y"; Line "2"; CtrlC])))))
                  = CtrlC :: []) by (vm_compute; reflexivity).
    exact (f_equal fst
             (proj1 (proj2 (after_successful_export _ _ _ "B" Hsel Hexp)) [] Hin)).
  - assert (Hsel : main_select (sample_world [Line "y"; Line "2"])
                   = (Return "B", snd (main_select (sample_world [Line "y"; Line "2"]))))
      by (refine (run_eq main_select _ (Return "B") _); vm_compute; reflexivity).
    assert (Hexp : export_solution "B" default_output_dir
                     (snd (main_select (sample_world [Line "y"; Line "2"])))
                   = (Return true,
                      snd (export_solution "B" default_output_dir
                             (snd (main_select (sample_world [Line "y"; Line "2"]))))))
      by (refine (run_eq (export_solution "B" default_output_dir) _ (Return true) _);
          vm_compute; reflexivity).
    assert (Hin : stdin (snd (export_solution "B" default_output_dir
                                (snd (main_select (sample_world [Line "y"; Line "2"])))))
                  = []) by (vm_compute; reflexivity).
    exact (f_equal fst (proj2 (proj2 (after_successful_export _ _ _ "B" Hsel Hexp)) Hin)).
Defined.

(** ** The target name determines the solution and the time *)

Lemma app_inj_length (s1 s2 t1 t2 : string) :
  String.length s1 = String.length s2 -> s1 ++ t1 = s2 ++ t2 -> s1 = s2 /\ t1 = t2.
Proof.
  revert s2. induction s1 as [|c s1 IH]; intros [|c2 s2] Hlen; try discriminate Hlen.
  - rewrite !app_empty_l. now split.
  - rewrite !app_cons. intros [= -> Heq].
    destruct (IH s2 ltac:(simpl in Hlen; lia) Heq) as [-> ->]. now split.
Qed.

Lemma app_inj_tail_length (s1 s2 t1 t2 : string) :
  String.length t1 = String.length t2 -> s1 ++ t1 = s2 ++ t2 -> s1 = s2 /\ t1 = t2.
Proof.
  intros Hlen Heq. apply app_inj_length; [|exact Heq].
  apply (f_equal String.length) in Heq. rewrite !length_app_str in Heq. lia.
Qed.

Lemma str_of_nat_inj (n m : nat) : Py.str_of_nat n = Py.str_of_nat m -> n = m.
Proof.
  intros H. apply (f_equal (Py.int_digits false 0)) in H.
  rewrite !int_digits_str_of_nat in H. injection H as H. lia.
Qed.

Lemma two_digits_inj (n m : nat) : two_digits n = two_digits m -> n = m.
Proof.
  intros H. apply (f_equal (Py.int_digits false 0)) in H. unfold two_digits in H.
  rewrite !int_digits_zfill in H. injection H as H. lia.
Qed.

Lemma timestamp_inj (d1 d2 : datetime) :
  valid_datetime d1 -> valid_datetime d2 ->
  date_part d1 = date_part d2 -> time_part d1 = time_part d2 -> d1 = d2.
Proof.
  intros (Hy1 & Hmo1 & Hd1 & Hh1 & Hmi1 & Hs1) (Hy2 & Hmo2 & Hd2 & Hh2 & Hmi2 & Hs2).
  unfold date_part, time_part. intros Hdate Htime.
  apply app_inj_length in Hdate as [Hyear Hdate];
    [|now rewrite (proj1 (year_digits _ Hy1)), (proj1 (year_digits _ Hy2))].
  apply app_inj_length in Hdate as [Hmonth Hday];
    [|rewrite !(fun n H => proj1 (two_digits_digits n H)); [reflexivity|lia|lia]].
  apply app_inj_length in Htime as [Hhour Htime];
    [|rewrite !(fun n H => proj1 (two_digits_digits n H)); [reflexivity|lia|lia]].
  apply app_inj_length in Htime as [Hminute Hsecond];
    [|rewrite !(fun n H => proj1 (two_digits_digits n H)); [reflexivity|lia|lia]].
  apply str_of_nat_inj in Hyear.
  apply two_digits_inj in Hmonth, Hday, Hhour, Hminute, Hsecond.
  destruct d1, d2. cbn in *. congruence.
Qed.

(** X19.  The file name of the target determines both the solution name
    and the time of the call: for call times with a four-digit year, two
    file names computed by [export_solution] are equal exactly when the
    solution names are equal and the times agree to the second. *)
Theorem export_filename_injective (name1 name2 : string) (d1 d2 : datetime) :
  valid_datetime d1 -> valid_datetime d2 ->
  export_filename name1 d1 = export_filename name2 d2 <-> name1 = name2 /\ d1 = d2.
Proof.
  intros Hd1 Hd2. split; [|now intros [-> ->]].
  rewrite !export_filename_shape. intros Heq.
  destruct (timestamp_digits d1 Hd1) as [[Hl1 _] [Hl1' _]].
  destruct (timestamp_digits d2 Hd2) as [[Hl2 _] [Hl2' _]].
  apply app_inj_tail_length in Heq as [Hname Heq];
    [|rewrite !length_app_str, Hl1, Hl2, Hl1', Hl2'; reflexivity].
  split; [exact Hname|].
  apply (app_inj_length "_" "_") in Heq as [_ Heq]; [|reflexivity].
  apply app_inj_length in Heq as [Hdate Heq]; [|now rewrite Hl1, Hl2].
  apply (app_inj_length "_" "_") in Heq as [_ Heq]; [|reflexivity].
  apply app_inj_length in Heq as [Htime _]; [|now rewrite Hl1', Hl2'].
  now apply timestamp_inj.
Qed.

Lemma export_filename_injective_witness :
  export_filename "Foo" (sample_clock 0) <> export_filename "Foo" (sample_clock 1).
Proof.
  intros Heq.
  apply (export_filename_injective "Foo" "Foo" (sample_clock 0) (sample_clock 1)
           (sample_clock_valid 0 ltac:(lia)) (sample_clock_valid 1 ltac:(lia))) in Heq.
  destruct Heq as [_ Heq]. discriminate Heq.
Defined.
